(** * Banking assistant: session history and tool-call orchestration

    A shallow embedding of [mock_data_loader.py] (the account directory)
    and [async-disha.py] (the tool executor, the conversation engine and
    the two HTTP endpoints), followed by the properties of the
    specification that concern them.

    Python values are embedded as the JSON-shaped type [pyval]; Python
    exceptions as the error side of [result]; the session map
    [self.conversations] as a [gmap string (list message)]; the external
    completion service as a state-passing function over an abstract world. *)

From Stdlib Require Import ZArith String Ascii List SpecFloat Lia.
From Stdlib Require Import DecimalString DecimalPos DecimalN.
From stdpp Require Import gmap strings list.

#[local] Set Warnings "-register-all".

Local Open Scope string_scope.
Local Open Scope list_scope.
Local Open Scope Z_scope.

(** ** Python values and exceptions *)

(** The values that [json.load] / [json.loads] produce and that
    [json.dumps] consumes.  A [dict] keeps its insertion order (it matters
    to [json.dumps]); its keys are strings. Floats are binary64 values. *)
Inductive pyval : Type :=
| PNone
| PBool (b : bool)
| PInt (z : Z)
| PFloat (f : spec_float)
| PStr (s : string)
| PList (l : list pyval)
| PDict (d : list (string * pyval)).

Abbreviation pydict := (list (string * pyval)).

(** The exceptions the modelled code can raise. *)
Inductive exn : Type :=
| KeyError (key : string)
| TypeError
| ValueError
| IndexError
| OverflowError
| UnboundLocalError (var : string)
| JSONDecodeError
| APIError (detail : string).

Inductive result (A : Type) : Type :=
| Ok (a : A)
| Err (e : exn).
Arguments Ok {A} a.
Arguments Err {A} e.

Definition rbind {A B} (r : result A) (k : A -> result B) : result B :=
  match r with
  | Ok a => k a
  | Err e => Err e
  end.

Declare Scope result_scope.
Delimit Scope result_scope with result.
Notation "'let?' x ':=' c 'in' k" := (rbind c (fun x => k))
  (at level 10, x name, c at level 100, k at level 200) : result_scope.

(** [d.get(k)] on a dict with string keys: [None] when the key is absent. *)
Fixpoint dget (d : pydict) (k : string) : option pyval :=
  match d with
  | [] => None
  | (k', v) :: d' => if String.eqb k' k then Some v else dget d' k
  end.

(** [d.get(k, default)] *)
Definition dget_default (d : pydict) (k : string) (default : pyval) : pyval :=
  match dget d k with
  | Some v => v
  | None => default
  end.

(** [d.get(k)]: Python's [None] when the key is absent. *)
Definition dget_none (d : pydict) (k : string) : pyval :=
  dget_default d k PNone.

(** [d[k]]: raises [KeyError] when the key is absent. *)
Definition dsubscript (d : pydict) (k : string) : result pyval :=
  match dget d k with
  | Some v => Ok v
  | None => Err (KeyError k)
  end.

(** [bool(d)] for a dict: true when it is not empty. *)
Definition dict_truthy (d : pydict) : bool :=
  match d with
  | [] => false
  | _ :: _ => true
  end.

(** *** Python's [==] *)

(** The exact value of a finite float compared with an integer. *)
Definition int_eq_float (z : Z) (f : spec_float) : bool :=
  match f with
  | S754_zero _ => z =? 0
  | S754_finite s m e =>
      let sm := if s then Z.neg m else Z.pos m in
      if 0 <=? e then z =? sm * 2 ^ e else z * 2 ^ (- e) =? sm
  | S754_infinity _ | S754_nan => false
  end.

Definition int_of_bool (b : bool) : Z := if b then 1 else 0.

(** [a == b] on values; [bool] is a subclass of [int], numbers compare by
    value, a string equals only the same string, dicts compare as maps. *)
Fixpoint py_eq (a b : pyval) {struct a} : bool :=
  match a, b with
  | PNone, PNone => true
  | PBool x, PBool y => Bool.eqb x y
  | PBool x, PInt y => int_of_bool x =? y
  | PBool x, PFloat y => int_eq_float (int_of_bool x) y
  | PInt x, PBool y => x =? int_of_bool y
  | PInt x, PInt y => x =? y
  | PInt x, PFloat y => int_eq_float x y
  | PFloat x, PBool y => int_eq_float (int_of_bool y) x
  | PFloat x, PInt y => int_eq_float y x
  | PFloat x, PFloat y => SFeqb x y
  | PStr s, PStr t => String.eqb s t
  | PList l, PList m =>
      (fix go (l m : list pyval) {struct l} : bool :=
         match l, m with
         | [], [] => true
         | x :: l', y :: m' => py_eq x y && go l' m'
         | _, _ => false
         end) l m
  | PDict d, PDict e =>
      Nat.eqb (length d) (length e) &&
      (fix go (d : pydict) {struct d} : bool :=
         match d with
         | [] => true
         | (k, v) :: d' =>
             match dget e k with
             | Some w => py_eq v w
             | None => false
             end && go d'
         end) d
  | _, _ => false
  end.

(** ** [mock_data_loader.py]: the account directory *)

(** [self.data]: the three keyed collections of the data file, each from
    a key to a JSON object ([Dict[str, Any]] in the annotations of the
    getters).  A collection missing from the file reads as the empty one
    ([self.data.get("accounts", {})]). *)
Record MockData : Type := {
  accounts : gmap string pydict;
  account_types : gmap string pydict;
  currencies : gmap string pydict
}.

(** What [load_data] leaves when the file is not found. *)
Definition empty_data : MockData :=
  {| accounts := ∅; account_types := ∅; currencies := ∅ |}.

(** [coll.get(key, {})] where [key] is any value: a list or a dict is
    unhashable, every other value that is not a string equals no key. *)
Definition coll_get (coll : gmap string pydict) (key : pyval) : result pydict :=
  match key with
  | PStr s => Ok (default [] (coll !! s))
  | PList _ | PDict _ => Err TypeError
  | _ => Ok []
  end.

(** *** The format specification [,.2f] *)

Definition string_of_nat_Z (z : Z) : string :=
  NilEmpty.string_of_uint (N.to_uint (Z.to_N z)).

(** Thousands separators, on the digits in reverse order. *)
Fixpoint group3_rev (l : list ascii) : list ascii :=
  match l with
  | a :: b :: c :: ((_ :: _) as rest) =>
      a :: b :: c :: ","%char :: group3_rev rest
  | _ => l
  end.

Definition insert_commas (s : string) : string :=
  string_of_list_ascii (rev (group3_rev (rev (list_ascii_of_string s)))).

(** The magnitude [m * 2^e] in hundredths, rounded to the nearest integer,
    ties to even: float formatting is correctly rounded on the exact
    binary value. *)
Definition cents_of (m : positive) (e : Z) : Z :=
  if 0 <=? e then Z.pos m * 2 ^ e * 100
  else
    let num := Z.pos m * 100 in
    let den := 2 ^ (- e) in
    let q := num / den in
    let r := num mod den in
    match 2 * r ?= den with
    | Lt => q
    | Gt => q + 1
    | Eq => if Z.even q then q else q + 1
    end.

Definition two_digits (n : Z) : string :=
  if n <? 10 then "0" +:+ string_of_nat_Z n else string_of_nat_Z n.

Definition format_cents (n : Z) : string :=
  insert_commas (string_of_nat_Z (n / 100)) +:+ "." +:+ two_digits (n mod 100).

Definition sign_string (s : bool) : string := if s then "-" else "".

(** [format(x, ",.2f")] for a float [x]. *)
Definition format_float_2f (x : spec_float) : string :=
  match x with
  | S754_nan => "nan"
  | S754_infinity s => sign_string s +:+ "inf"
  | S754_zero s => sign_string s +:+ "0.00"
  | S754_finite s m e => sign_string s +:+ format_cents (cents_of m e)
  end.

(** [float(z)] for an int: nearest binary64 value, ties to even;
    [OverflowError] outside the range of the finite floats. *)
Definition float_of_int (z : Z) : result spec_float :=
  match binary_normalize 53 1024 z 0 false with
  | S754_infinity _ => Err OverflowError
  | f => Ok f
  end.

(** [format(v, ",.2f")] for any value: an int (and a bool, a subclass of
    int) is converted to a float first; a string rejects the format code
    with [ValueError]; [None], lists and dicts reject every non-empty
    format string with [TypeError]. *)
Definition format_2f (v : pyval) : result string :=
  match v with
  | PFloat x => Ok (format_float_2f x)
  | PInt z => (let? x := float_of_int z in Ok (format_float_2f x))%result
  | PBool b => (let? x := float_of_int (int_of_bool b) in Ok (format_float_2f x))%result
  | PStr _ => Err ValueError
  | PNone | PList _ | PDict _ => Err TypeError
  end.

(** The binary64 value nearest to [m * 2^e]. *)
Definition b64 (m e : Z) : spec_float := binary_normalize 53 1024 m e false.

Section MockDataLoader.
Variable data : MockData.

(** [str(v)] for a value [v] that is not a string (the text an f-string
    inserts for it); a function of the Python runtime. *)
Variable py_repr : pyval -> string.

(** [f"{v}"] *)
Definition format_default (v : pyval) : string :=
  match v with
  | PStr s => s
  | _ => py_repr v
  end.

Definition get_account (account_number : pyval) : result pydict :=
  coll_get (accounts data) account_number.

Definition get_account_type_details (account_type : pyval) : result pydict :=
  coll_get (account_types data) account_type.

Definition get_currency_details (currency_code : pyval) : result pydict :=
  coll_get (currencies data) currency_code.

Definition validate_account_and_pin (account_number pin : pyval) : result bool :=
  (let? account := get_account account_number in
   Ok (py_eq (dget_none account "pin") pin))%result.

Definition get_formatted_balance (account_number : pyval) : result string :=
  (let? account := get_account account_number in
   if negb (dict_truthy account) then Ok "Account not found"
   else
     let? currency := get_currency_details (dget_default account "currency" (PStr "USD")) in
     let symbol := dget_default currency "symbol" (PStr "$") in
     let? amount := format_2f (dget_default account "balance" (PInt 0)) in
     Ok (format_default symbol +:+ amount))%result.

Definition get_account_status (account_number : pyval) : result pyval :=
  (let? account := get_account account_number in
   Ok (dget_default account "account_status" (PStr "unknown")))%result.
End MockDataLoader.

(** ** [async-disha.py]: messages, requests and replies *)

(** A tool-call request of the completion service: [tool_call.id],
    [tool_call.function.name], [tool_call.function.arguments]. *)
Record tool_call : Type := {
  call_id : string;
  function_name : string;
  function_arguments : string
}.

Inductive role_t : Type := System | User | Assistant | Tool.

(** A history entry.  [content = None] is Python's [None]; [tool_calls] and
    [tool_call_id] are [None] when the dict has no such key. *)
Record message : Type := {
  role : role_t;
  content : option string;
  tool_calls : option (list tool_call);
  tool_call_id : option string
}.

(** [response.choices[i].message] *)
Record completion_message : Type := {
  reply_content : option string;
  reply_tool_calls : option (list tool_call)
}.

(** A completion reply: its list of choices. *)
Record completion : Type := { choices : list completion_message }.

Record tool_schema : Type := {
  schema_name : string;
  schema_properties : list (string * string);
  schema_required : list string
}.

(** The keyword arguments of [client.chat.completions.create]. *)
Record request : Type := {
  model : string;
  messages : list message;
  tools : option (list tool_schema);
  tool_choice : option string
}.

Definition TOOLS : list tool_schema :=
  [ {| schema_name := "validate_account_number";
       schema_properties := [("account_number", "string")];
       schema_required := ["account_number"] |};
    {| schema_name := "validate_pin";
       schema_properties := [("account_number", "string"); ("pin", "string")];
       schema_required := ["account_number"; "pin"] |};
    {| schema_name := "get_account_balance";
       schema_properties := [("account_number", "string"); ("pin", "string")];
       schema_required := ["account_number"; "pin"] |} ].

(** The text of the system message, line breaks and indentation included. *)
Definition SYSTEM_PROMPT : string :=
  "You are a banking assistant that helps users check their account information. If an user speaks in Bengali, you reply in Bengali. Always reply in Bengali, but never use emojis. And Be concise and succinct.
                Follow a strict flow:
                1. Ask for account number first
                2. Then ask for PIN
                3. Then provide detailed account information including:
                   - Current balance with currency symbol
                   - Account type and its features
                   - Account status
                   - Last transaction date
                   - Account holder name
                
                Be professional but friendly. Use the provided functions to validate all information.
                If an account is frozen, warn the user appropriately.".

Definition system_message : message :=
  {| role := System; content := Some SYSTEM_PROMPT;
     tool_calls := None; tool_call_id := None |}.

Definition get_initial_conversation : list message := [system_message].

Definition user_message (user_input : string) : message :=
  {| role := User; content := Some user_input;
     tool_calls := None; tool_call_id := None |}.

(** [{"role": "assistant", "content": None, "tool_calls": [tool_call]}] *)
Definition call_message (tc : tool_call) : message :=
  {| role := Assistant; content := None;
     tool_calls := Some [tc]; tool_call_id := None |}.

(** [{"role": "tool", "tool_call_id": tool_call.id, "content": ...}] *)
Definition tool_message (tc : tool_call) (text : string) : message :=
  {| role := Tool; content := Some text;
     tool_calls := None; tool_call_id := Some (call_id tc) |}.

(** [{"role": "assistant", "content": assistant_response}] *)
Definition reply_message (assistant_response : option string) : message :=
  {| role := Assistant; content := assistant_response;
     tool_calls := None; tool_call_id := None |}.

Definition first_request (history : list message) : request :=
  {| model := "gpt-4o"; messages := history;
     tools := Some TOOLS; tool_choice := Some "auto" |}.

Definition second_request (history : list message) : request :=
  {| model := "gpt-4"; messages := history;
     tools := None; tool_choice := None |}.

(** The message carries a [tool_calls] list. *)
Definition has_tool_calls (m : message) : bool :=
  match tool_calls m with
  | Some _ => true
  | None => false
  end.

(** [v[k]] for a string [k]: only a dict can be indexed by a string. *)
Definition py_subscript (v : pyval) (k : string) : result pyval :=
  match v with
  | PDict d => dsubscript d k
  | _ => Err TypeError
  end.

(** [if xs:] for an optional list: [None] and the empty list are false. *)
Definition truthy_calls (xs : option (list tool_call)) : bool :=
  match xs with
  | Some (_ :: _) => true
  | _ => false
  end.

(** ** The tool executor *)

Section ToolExecutor.
Variable data : MockData.
Variable py_repr : pyval -> string.

Definition validate_account_number (account_number : pyval) : result pyval :=
  (let? account := get_account data account_number in
   let is_valid := dict_truthy account in
   Ok (PDict
         [ ("valid", PBool is_valid);
           ("message", PStr (if is_valid then "Account found" else "Account not found"));
           ("account_status",
             if is_valid then dget_none account "account_status" else PNone) ]))%result.

Definition validate_pin (account_number pin : pyval) : result pyval :=
  (let? is_valid := validate_account_and_pin data account_number pin in
   Ok (PDict
         [ ("valid", PBool is_valid);
           ("message", PStr (if is_valid then "PIN validated" else "Invalid PIN")) ]))%result.

Definition error_result (text : string) : pyval :=
  PDict [("status", PStr "error"); ("message", PStr text)].

Definition get_account_balance (account_number pin : pyval) : result pyval :=
  (let? credentials := validate_account_and_pin data account_number pin in
   if negb credentials then Ok (error_result "Invalid credentials")
   else
     let? account := get_account data account_number in
     if negb (dict_truthy account) then Ok (error_result "Account not found")
     else
       let? type_code := dsubscript account "account_type" in
       let? account_type_details := get_account_type_details data type_code in
       let? balance := dsubscript account "balance" in
       let? currency := dsubscript account "currency" in
       let? account_type := dsubscript account "account_type" in
       let? formatted_balance := get_formatted_balance data py_repr account_number in
       let? account_holder := dsubscript account "account_holder" in
       let? account_status := dsubscript account "account_status" in
       let? last_transaction := dsubscript account "last_transaction" in
       Ok (PDict
             [ ("status", PStr "success");
               ("data", PDict
                  [ ("balance", balance);
                    ("currency", currency);
                    ("account_type", account_type);
                    ("formatted_balance", PStr formatted_balance);
                    ("account_holder", account_holder);
                    ("account_status", account_status);
                    ("last_transaction", last_transaction);
                    ("account_features", PDict
                       [ ("daily_withdrawal_limit",
                           dget_none account_type_details "daily_withdrawal_limit");
                         ("minimum_balance",
                           dget_none account_type_details "minimum_balance");
                         ("interest_rate",
                           dget_none account_type_details "interest_rate");
                         ("monthly_fee",
                           dget_none account_type_details "monthly_fee");
                         ("term_length",
                           dget_none account_type_details "term_length") ]) ]) ]))%result.

(** The [if / elif / elif] chain of [process_message].  It has no [else]:
    for any other name the local variable [function_response] keeps
    whatever it held before ([None] here: not yet bound). *)
Definition dispatch (name : string) (function_args : pyval)
    (function_response : option pyval) : result (option pyval) :=
  (if String.eqb name "validate_account_number" then
     let? account_number := py_subscript function_args "account_number" in
     let? r := validate_account_number account_number in
     Ok (Some r)
   else if String.eqb name "validate_pin" then
     let? account_number := py_subscript function_args "account_number" in
     let? pin := py_subscript function_args "pin" in
     let? r := validate_pin account_number pin in
     Ok (Some r)
   else if String.eqb name "get_account_balance" then
     let? account_number := py_subscript function_args "account_number" in
     let? pin := py_subscript function_args "pin" in
     let? r := get_account_balance account_number pin in
     Ok (Some r)
   else Ok function_response)%result.
End ToolExecutor.

(** ** The conversation engine *)

Section Engine.
Variable data : MockData.
Variable py_repr : pyval -> string.

(** [json.loads]: [None] when it raises [JSONDecodeError]. *)
Variable json_loads : string -> option pyval.
(** [json.dumps] *)
Variable json_dumps : pyval -> string.

(** The completion service: an external collaborator whose replies are
    not determined by the program.  [World] is everything outside the
    process; a call consumes one world and yields the reply (or the
    exception the client raises) and the next world. *)
Variable World : Type.
Variable chat_completions_create : World -> request -> result completion * World.

(** The mutable state of a run: [chatbot.conversations] and the world. *)
Record engine : Type := {
  conversations : gmap string (list message);
  world : World
}.

(** Computations that read and write the engine state and may raise; the
    state reached when an exception is raised is kept. *)
Definition M (A : Type) : Type := engine -> result A * engine.

Definition ret {A} (a : A) : M A := fun s => (Ok a, s).

Definition bind {A B} (m : M A) (k : A -> M B) : M B :=
  fun s =>
    match m s with
    | (Ok a, s') => k a s'
    | (Err e, s') => (Err e, s')
    end.

Definition lift {A} (r : result A) : M A := fun s => (r, s).

Notation "'let!' x ':=' c 'in' k" := (bind c (fun x => k))
  (at level 10, x name, c at level 100, k at level 200).

(** [self.conversations[session_id]] *)
Definition history (session_id : string) : M (list message) :=
  fun s =>
    match conversations s !! session_id with
    | Some h => (Ok h, s)
    | None => (Err (KeyError session_id), s)
    end.

(** [self.conversations[session_id].append(msg)] *)
Definition append (session_id : string) (msg : message) : M unit :=
  fun s =>
    match conversations s !! session_id with
    | Some h =>
        (Ok tt, {| conversations := <[session_id := h ++ [msg]]> (conversations s);
                   world := world s |})
    | None => (Err (KeyError session_id), s)
    end.

(** [if session_id not in self.conversations:
       self.conversations[session_id] = self.get_initial_conversation()] *)
Definition ensure_session (session_id : string) : M unit :=
  fun s =>
    match conversations s !! session_id with
    | Some _ => (Ok tt, s)
    | None =>
        (Ok tt, {| conversations :=
                     <[session_id := get_initial_conversation]> (conversations s);
                   world := world s |})
    end.

(** [await self.client.chat.completions.create(...)] *)
Definition create (req : request) : M completion :=
  fun s =>
    let '(r, w) := chat_completions_create (world s) req in
    (r, {| conversations := conversations s; world := w |}).

(** [response.choices[0].message] *)
Definition first_choice (response : completion) : result completion_message :=
  match choices response with
  | m :: _ => Ok m
  | [] => Err IndexError
  end.

(** One iteration of [for tool_call in assistant_message.tool_calls],
    from the value of the local [function_response] before it to its
    value after it. *)
Definition tool_step (session_id : string) (tc : tool_call)
    (function_response : option pyval) : M (option pyval) :=
  let! function_args :=
    lift (match json_loads (function_arguments tc) with
          | Some v => Ok v
          | None => Err JSONDecodeError
          end) in
  let! function_response :=
    lift (dispatch data py_repr (function_name tc) function_args function_response) in
  let! _ := append session_id (call_message tc) in
  let! _ := history session_id in
  let! r :=
    lift (match function_response with
          | Some r => Ok r
          | None => Err (UnboundLocalError "function_response")
          end) in
  let! _ := append session_id (tool_message tc (json_dumps r)) in
  ret function_response.

Fixpoint tool_loop (session_id : string) (tcs : list tool_call)
    (function_response : option pyval) : M (option pyval) :=
  match tcs with
  | [] => ret function_response
  | tc :: rest =>
      let! function_response := tool_step session_id tc function_response in
      tool_loop session_id rest function_response
  end.

Definition process_message (session_id user_input : string) : M (option string) :=
  let! _ := ensure_session session_id in
  let! _ := append session_id (user_message user_input) in
  let! h := history session_id in
  let! response := create (first_request h) in
  let! assistant_message := lift (first_choice response) in
  let! assistant_response :=
    (if truthy_calls (reply_tool_calls assistant_message) then
       let! _ := tool_loop session_id
                   (default [] (reply_tool_calls assistant_message)) None in
       let! h := history session_id in
       let! second_response := create (second_request h) in
       let! m := lift (first_choice second_response) in
       ret (reply_content m)
     else ret (reply_content assistant_message)) in
  let! _ := append session_id (reply_message assistant_response) in
  ret assistant_response.

(** *** The turn as a function of the replies

    The same computation written without the monad: the messages one
    run of the loop appends and how it ends. *)
Fixpoint tool_trace (tcs : list tool_call) (function_response : option pyval)
    : list message * result (option pyval) :=
  match tcs with
  | [] => ([], Ok function_response)
  | tc :: rest =>
      match json_loads (function_arguments tc) with
      | None => ([], Err JSONDecodeError)
      | Some function_args =>
          match dispatch data py_repr (function_name tc) function_args
                  function_response with
          | Err e => ([], Err e)
          | Ok None => ([call_message tc], Err (UnboundLocalError "function_response"))
          | Ok (Some r) =>
              let '(ms, out) := tool_trace rest (Some r) in
              (call_message tc :: tool_message tc (json_dumps r) :: ms, out)
          end
      end
  end.

Definition set_history (s : engine) (session_id : string) (h : list message)
    : engine :=
  {| conversations := <[session_id := h]> (conversations s); world := world s |}.

Definition set_world (s : engine) (w : World) : engine :=
  {| conversations := conversations s; world := w |}.

(** The history a turn starts from: the stored one, or the seed. *)
Definition base_history (s : engine) (session_id : string) : list message :=
  default get_initial_conversation (conversations s !! session_id).

(** The value [function_response] holds when the tool message of [tc] is
    built, given its value before the iteration. *)
Definition tool_response (tc : tool_call) (function_response : option pyval)
    : result pyval :=
  match json_loads (function_arguments tc) with
  | None => Err JSONDecodeError
  | Some function_args =>
      (let? fr := dispatch data py_repr (function_name tc) function_args
                    function_response in
       match fr with
       | Some r => Ok r
       | None => Err (UnboundLocalError "function_response")
       end)%result
  end.

(** These values for a whole request list, in request order. *)
Fixpoint tool_responses (tcs : list tool_call) (function_response : option pyval)
    : result (list pyval) :=
  match tcs with
  | [] => Ok []
  | tc :: rest =>
      (let? r := tool_response tc function_response in
       let? rs := tool_responses rest (Some r) in
       Ok (r :: rs))%result
  end.

(** The value of [function_response] after iterations that produced [rs]. *)
Definition response_after (function_response : option pyval) (rs : list pyval)
    : option pyval :=
  fold_left (fun _ r => Some r) rs function_response.

(** The assistant / tool message pairs of requests [tcs] with results [rs]. *)
Fixpoint pairs (tcs : list tool_call) (rs : list pyval) : list message :=
  match tcs, rs with
  | tc :: tcs', r :: rs' =>
      call_message tc :: tool_message tc (json_dumps r) :: pairs tcs' rs'
  | _, _ => []
  end.

(** One whole turn, by cases on what the completion service replies:
    from the history and the world the turn starts in to the outcome, the
    history and the world it ends in. *)
Definition turn_result (h0 : list message) (w : World) (user_input : string)
    : result (option string) * list message * World :=
  let h1 := h0 ++ [user_message user_input] in
  let '(r1, w1) := chat_completions_create w (first_request h1) in
  match rbind r1 first_choice with
  | Err e => (Err e, h1, w1)
  | Ok assistant_message =>
      if truthy_calls (reply_tool_calls assistant_message) then
        let '(ms, out) :=
          tool_trace (default [] (reply_tool_calls assistant_message)) None in
        let h2 := h1 ++ ms in
        match out with
        | Err e => (Err e, h2, w1)
        | Ok _ =>
            let '(r2, w2) := chat_completions_create w1 (second_request h2) in
            match rbind r2 first_choice with
            | Err e => (Err e, h2, w2)
            | Ok m =>
                (Ok (reply_content m),
                 h2 ++ [reply_message (reply_content m)], w2)
            end
        end
      else
        (Ok (reply_content assistant_message),
         h1 ++ [reply_message (reply_content assistant_message)], w1)
  end.

Definition turn (session_id user_input : string) (s : engine)
    : result (option string) * engine :=
  let '(out, h, w) := turn_result (base_history s session_id) (world s) user_input in
  (out, set_world (set_history s session_id h) w).

(** ** The HTTP endpoints *)

Inductive http_response : Type :=
| Http200 (body : list (string * option string))
| Http500 (detail : exn).

(** [POST /chat/{session_id}] *)
Definition chat_endpoint (session_id user_input : string)
    (s : engine) : http_response * engine :=
  match process_message session_id user_input s with
  | (Ok response, s') => (Http200 [("response", response)], s')
  | (Err e, s') => (Http500 e, s')
  end.

(** [DELETE /chat/{session_id}] *)
Definition end_session (session_id : string)
    (s : engine) : http_response * engine :=
  (Http200 [("message", Some "Session ended successfully")],
   match conversations s !! session_id with
   | Some _ => {| conversations := delete session_id (conversations s);
                  world := world s |}
   | None => s
   end).
End Engine.

Arguments conversations {World} e.
Arguments world {World} e.
Arguments Build_engine {World} conversations world.
Arguments ret {World A} a s.
Arguments bind {World A B} m k s.
Arguments lift {World A} r s.
Arguments history {World} session_id s.
Arguments append {World} session_id msg s.
Arguments ensure_session {World} session_id s.
Arguments create {World} chat_completions_create req s.
Arguments set_history {World} s session_id h.
Arguments set_world {World} s w.
Arguments base_history {World} s session_id.
Arguments tool_step data py_repr json_loads json_dumps {World} session_id tc function_response s.
Arguments tool_loop data py_repr json_loads json_dumps {World} session_id tcs function_response s.
Arguments process_message data py_repr json_loads json_dumps {World} chat_completions_create session_id user_input s.
Arguments chat_endpoint data py_repr json_loads json_dumps {World} chat_completions_create session_id user_input s.
Arguments end_session {World} session_id s.
Arguments http_response : clear implicits.
Arguments turn data py_repr json_loads json_dumps {World} chat_completions_create session_id user_input s.
Arguments turn_result data py_repr json_loads json_dumps {World} chat_completions_create h0 w user_input.

(** ** Reading an amount back

    The specification's side of the format: an amount "with thousands
    separators and two decimal places" is a text that [read_amount]
    accepts, and the number it reads is the amount in hundredths. *)

Definition is_digit (c : ascii) : bool :=
  match uint_of_char c (Some Decimal.Nil) with
  | Some _ => true
  | None => false
  end.

Definition not_comma (c : ascii) : bool := negb (Ascii.eqb c ",").

Definition read_number (s : string) : option Z :=
  option_map (fun d => Z.of_N (N.of_uint d)) (NilEmpty.uint_of_string s).

(** The characters before and after the first point. *)
Fixpoint split_point (l : list ascii) : option (list ascii * list ascii) :=
  match l with
  | [] => None
  | c :: l' =>
      if Ascii.eqb c "." then Some ([], l')
      else option_map (fun p => (c :: fst p, snd p)) (split_point l')
  end.

(** On the whole part in reverse: digits in groups of three separated by
    commas, the leading group of one to three digits. *)
Fixpoint well_grouped_rev (l : list ascii) : bool :=
  match l with
  | [] => false
  | [a] => is_digit a
  | [a; b] => is_digit a && is_digit b
  | [a; b; c] => is_digit a && is_digit b && is_digit c
  | a :: b :: c :: sep :: rest =>
      is_digit a && is_digit b && is_digit c && Ascii.eqb sep ","
      && well_grouped_rev rest
  end.

Definition read_amount (s : string) : option Z :=
  match split_point (list_ascii_of_string s) with
  | Some (whole, [d1; d2]) =>
      if well_grouped_rev (rev whole) then
        match read_number (string_of_list_ascii (List.filter not_comma whole)),
              read_number (string_of_list_ascii [d1; d2]) with
        | Some a, Some b => Some (100 * a + b)
        | _, _ => None
        end
      else None
  | _ => None
  end.

(** A signed amount: an amount, after a minus sign or after nothing; read
    as the sign (true for the minus) and the hundredths. *)
Definition read_signed_amount (s : string) : option (bool * Z) :=
  match s with
  | EmptyString => None
  | String a rest =>
      if Ascii.eqb a "-" then option_map (pair true) (read_amount rest)
      else option_map (pair false) (read_amount s)
  end.

(** The two fraction digits of [k] are two characters that read as [k]. *)
Definition two_digits_ok (k : Z) : bool :=
  match list_ascii_of_string (two_digits k) with
  | [_; _] =>
      match read_number (two_digits k) with
      | Some v => v =? k
      | None => false
      end
  | _ => false
  end.

(** [c] hundredths is a nearest integer to [m * 2^e * 100]. *)
Definition nearest_hundredth (m : positive) (e : Z) (c : Z) : Prop :=
  2 * Z.abs (Z.pos m * 100 * 2 ^ Z.max e 0 - c * 2 ^ Z.max (- e) 0)
    <= 2 ^ Z.max (- e) 0.

(** [c] hundredths is the integer nearest to [m * 2^e * 100], the even one
    of the two when both are equally near. *)
Definition rounds_half_even (m : positive) (e : Z) (c : Z) : Prop :=
  nearest_hundredth m e c /\
  (2 * Z.abs (Z.pos m * 100 * 2 ^ Z.max e 0 - c * 2 ^ Z.max (- e) 0)
     = 2 ^ Z.max (- e) 0 ->
   Z.even c = true).

(** ** Notions of the specification *)

(** The account exists and its stored PIN is exactly the string [pin]. *)
Definition credentials_match (data : MockData) (account_number pin : string) : Prop :=
  exists record,
    accounts data !! account_number = Some record /\
    dget record "pin" = Some (PStr pin).

(** The scenario account: number 12345, PIN 0000, balance 500.0 in USD
    whose symbol is the dollar sign, status active; the remaining fields
    of a record are present. *)
Definition scenario_12345 (data : MockData) : Prop :=
  exists record type_code holder last usd,
    accounts data !! "12345" = Some record /\
    dget record "pin" = Some (PStr "0000") /\
    dget record "balance" = Some (PFloat (b64 500 0)) /\
    dget record "currency" = Some (PStr "USD") /\
    dget record "account_status" = Some (PStr "active") /\
    dget record "account_type" = Some (PStr type_code) /\
    dget record "account_holder" = Some holder /\
    dget record "last_transaction" = Some last /\
    currencies data !! "USD" = Some usd /\
    dget usd "symbol" = Some (PStr "$").

(** An account record whose balance is the float [x], in a currency whose
    symbol is the string [symbol]. *)
Definition holds_balance (data : MockData) (account_number : string)
    (symbol : string) (x : spec_float) : Prop :=
  exists record code currency,
    accounts data !! account_number = Some record /\
    dget record "balance" = Some (PFloat x) /\
    dget record "currency" = Some (PStr code) /\
    currencies data !! code = Some currency /\
    dget currency "symbol" = Some (PStr symbol).

(** The account exists and holds [balance], whatever value that is, in a
    currency of the table whose symbol is the string [symbol]. *)
Definition account_balance (data : MockData) (account_number : string)
    (symbol : string) (balance : pyval) : Prop :=
  exists record code currency,
    accounts data !! account_number = Some record /\
    dget record "balance" = Some balance /\
    dget record "currency" = Some (PStr code) /\
    currencies data !! code = Some currency /\
    dget currency "symbol" = Some (PStr symbol).

(** ** Fixtures

    The data file of the repository is not part of the sources; the
    scenarios of the specification name one account.  The fixture below
    holds that account (number 12345, PIN 0000, balance 500.0 USD, active)
    and a second one with balance 1234.5. *)

Definition fixture_account (pin_code : string) (balance : spec_float) : pydict :=
  [ ("pin", PStr pin_code);
    ("balance", PFloat balance);
    ("currency", PStr "USD");
    ("account_type", PStr "savings");
    ("account_holder", PStr "John Doe");
    ("account_status", PStr "active");
    ("last_transaction", PStr "2024-01-15") ].

Definition fixture_data : MockData :=
  {| accounts :=
       <["12345" := fixture_account "0000" (b64 500 0)]>
         (<["67890" := fixture_account "4321" (b64 2469 (-1))]> ∅);
     account_types :=
       <["savings" := [ ("minimum_balance", PInt 100);
                        ("interest_rate", PFloat (b64 5 (-1))) ]]> ∅;
     currencies :=
       <["USD" := [ ("symbol", PStr "$"); ("name", PStr "US Dollar") ]]> ∅ |}.

(** Balances of other kinds: account 24680 is overdrawn by 1234.5, account
    13579 holds the integer 1234567, account 11111 the integer -42 and
    account 22222 the float zero. *)
Definition overdrawn_data : MockData :=
  {| accounts :=
       <["24680" := [ ("balance", PFloat (b64 (-2469) (-1)));
                      ("currency", PStr "USD") ]]>
         (<["13579" := [ ("balance", PInt 1234567); ("currency", PStr "USD") ]]>
            (<["11111" := [ ("balance", PInt (-42)); ("currency", PStr "USD") ]]>
               (<["22222" := [ ("balance", PFloat (S754_zero false));
                               ("currency", PStr "USD") ]]> ∅)));
     account_types := ∅;
     currencies :=
       <["USD" := [ ("symbol", PStr "$"); ("name", PStr "US Dollar") ]]> ∅ |}.

(** In the fixture every currency symbol is a string, so [str()] of other
    values is never asked for. *)
Definition fixture_repr (v : pyval) : string := "".

Definition dquote : string := String "034"%char EmptyString.

Definition quoted (s : string) : string := dquote +:+ s +:+ dquote.

(** The argument texts of the example requests:
    an object with the account number, one with number and PIN, and the
    empty object. *)
Definition args_account : string :=
  "{" +:+ quoted "account_number" +:+ ": " +:+ quoted "12345" +:+ "}".

Definition args_account_pin : string :=
  "{" +:+ quoted "account_number" +:+ ": " +:+ quoted "12345" +:+ ", "
      +:+ quoted "pin" +:+ ": " +:+ quoted "0000" +:+ "}".

Definition args_empty : string := "{}".

(** [json.loads] on these three texts (any other text is taken as
    malformed, which the examples never reach). *)
Definition fixture_loads (text : string) : option pyval :=
  if String.eqb text args_account then
    Some (PDict [("account_number", PStr "12345")])
  else if String.eqb text args_account_pin then
    Some (PDict [("account_number", PStr "12345"); ("pin", PStr "0000")])
  else if String.eqb text args_empty then Some (PDict [])
  else None.

Definition join_comma (items : list string) : string :=
  String.concat ", " items.

(** [json.dumps] on values without floats and with plain ASCII strings,
    which is all the examples serialise (a float is written as a
    placeholder). *)
Fixpoint fixture_dumps (v : pyval) : string :=
  match v with
  | PNone => "null"
  | PBool b => if b then "true" else "false"
  | PInt z => if z <? 0 then "-" +:+ string_of_nat_Z (- z) else string_of_nat_Z z
  | PFloat _ => "NaN"
  | PStr s => quoted s
  | PList l => "[" +:+ join_comma (map fixture_dumps l) +:+ "]"
  | PDict d =>
      "{" +:+ join_comma
                (map (fun kv => quoted (fst kv) +:+ ": " +:+ fixture_dumps (snd kv)) d)
          +:+ "}"
  end.

(** A completion service that answers from a script, whatever it is asked. *)
Definition scripted_create (w : list (result completion)) (req : request)
    : result completion * list (result completion) :=
  match w with
  | r :: w' => (r, w')
  | [] => (Err (APIError "no reply"), [])
  end.

Definition requests_reply (tcs : list tool_call) : result completion :=
  Ok {| choices := [ {| reply_content := None; reply_tool_calls := Some tcs |} ] |}.

Definition text_reply (text : string) : result completion :=
  Ok {| choices := [ {| reply_content := Some text; reply_tool_calls := None |} ] |}.

Definition call_validate_account : tool_call :=
  {| call_id := "call_1"; function_name := "validate_account_number";
     function_arguments := args_account |}.

Definition call_validate_pin : tool_call :=
  {| call_id := "call_2"; function_name := "validate_pin";
     function_arguments := args_account_pin |}.

Definition call_balance : tool_call :=
  {| call_id := "call_3"; function_name := "get_account_balance";
     function_arguments := args_account_pin |}.

(** A request for a tool the engine does not have. *)
Definition call_transfer : tool_call :=
  {| call_id := "call_9"; function_name := "transfer_funds";
     function_arguments := args_empty |}.

(** A request for the PIN check whose arguments are the empty object. *)
Definition call_pin_without_arguments : tool_call :=
  {| call_id := "call_7"; function_name := "validate_pin";
     function_arguments := args_empty |}.

(** An engine with no session yet, in front of a scripted service. *)
Definition fresh_engine (script : list (result completion))
    : engine (list (result completion)) :=
  {| conversations := ∅; world := script |}.

Definition fixture_process_message :=
  process_message fixture_data fixture_repr fixture_loads fixture_dumps
    scripted_create.

Definition validate_account_result : pyval :=
  PDict [ ("valid", PBool true); ("message", PStr "Account found");
          ("account_status", PStr "active") ].

Definition validate_pin_result : pyval :=
  PDict [ ("valid", PBool true); ("message", PStr "PIN validated") ].

(** First reply: two requests; second reply: a text. *)
Definition example_two_calls : engine (list (result completion)) :=
  fresh_engine [ requests_reply [call_validate_account; call_validate_pin];
                 text_reply "done" ].

(** First reply: a known request, then an unknown one. *)
Definition example_unknown_second : engine (list (result completion)) :=
  fresh_engine [ requests_reply [call_validate_account; call_transfer];
                 text_reply "done" ].

(** First reply: a request that succeeds, then one that raises. *)
Definition example_failed_second : engine (list (result completion)) :=
  fresh_engine [ requests_reply [call_validate_account; call_pin_without_arguments];
                 text_reply "done" ].

(** First reply: an unknown request alone. *)
Definition example_unknown_first : engine (list (result completion)) :=
  fresh_engine [ requests_reply [call_transfer]; text_reply "done" ].

(** First reply: one request; the follow-up reply requests a tool again. *)
Definition example_second_round : engine (list (result completion)) :=
  fresh_engine [ requests_reply [call_validate_account];
                 requests_reply [call_balance] ].

(** The first reply of [example_two_calls] and of [example_second_round],
    and the second reply of the latter. *)
Definition two_calls_reply : completion :=
  {| choices := [ {| reply_content := None;
                     reply_tool_calls :=
                       Some [call_validate_account; call_validate_pin] |} ] |}.

Definition one_call_reply : completion :=
  {| choices := [ {| reply_content := None;
                     reply_tool_calls := Some [call_validate_account] |} ] |}.

Definition balance_request_reply : completion :=
  {| choices := [ {| reply_content := None;
                     reply_tool_calls := Some [call_balance] |} ] |}.

(** ** The claims in the words of the specification *)

(** "Append a single assistant message preserving the original tool-call
    request list verbatim (content null)": among the messages a turn
    appends, exactly one carries a tool-call list, and it is this one. *)
Definition single_request_message (tcs : list tool_call)
    (appended : list message) : Prop :=
  List.filter has_tool_calls appended =
    [ {| role := Assistant; content := None;
         tool_calls := Some tcs; tool_call_id := None |} ].

(** "Either one more bounded iteration of step 5 or a protocol error":
    the turn fails, or every request of the second reply has its tool
    message in the history. *)
Definition second_round_handled (outcome : result (option string))
    (h : list message) (tcs2 : list tool_call) : Prop :=
  (exists e, outcome = Err e) \/
  (forall tc, In tc tcs2 -> exists text, In (tool_message tc text) h).

(** ** The rest of the sources

    [load_data] and the [mock_accounts] property of the loader, the
    application as it serves requests one after the other, and the client
    of [interactive.py]. *)

(** What opening and parsing the data file gives [load_data]: the file is
    missing, or it parses to the three collections, or something else goes
    wrong (an exception that [load_data] does not catch). *)
Inductive data_file : Type :=
| FileNotFound
| FileLoaded (content : MockData)
| FileFailed (e : exn).

(** [load_data]: the value of [self.data] it leaves, or the exception
    that escapes it (the message it prints is not modelled). *)
Definition load_data (file : data_file) : result MockData :=
  match file with
  | FileNotFound => Ok empty_data
  | FileLoaded content => Ok content
  | FileFailed e => Err e
  end.

(** The [mock_accounts] property. *)
Definition mock_accounts (data : MockData) : gmap string pydict := accounts data.

(** The three names the [if / elif] chain of [process_message] tests. *)
Definition known_tool (name : string) : bool :=
  String.eqb name "validate_account_number" || String.eqb name "validate_pin"
  || String.eqb name "get_account_balance".

(** [str(z)] for an int. *)
Definition py_str_int (z : Z) : string :=
  if z <? 0 then "-" +:+ string_of_nat_Z (- z) else string_of_nat_Z z.

Definition is_user (m : message) : bool :=
  match role m with
  | User => true
  | _ => false
  end.

(** The text of the user messages of a history, in order. *)
Definition user_texts (h : list message) : list (option string) :=
  map content (List.filter is_user h).

(** [m] is the tool message of the one request that the assistant message
    [prev] lists. *)
Definition answers (prev m : message) : bool :=
  match role prev, tool_calls prev, tool_call_id m with
  | Assistant, Some [tc], Some id => String.eqb (call_id tc) id
  | _, _, _ => false
  end.

(** Every tool message of [h] stands immediately after the assistant
    message that lists its request; [prev] is the message before [h]. *)
Fixpoint tools_answer_calls (prev : option message) (h : list message) : bool :=
  match h with
  | [] => true
  | m :: h' =>
      match role m with
      | Tool =>
          match prev with
          | Some p => answers p m
          | None => false
          end
      | _ => true
      end && tools_answer_calls (Some m) h'
  end.

(** A history as the engine builds it: the system message, then a user
    message, and no system message after that. *)
Definition seeded (h : list message) : Prop :=
  exists text rest,
    h = system_message :: user_message text :: rest /\
    Forall (fun m => role m <> System) rest.

Section Server.
Variable data : MockData.
Variable py_repr : pyval -> string.
Variable json_loads : string -> option pyval.
Variable json_dumps : pyval -> string.
Variable World : Type.
Variable chat_completions_create : World -> request -> result completion * World.

(** [r] is the result of the request [tc]: what the tool it names returns
    on the decoded arguments or, for a name that is none of the three, the
    value [function_response] held before ([previous]). *)
Definition request_result (tc : tool_call) (previous : option pyval) (r : pyval)
    : Prop :=
  exists function_args,
    json_loads (function_arguments tc) = Some function_args /\
    ((function_name tc = "validate_account_number" /\
      exists account_number,
        py_subscript function_args "account_number" = Ok account_number /\
        validate_account_number data account_number = Ok r) \/
     (function_name tc = "validate_pin" /\
      exists account_number pin,
        py_subscript function_args "account_number" = Ok account_number /\
        py_subscript function_args "pin" = Ok pin /\
        validate_pin data account_number pin = Ok r) \/
     (function_name tc = "get_account_balance" /\
      exists account_number pin,
        py_subscript function_args "account_number" = Ok account_number /\
        py_subscript function_args "pin" = Ok pin /\
        get_account_balance data py_repr account_number pin = Ok r) \/
     (known_tool (function_name tc) = false /\ previous = Some r)).

(** [ms] are the pairs of the requests [tcs] executed in order with
    results [rs]: for request [i] the assistant message that lists it, with
    no content, and then the tool message that carries its identifier and
    its serialised result. *)
Definition executed_pairs (tcs : list tool_call) (rs : list pyval)
    (ms : list message) : Prop :=
  length rs = length tcs /\
  length ms = (2 * length tcs)%nat /\
  forall (i : nat) tc,
    tcs !! i = Some tc ->
    exists r,
      rs !! i = Some r /\
      request_result tc (match i with O => None | S j => rs !! j end) r /\
      ms !! (2 * i)%nat =
        Some {| role := Assistant; content := None;
                tool_calls := Some [tc]; tool_call_id := None |} /\
      ms !! (2 * i + 1)%nat =
        Some {| role := Tool; content := Some (json_dumps r);
                tool_calls := None; tool_call_id := Some (call_id tc) |}.

(** The chatbot as [__init__] leaves it: no conversation yet. *)
Definition new_engine (w : World) : engine World :=
  {| conversations := ∅; world := w |}.

(** The two routes of the application. *)
Inductive api_call : Type :=
| PostChat (session_id message : string)
| DeleteChat (session_id : string).

Definition serve (c : api_call) (s : engine World)
    : http_response * engine World :=
  match c with
  | PostChat session_id message =>
      chat_endpoint data py_repr json_loads json_dumps chat_completions_create
        session_id message s
  | DeleteChat session_id => end_session session_id s
  end.

(** Requests served one after the other; the state after the last one. *)
Definition serve_all (cs : list api_call) (s : engine World) : engine World :=
  fold_left (fun st c => snd (serve c st)) cs s.

(** The messages posted to a session since it was last deleted. *)
Definition posted (session_id : string) (cs : list api_call) : list string :=
  fold_left
    (fun acc c =>
       match c with
       | PostChat sid message =>
           if String.eqb sid session_id then acc ++ [message] else acc
       | DeleteChat sid => if String.eqb sid session_id then [] else acc
       end) cs [].

(** What the engine keeps true of every stored history. *)
Definition well_formed (s : engine World) : Prop :=
  forall sid h,
    conversations s !! sid = Some h ->
    seeded h /\ tools_answer_calls None h = true.

(** The user messages of a session are the messages [acc], and the
    session exists exactly when there is one. *)
Definition records (sid : string) (s : engine World) (acc : list string) : Prop :=
  match conversations s !! sid with
  | Some h => user_texts h = map Some acc /\ acc <> []
  | None => acc = []
  end.

(** The same completion service, keeping a log of the requests it gets. *)
Definition logged_create (wl : World * list request) (req : request)
    : result completion * (World * list request) :=
  let '(r, w) := chat_completions_create (fst wl) req in
  (r, (w, snd wl ++ [req])).
End Server.

(** The session a request is addressed to. *)
Definition call_session (c : api_call) : string :=
  match c with
  | PostChat session_id _ => session_id
  | DeleteChat session_id => session_id
  end.

Arguments request_result data py_repr json_loads tc previous r : assert.
Arguments executed_pairs data py_repr json_loads json_dumps tcs rs ms : assert.
Arguments new_engine {World} w.
Arguments well_formed {World} s.
Arguments records {World} sid s acc.
Arguments serve data py_repr json_loads json_dumps {World} chat_completions_create c s.
Arguments serve_all data py_repr json_loads json_dumps {World} chat_completions_create cs s.
Arguments logged_create {World} chat_completions_create wl req.

(** ** [interactive.py]: the client *)

Module BankingBotClient.
Section Client.
(** Everything outside the client process: the network and the source of
    random identifiers. *)
Variable Net : Type.
(** [str(uuid.uuid4())] *)
Variable uuid4 : Net -> string * Net.
(** [session.delete(url)]: the status of the response, or the exception
    the HTTP library raises. *)
Variable http_delete : Net -> string -> result Z * Net.
(** [session.post(url, json=body)]: the status of the response and what
    [response.json()] gives, or the exception the HTTP library raises. *)
Variable http_post : Net -> string -> pyval -> result (Z * result pyval) * Net.

Record client : Type := {
  server_url : string;
  session_id : option string
}.

(** [if self.session_id:], where [None] and the empty string are false. *)
Definition active (c : client) : option string :=
  match session_id c with
  | Some "" => None
  | other => other
  end.

Definition chat_url (c : client) (sid : string) : string :=
  server_url c +:+ "/chat/" +:+ sid.

Definition start_session (c : client) (n : Net) : client * Net :=
  let '(fresh, n') := uuid4 n in
  ({| server_url := server_url c; session_id := Some fresh |}, n').

Definition end_session (c : client) (n : Net) : result bool * client * Net :=
  match active c with
  | Some sid =>
      match http_delete n (chat_url c sid) with
      | (Ok status, n') =>
          if status =? 200
          then (Ok true, {| server_url := server_url c; session_id := None |}, n')
          else (Ok false, c, n')
      | (Err e, n') => (Err e, c, n')
      end
  | None => (Ok false, c, n)
  end.

Definition send_message (c : client) (message : string) (n : Net)
    : result pyval * Net :=
  match active c with
  | None => (Err ValueError, n)
  | Some sid =>
      match http_post n (chat_url c sid) (PDict [("message", PStr message)]) with
      | (Ok (status, body), n') =>
          if status =? 200
          then ((let? result := body in py_subscript result "response")%result, n')
          else (Ok (PStr ("Error: " +:+ py_str_int status)), n')
      | (Err e, n') => (Err e, n')
      end
  end.
End Client.
End BankingBotClient.

(** A second data set, with records that lack fields: account 1 has
    neither balance nor currency, account 2 a balance that is a string,
    account 3 a balance in a currency that is not in the table, account 4
    a balance that is [null]. *)
Definition sparse_data : MockData :=
  {| accounts :=
       <["1" := [ ("account_holder", PStr "A") ]]>
         (<["2" := [ ("balance", PStr "12"); ("currency", PStr "EUR") ]]>
            (<["3" := [ ("balance", PFloat (b64 5 0)); ("currency", PStr "EUR") ]]>
               (<["4" := [ ("balance", PNone) ]]> ∅)));
     account_types := ∅;
     currencies := ∅ |}.

(** The exceptions that executing a tool on decoded arguments can raise. *)
Definition raised_by_tools (e : exn) : bool :=
  match e with
  | KeyError _ | TypeError | ValueError | OverflowError => true
  | _ => false
  end.

(** A network for the examples of the client: the statuses the server
    will answer with, in order; every body is the same JSON object. *)
Definition scripted_delete (n : list Z) (url : string) : result Z * list Z :=
  match n with
  | status :: n' => (Ok status, n')
  | [] => (Err (APIError "offline"), [])
  end.

Definition scripted_post (n : list Z) (url : string) (body : pyval)
    : result (Z * result pyval) * list Z :=
  match n with
  | status :: n' => (Ok (status, Ok (PDict [("response", PStr "hello")])), n')
  | [] => (Err (APIError "offline"), [])
  end.

Definition example_client : BankingBotClient.client :=
  {| BankingBotClient.server_url := "http://localhost:8000";
     BankingBotClient.session_id := Some "6f1c" |}.

(** The history the two-request example leaves for session s1. *)
Definition two_calls_history : list message :=
  [ system_message; user_message "hi";
    call_message call_validate_account;
    tool_message call_validate_account (fixture_dumps validate_account_result);
    call_message call_validate_pin;
    tool_message call_validate_pin (fixture_dumps validate_pin_result);
    reply_message (Some "done") ].

(** * Properties *)

(** ** Values *)

Lemma py_eq_str_r (v : pyval) (p : string) :
  py_eq v (PStr p) = true <-> v = PStr p.
Proof.
  destruct v as [| b | z | f | s | l | d]; simpl;
    try (split; intros ?; discriminate).
  rewrite String.eqb_eq. split; [intros ->; reflexivity | intros [= ->]; reflexivity].
Qed.

Lemma py_eq_none_l (v : pyval) : py_eq PNone v = true <-> v = PNone.
Proof. destruct v; simpl; split; intros H; try discriminate; reflexivity. Qed.

(** ** The account directory and the tool executor *)

Lemma dget_some_truthy (d : pydict) k v : dget d k = Some v -> dict_truthy d = true.
Proof. destruct d; [discriminate | reflexivity]. Qed.

Lemma validate_account_and_pin_str (data : MockData) (account_number pin : string) :
  validate_account_and_pin data (PStr account_number) (PStr pin) =
    Ok (py_eq (dget_none (default [] (accounts data !! account_number)) "pin")
          (PStr pin)).
Proof. reflexivity. Qed.

Lemma credentials_match_py_eq (data : MockData) (account_number pin : string) :
  py_eq (dget_none (default [] (accounts data !! account_number)) "pin") (PStr pin)
    = true
  <-> credentials_match data account_number pin.
Proof.
  rewrite py_eq_str_r. unfold credentials_match, dget_none, dget_default.
  destruct (accounts data !! account_number) as [record|]; simpl.
  - destruct (dget record "pin") as [v|] eqn:Hpin.
    + split.
      * intros ->. exists record. split; [reflexivity | assumption].
      * intros (r & [= <-] & Hr). congruence.
    + split; [discriminate|]. intros (r & [= <-] & Hr). congruence.
  - split; [discriminate|]. intros (r & Hr & _). discriminate.
Qed.





Lemma get_formatted_balance_absent (data : MockData) py_repr (account_number : string) :
  accounts data !! account_number = None ->
  get_formatted_balance data py_repr (PStr account_number) = Ok "Account not found".
Proof.
  intros Habsent. unfold get_formatted_balance, get_account; simpl.
  rewrite Habsent. reflexivity.
Qed.

Lemma get_formatted_balance_float (data : MockData) py_repr
    (account_number symbol : string) (x : spec_float) :
  holds_balance data account_number symbol x ->
  get_formatted_balance data py_repr (PStr account_number)
    = Ok (symbol +:+ format_float_2f x).
Proof.
  intros (record & code & currency & Hrec & Hbal & Hcur & Hcode & Hsym).
  unfold get_formatted_balance, get_account, get_currency_details; simpl.
  rewrite Hrec; simpl.
  rewrite (dget_some_truthy _ _ _ Hbal); simpl.
  unfold dget_default. rewrite Hcur; simpl. rewrite Hcode; simpl.
  rewrite Hsym, Hbal; simpl. reflexivity.
Qed.

Lemma scenario_holds_balance (data : MockData) :
  scenario_12345 data -> holds_balance data "12345" "$" (b64 500 0).
Proof.
  intros (record & ty & holder & last & usd & Hrec & Hpin & Hbal & Hcur & Hst
          & Hty & Hholder & Hlast & Husd & Hsym).
  exists record, "USD", usd. auto.
Qed.

Lemma invalid_credentials_short_circuit (data : MockData) py_repr
    (account_number pin : pyval) :
  validate_account_and_pin data account_number pin = Ok false ->
  get_account_balance data py_repr account_number pin
    = Ok (error_result "Invalid credentials").
Proof. intros Hv. unfold get_account_balance. rewrite Hv. reflexivity. Qed.

Lemma no_match_invalid (data : MockData) (account_number pin : string) :
  ~ credentials_match data account_number pin ->
  validate_account_and_pin data (PStr account_number) (PStr pin) = Ok false.
Proof.
  intros Hno. rewrite validate_account_and_pin_str. f_equal.
  apply Bool.not_true_is_false. intros Heq.
  apply Hno. by apply credentials_match_py_eq.
Qed.

(** C6: [get_account_balance] checks the credentials first: whenever the
    PIN does not match (the account may or may not exist) the result is the
    error object for invalid credentials, with status error and no data
    field.  In the scenario (account 12345, PIN 0000, balance 500.0 USD with
    symbol $) the call with PIN 0000 returns status success and the
    formatted balance $500.00, and the call with PIN 9999 returns status
    error. *)
Theorem get_account_balance_checks_credentials_first
    (data : MockData) (py_repr : pyval -> string) :
  (forall account_number pin : string,
      ~ credentials_match data account_number pin ->
      exists d,
        get_account_balance data py_repr (PStr account_number) (PStr pin)
          = Ok (PDict d) /\
        dget d "status" = Some (PStr "error") /\
        dget d "message" = Some (PStr "Invalid credentials") /\
        dget d "data" = None) /\
  (scenario_12345 data ->
     (exists d view,
        get_account_balance data py_repr (PStr "12345") (PStr "0000")
          = Ok (PDict d) /\
        dget d "status" = Some (PStr "success") /\
        dget d "data" = Some (PDict view) /\
        dget view "formatted_balance" = Some (PStr "$500.00")) /\
     (exists d,
        get_account_balance data py_repr (PStr "12345") (PStr "9999")
          = Ok (PDict d) /\
        dget d "status" = Some (PStr "error") /\
        dget d "data" = None)).
Proof.
  assert (Hgeneral : forall account_number pin : string,
      ~ credentials_match data account_number pin ->
      exists d,
        get_account_balance data py_repr (PStr account_number) (PStr pin)
          = Ok (PDict d) /\
        dget d "status" = Some (PStr "error") /\
        dget d "message" = Some (PStr "Invalid credentials") /\
        dget d "data" = None).
  { intros a p Hno. eexists. split.
    - apply invalid_credentials_short_circuit, no_match_invalid, Hno.
    - repeat split. }
  split; [exact Hgeneral|].
  intros Hsc. split.
  - pose proof (get_formatted_balance_float data py_repr _ _ _
                  (scenario_holds_balance data Hsc)) as Hfmt.
    destruct Hsc as (record & ty & holder & last & usd & Hrec & Hpin & Hbal & Hcur
                     & Hst & Hty & Hholder & Hlast & Husd & Hsym).
    unfold get_account_balance.
    rewrite validate_account_and_pin_str, Hrec; simpl.
    unfold dget_none, dget_default. rewrite Hpin; simpl.
    unfold get_account; simpl. rewrite Hrec; simpl.
    rewrite (dget_some_truthy _ _ _ Hpin); simpl.
    unfold dsubscript. rewrite Hty; simpl. rewrite Hbal, Hcur; simpl.
    rewrite Hfmt; simpl. rewrite Hholder, Hst, Hlast; simpl.
    eexists _, _. repeat split.
  - destruct (Hgeneral "12345" "9999") as (d & Hd & Hstatus & _ & Hdata).
    + intros (record & Hrec & Hpin).
      destruct Hsc as (record' & ty & holder & last & usd & Hrec' & Hpin' & _).
      congruence.
    + exists d. auto.
Qed.

(** On the fixture data the scenario holds, and the two calls evaluate as
    stated. *)
Lemma get_account_balance_scenario_fixture :
  scenario_12345 fixture_data /\
  (exists d view,
     get_account_balance fixture_data fixture_repr (PStr "12345") (PStr "0000")
       = Ok (PDict d) /\
     dget d "status" = Some (PStr "success") /\
     dget d "data" = Some (PDict view) /\
     dget view "formatted_balance" = Some (PStr "$500.00")) /\
  (exists d,
     get_account_balance fixture_data fixture_repr (PStr "12345") (PStr "9999")
       = Ok (PDict d) /\
     dget d "status" = Some (PStr "error") /\
     dget d "data" = None).
Proof.
  assert (Hsc : scenario_12345 fixture_data).
  { exists (fixture_account "0000" (b64 500 0)), "savings",
      (PStr "John Doe"), (PStr "2024-01-15"),
      [("symbol", PStr "$"); ("name", PStr "US Dollar")].
    repeat split; vm_compute; reflexivity. }
  split; [exact Hsc|].
  exact (proj2 (get_account_balance_checks_credentials_first
                  fixture_data fixture_repr) Hsc).
Defined.

(** *** The format [,.2f] read back *)

Lemma list_ascii_of_string_app (s t : string) :
  list_ascii_of_string (s +:+ t) = list_ascii_of_string s ++ list_ascii_of_string t.
Proof. induction s as [|c s IH]; simpl; [reflexivity | by rewrite IH]. Qed.

Lemma uint_chars_digits (d : Decimal.uint) :
  forallb is_digit (list_ascii_of_string (NilEmpty.string_of_uint d)) = true.
Proof. induction d; simpl; auto. Qed.

Lemma digit_not_comma (c : ascii) : is_digit c = true -> not_comma c = true.
Proof.
  unfold not_comma. destruct (Ascii.eqb_spec c ","); [subst; discriminate | reflexivity].
Qed.

Lemma digit_not_point (c : ascii) : is_digit c = true -> Ascii.eqb c "." = false.
Proof. destruct (Ascii.eqb_spec c "."); [subst; discriminate | reflexivity]. Qed.

Lemma nat_digits_nonempty (z : Z) :
  list_ascii_of_string (string_of_nat_Z z) <> [].
Proof.
  unfold string_of_nat_Z. destruct (Z.to_N z) as [|p]; simpl; [discriminate|].
  pose proof (DecimalPos.Unsigned.to_uint_nonnil p) as Hnil.
  destruct (Pos.to_uint p); simpl; congruence.
Qed.

Lemma read_number_nat (z : Z) : 0 <= z -> read_number (string_of_nat_Z z) = Some z.
Proof.
  intros Hz. unfold read_number, string_of_nat_Z.
  rewrite NilEmpty.usu. simpl. rewrite DecimalN.Unsigned.of_to.
  f_equal. lia.
Qed.

Ltac split_digits H :=
  repeat match type of H with
         | (_ && _)%bool = true =>
             let Hx := fresh "Hx" in
             apply andb_prop in H; destruct H as [Hx H]
         end.

Ltac use_digits :=
  repeat match goal with
         | H : is_digit ?x = true |- _ =>
             rewrite ?H, ?(digit_not_comma _ H), ?(digit_not_point _ H); clear H
         end.

(** Grouping the digits (in reverse order) yields a well grouped text
    without a point, and removing the commas gives the digits back. *)
Lemma group3_rev_facts : forall (n : nat) (l : list ascii),
  (length l <= n)%nat -> l <> [] -> forallb is_digit l = true ->
  well_grouped_rev (group3_rev l) = true /\
  List.filter not_comma (group3_rev l) = l /\
  forallb (fun c => negb (Ascii.eqb c ".")) (group3_rev l) = true.
Proof.
  induction n as [|n IH]; intros l Hlen Hne Hdig.
  - destruct l; [congruence | simpl in Hlen; lia].
  - destruct l as [|a [|b [|c [|d rest]]]]; [congruence | | | |];
      simpl in Hdig; split_digits Hdig.
    + simpl. use_digits. auto.
    + simpl. use_digits. auto.
    + simpl. use_digits. auto.
    + destruct (IH (d :: rest)) as (Hwell & Hfilter & Hpoint).
      * simpl in *. lia.
      * discriminate.
      * simpl. match goal with H : is_digit d = true |- _ => rewrite H end.
        exact Hdig.
      * change (group3_rev (a :: b :: c :: d :: rest))
          with (a :: b :: c :: ","%char :: group3_rev (d :: rest)).
        remember (group3_rev (d :: rest)) as grouped.
        simpl. use_digits. rewrite Hwell, Hfilter, Hpoint. auto.
Qed.

Lemma forallb_rev {A} (f : A -> bool) (l : list A) :
  forallb f (rev l) = forallb f l.
Proof.
  induction l as [|x l IH]; simpl; [reflexivity|].
  rewrite forallb_app, IH. simpl. rewrite Bool.andb_true_r. apply Bool.andb_comm.
Qed.

Lemma split_point_app (l1 l2 : list ascii) :
  forallb (fun c => negb (Ascii.eqb c ".")) l1 = true ->
  split_point (l1 ++ "."%char :: l2) = Some (l1, l2).
Proof.
  induction l1 as [|c l1 IH]; simpl; [reflexivity|].
  intros Hall. apply andb_prop in Hall. destruct Hall as [Hc Hall].
  apply Bool.negb_true_iff in Hc. rewrite Hc, (IH Hall). reflexivity.
Qed.

Lemma two_digits_read (f : Z) :
  0 <= f < 100 ->
  exists d1 d2,
    list_ascii_of_string (two_digits f) = [d1; d2] /\
    read_number (two_digits f) = Some f.
Proof.
  intros Hf.
  assert (Hall : forallb two_digits_ok (map Z.of_nat (seq 0 100)) = true)
    by (vm_compute; reflexivity).
  rewrite forallb_forall in Hall.
  specialize (Hall f).
  assert (Hin : In f (map Z.of_nat (seq 0 100))).
  { apply in_map_iff. exists (Z.to_nat f). split; [lia|]. apply in_seq. lia. }
  specialize (Hall Hin). unfold two_digits_ok in Hall.
  destruct (list_ascii_of_string (two_digits f)) as [|d1 [|d2 [|? ?]]];
    try discriminate.
  destruct (read_number (two_digits f)) as [v|]; [|discriminate].
  apply Z.eqb_eq in Hall. subst v. eauto.
Qed.

(** The text of [n] hundredths reads back as [n]. *)
Lemma read_amount_format_cents (n : Z) :
  0 <= n -> read_amount (format_cents n) = Some n.
Proof.
  intros Hn. unfold read_amount, format_cents, insert_commas.
  set (digits := list_ascii_of_string (string_of_nat_Z (n / 100))).
  destruct (group3_rev_facts (length (rev digits)) (rev digits)) as
    (Hwell & Hfilter & Hpoint).
  { lia. }
  { intros Hnil. apply (nat_digits_nonempty (n / 100)). fold digits.
    rewrite <- (rev_involutive digits), Hnil. reflexivity. }
  { rewrite forallb_rev. apply uint_chars_digits. }
  destruct (two_digits_read (n mod 100)) as (d1 & d2 & Hchars & Hread).
  { apply Z.mod_pos_bound. lia. }
  rewrite !list_ascii_of_string_app, list_ascii_of_string_of_list_ascii.
  change (list_ascii_of_string ".") with ["."%char]. simpl app at 2.
  rewrite split_point_app by (rewrite forallb_rev; exact Hpoint).
  rewrite Hchars, rev_involutive, Hwell.
  rewrite List.filter_rev, Hfilter, rev_involutive.
  unfold digits at 1. rewrite string_of_list_ascii_of_string.
  rewrite read_number_nat by (apply Z.div_pos; lia).
  rewrite <- Hchars, string_of_list_ascii_of_string, Hread.
  f_equal. pose proof (Z.div_mod n 100). lia.
Qed.

Lemma cents_of_nonneg (m : positive) (e : Z) : 0 <= cents_of m e.
Proof.
  unfold cents_of. destruct (0 <=? e) eqn:He.
  - apply Z.leb_le in He. pose proof (Z.pow_pos_nonneg 2 e). lia.
  - apply Z.leb_gt in He.
    assert (Hden : 0 < 2 ^ (- e)) by (apply Z.pow_pos_nonneg; lia).
    assert (Hq : 0 <= Z.pos m * 100 / 2 ^ (- e)) by (apply Z.div_pos; lia).
    destruct (2 * (Z.pos m * 100 mod 2 ^ (- e)) ?= 2 ^ (- e)); [|lia|lia].
    destruct (Z.even _); lia.
Qed.

(** The hundredths the format prints are a nearest integer to the exact
    value of the float times one hundred. *)
Lemma cents_of_nearest (m : positive) (e : Z) :
  nearest_hundredth m e (cents_of m e).
Proof.
  unfold nearest_hundredth, cents_of. destruct (0 <=? e) eqn:He.
  - apply Z.leb_le in He.
    rewrite (Z.max_l e 0), (Z.max_r (- e) 0) by lia.
    simpl (2 ^ 0). replace (_ - _) with 0 by lia. simpl. lia.
  - apply Z.leb_gt in He.
    rewrite (Z.max_r e 0), (Z.max_l (- e) 0) by lia.
    simpl (2 ^ 0).
    assert (Hden : 0 < 2 ^ (- e)) by (apply Z.pow_pos_nonneg; lia).
    pose proof (Z.div_mod (Z.pos m * 100) (2 ^ (- e))) as Hdm.
    pose proof (Z.mod_pos_bound (Z.pos m * 100) (2 ^ (- e)) Hden) as Hr.
    set (num := Z.pos m * 100) in *. set (den := 2 ^ (- e)) in *.
    set (q := num / den) in *. set (r := num mod den) in *.
    specialize (Hdm ltac:(lia)).
    destruct (Z.compare_spec (2 * r) den) as [Heq | Hlt | Hgt].
    + destruct (Z.even q); nia.
    + nia.
    + nia.
Qed.

(** At a tie the format prints the even hundredth. *)
Lemma cents_of_half_even (m : positive) (e : Z) :
  rounds_half_even m e (cents_of m e).
Proof.
  split; [apply cents_of_nearest|].
  unfold cents_of. destruct (0 <=? e) eqn:He.
  - apply Z.leb_le in He.
    rewrite (Z.max_l e 0), (Z.max_r (- e) 0) by lia.
    simpl (2 ^ 0). lia.
  - apply Z.leb_gt in He.
    rewrite (Z.max_r e 0), (Z.max_l (- e) 0) by lia.
    simpl (2 ^ 0).
    assert (Hden : 0 < 2 ^ (- e)) by (apply Z.pow_pos_nonneg; lia).
    pose proof (Z.div_mod (Z.pos m * 100) (2 ^ (- e))) as Hdm.
    pose proof (Z.mod_pos_bound (Z.pos m * 100) (2 ^ (- e)) Hden) as Hr.
    set (num := Z.pos m * 100) in *. set (den := 2 ^ (- e)) in *.
    set (q := num / den) in *. set (r := num mod den) in *.
    specialize (Hdm ltac:(lia)).
    destruct (Z.compare_spec (2 * r) den) as [Heq | Hlt | Hgt].
    + destruct (Z.even q) eqn:Hq; [intros _; exact Hq|].
      intros _. replace (q + 1) with (Z.succ q) by lia.
      rewrite Z.even_succ, <- Z.negb_even, Hq. reflexivity.
    + intros Htie. nia.
    + intros Htie. nia.
Qed.

(** *** The sign *)

Lemma well_grouped_rev_minus : forall (n : nat) (l : list ascii),
  (length l <= n)%nat -> well_grouped_rev (l ++ ["-"%char]) = false.
Proof.
  induction n as [|n IH]; intros l Hlen.
  - destruct l; [reflexivity | simpl in Hlen; lia].
  - destruct l as [|a [|b [|c [|sep rest]]]].
    + reflexivity.
    + simpl. apply Bool.andb_false_r.
    + simpl. apply Bool.andb_false_r.
    + simpl. rewrite Bool.andb_false_r. reflexivity.
    + change (well_grouped_rev ((a :: b :: c :: sep :: rest) ++ ["-"%char]))
        with (is_digit a && is_digit b && is_digit c && Ascii.eqb sep ","
              && well_grouped_rev (rest ++ ["-"%char])).
      rewrite IH by (simpl in Hlen; lia). apply Bool.andb_false_r.
Qed.

(** No amount starts with a minus sign. *)
Lemma read_amount_minus (rest : string) : read_amount (String "-" rest) = None.
Proof.
  unfold read_amount.
  change (list_ascii_of_string (String "-" rest))
    with ("-"%char :: list_ascii_of_string rest).
  change (split_point ("-"%char :: list_ascii_of_string rest))
    with (option_map (fun p => ("-"%char :: fst p, snd p))
            (split_point (list_ascii_of_string rest))).
  destruct (split_point (list_ascii_of_string rest)) as [[whole frac]|];
    [|reflexivity].
  cbn [option_map fst snd].
  destruct frac as [|d1 [|d2 [|d3 frac]]]; try reflexivity.
  change (rev ("-"%char :: whole)) with (rev whole ++ ["-"%char]).
  rewrite (well_grouped_rev_minus (length (rev whole)) (rev whole)) by lia.
  reflexivity.
Qed.

Lemma read_signed_amount_sign (sign : bool) (amount : string) (c : Z) :
  read_amount amount = Some c ->
  read_signed_amount ((if sign then "-" else "") +:+ amount) = Some (sign, c).
Proof.
  intros Hread. destruct sign.
  - change ("-" +:+ amount) with (String "-" amount).
    unfold read_signed_amount. rewrite Ascii.eqb_refl, Hread. reflexivity.
  - change ("" +:+ amount) with amount.
    destruct amount as [|a rest]; [discriminate Hread|].
    unfold read_signed_amount.
    destruct (Ascii.eqb_spec a "-") as [-> | Hne].
    + rewrite read_amount_minus in Hread. discriminate Hread.
    + rewrite Hread. reflexivity.
Qed.

(** *** Integer balances: the conversion to a float is exact below 2^53 *)

Lemma digits2_pos_iter_xO (d m : positive) :
  digits2_pos (Pos.iter xO m d) = (digits2_pos m + d)%positive.
Proof.
  revert m. induction d using Pos.peano_ind; intros m.
  - simpl. lia.
  - rewrite Pos.iter_succ. simpl. rewrite IHd. lia.
Qed.

Lemma iter_xO_value (d m : positive) :
  Z.pos (Pos.iter xO m d) = Z.pos m * 2 ^ Z.pos d.
Proof.
  revert m. induction d using Pos.peano_ind; intros m.
  - simpl. lia.
  - rewrite Pos.iter_succ, Pos2Z.inj_xO, IHd, Pos2Z.inj_succ, Z.pow_succ_r by lia.
    lia.
Qed.

Lemma digits2_pos_lower (m : positive) :
  2 ^ (Z.pos (digits2_pos m) - 1) <= Z.pos m.
Proof.
  induction m as [p IH | p IH |]; simpl digits2_pos.
  - rewrite Pos2Z.inj_succ.
    replace (Z.succ (Z.pos (digits2_pos p)) - 1)
      with (Z.succ (Z.pos (digits2_pos p) - 1)) by lia.
    rewrite Z.pow_succ_r by lia. lia.
  - rewrite Pos2Z.inj_succ.
    replace (Z.succ (Z.pos (digits2_pos p)) - 1)
      with (Z.succ (Z.pos (digits2_pos p) - 1)) by lia.
    rewrite Z.pow_succ_r by lia. lia.
  - simpl. lia.
Qed.

Lemma digits2_pos_small (m : positive) :
  Z.pos m < 2 ^ 53 -> Z.pos (digits2_pos m) <= 53.
Proof.
  intros Hm. pose proof (digits2_pos_lower m) as Hlow.
  destruct (Z_le_gt_dec (Z.pos (digits2_pos m)) 53) as [|Hgt]; [assumption|].
  exfalso.
  assert (2 ^ 53 <= 2 ^ (Z.pos (digits2_pos m) - 1))
    by (apply Z.pow_le_mono_r; lia).
  lia.
Qed.

Lemma shr_fexp_canonical (mz : positive) (ez : Z) :
  Z.pos (digits2_pos mz) = 53 -> -1074 <= ez ->
  shr_fexp 53 1024 (Z.pos mz) ez loc_Exact
    = ({| shr_m := Z.pos mz; shr_r := false; shr_s := false |}, ez).
Proof.
  intros Hd He. unfold shr_fexp, fexp, emin, Zdigits2. rewrite Hd.
  replace (Z.max (53 + ez - 53) (3 - 1024 - 53) - ez) with 0 by lia.
  reflexivity.
Qed.

Lemma binary_round_aux_canonical (sx : bool) (mz : positive) (ez : Z) :
  Z.pos (digits2_pos mz) = 53 -> -1074 <= ez <= 971 ->
  binary_round_aux 53 1024 sx (Z.pos mz) ez loc_Exact = S754_finite sx mz ez.
Proof.
  intros Hd He. unfold binary_round_aux.
  rewrite shr_fexp_canonical by lia.
  cbn [shr_m loc_of_shr_record round_nearest_even].
  rewrite shr_fexp_canonical by lia.
  cbn [shr_m].
  replace (1024 - 53) with 971 by reflexivity.
  destruct (ez <=? 971) eqn:E; [reflexivity|]. apply Z.leb_gt in E. lia.
Qed.

Lemma binary_round_small (sx : bool) (m : positive) :
  Z.pos m < 2 ^ 53 ->
  exists mz ez,
    binary_round 53 1024 sx m 0 = S754_finite sx mz ez /\
    ez <= 0 /\ Z.pos mz = Z.pos m * 2 ^ (- ez).
Proof.
  intros Hm. pose proof (digits2_pos_small m Hm) as Hd.
  unfold binary_round, shl_align, fexp, emin.
  replace (Z.max (Z.pos (digits2_pos m) + 0 - 53) (3 - 1024 - 53) - 0)
    with (Z.pos (digits2_pos m) - 53) by lia.
  destruct (Z.pos (digits2_pos m) - 53) as [|p|p] eqn:E; [| lia |].
  - exists m, 0. split; [|split; [lia | simpl; lia]].
    apply binary_round_aux_canonical; lia.
  - replace (Z.max (Z.pos (digits2_pos m) + 0 - 53) (3 - 1024 - 53))
      with (Z.neg p) by lia.
    exists (Pos.iter xO m p), (Z.neg p). split; [|split; [lia|]].
    + apply binary_round_aux_canonical; [|lia].
      rewrite digits2_pos_iter_xO. lia.
    + rewrite iter_xO_value. reflexivity.
Qed.

(** The hundredths of an integer that was scaled by a power of two. *)
Lemma cents_of_scaled (m mz : positive) (ez : Z) :
  ez <= 0 -> Z.pos mz = Z.pos m * 2 ^ (- ez) ->
  cents_of mz ez = 100 * Z.pos m.
Proof.
  intros Hez Hmz. unfold cents_of. rewrite Hmz.
  destruct (0 <=? ez) eqn:E.
  - apply Z.leb_le in E. replace ez with 0 by lia. simpl. lia.
  - assert (Hden : 0 < 2 ^ (- ez)) by (apply Z.pow_pos_nonneg; lia).
    replace (Z.pos m * 2 ^ (- ez) * 100) with (Z.pos m * 100 * 2 ^ (- ez)) by lia.
    rewrite Z.div_mul, Z.mod_mul by lia.
    destruct (Z.compare_spec (2 * 0) (2 ^ (- ez))); lia.
Qed.

(** The text of an integer below 2^53 in magnitude: its sign, then an
    amount that reads as the integer with no hundredths. *)
Lemma format_2f_int (z : Z) :
  Z.abs z < 2 ^ 53 ->
  exists amount,
    format_2f (PInt z) = Ok ((if z <? 0 then "-" else "") +:+ amount) /\
    read_amount amount = Some (100 * Z.abs z).
Proof.
  intros Hz. unfold format_2f, float_of_int, binary_normalize.
  destruct z as [|m|m].
  - exists "0.00". split; reflexivity.
  - destruct (binary_round_small false m ltac:(lia)) as (mz & ez & -> & Hez & Hmz).
    exists (format_cents (cents_of mz ez)). split; [reflexivity|].
    rewrite read_amount_format_cents by apply cents_of_nonneg.
    by rewrite (cents_of_scaled m mz ez Hez Hmz).
  - destruct (binary_round_small true m ltac:(lia)) as (mz & ez & -> & Hez & Hmz).
    exists (format_cents (cents_of mz ez)). split; [reflexivity|].
    rewrite read_amount_format_cents by apply cents_of_nonneg.
    by rewrite (cents_of_scaled m mz ez Hez Hmz).
Qed.

Lemma get_formatted_balance_value (data : MockData) py_repr
    (account_number symbol : string) (balance : pyval) :
  account_balance data account_number symbol balance ->
  get_formatted_balance data py_repr (PStr account_number)
    = rbind (format_2f balance) (fun text => Ok (symbol +:+ text)).
Proof.
  intros (record & code & currency & Hrec & Hbal & Hcur & Hcode & Hsym).
  unfold get_formatted_balance, get_account, get_currency_details; simpl.
  rewrite Hrec; simpl.
  rewrite (dget_some_truthy _ _ _ Hbal); simpl.
  unfold dget_default. rewrite Hcur; simpl. rewrite Hcode; simpl.
  rewrite Hsym, Hbal; simpl. reflexivity.
Qed.

(** C8: [get_formatted_balance] returns the text "Account not found" when
    no record exists for the account number.  For a record that holds a
    balance in a currency whose symbol is a string it returns the symbol
    followed by the balance in the format [,.2f]: for the balance 1234.5 in
    a currency with symbol $ that text is $1,234.50, and $-1,234.50 when
    the account is overdrawn by as much.  The format is, for a finite float
    that is not zero: a minus sign if and only if the float is negative,
    then an amount with thousands separators and two decimals that reads
    back as the exact value of the float in hundredths, rounded to the
    nearest integer (the even one at a tie); for a float zero 0.00 after
    its sign; for an integer below 2^53 in magnitude: its sign, then the
    amount that reads back as the integer itself. *)
Theorem get_formatted_balance_spec (data : MockData) (py_repr : pyval -> string) :
  (forall account_number : string,
      accounts data !! account_number = None ->
      get_formatted_balance data py_repr (PStr account_number)
        = Ok "Account not found") /\
  (forall (account_number symbol : string) (x : spec_float),
      holds_balance data account_number symbol x ->
      get_formatted_balance data py_repr (PStr account_number)
        = Ok (symbol +:+ format_float_2f x)) /\
  (forall account_number : string,
      holds_balance data account_number "$" (b64 2469 (-1)) ->
      get_formatted_balance data py_repr (PStr account_number) = Ok "$1,234.50") /\
  (forall account_number : string,
      account_balance data account_number "$" (PFloat (b64 (-2469) (-1))) ->
      get_formatted_balance data py_repr (PStr account_number) = Ok "$-1,234.50") /\
  (forall (account_number symbol : string) (s : bool) (m : positive) (e : Z),
      account_balance data account_number symbol (PFloat (S754_finite s m e)) ->
      exists amount c,
        get_formatted_balance data py_repr (PStr account_number)
          = Ok (symbol +:+ ((if s then "-" else "") +:+ amount)) /\
        read_amount amount = Some c /\
        read_signed_amount ((if s then "-" else "") +:+ amount) = Some (s, c) /\
        rounds_half_even m e c) /\
  (forall (account_number symbol : string) (s : bool),
      account_balance data account_number symbol (PFloat (S754_zero s)) ->
      get_formatted_balance data py_repr (PStr account_number)
        = Ok (symbol +:+ (if s then "-0.00" else "0.00"))) /\
  (forall (account_number symbol : string) (z : Z),
      account_balance data account_number symbol (PInt z) ->
      Z.abs z < 2 ^ 53 ->
      exists amount,
        get_formatted_balance data py_repr (PStr account_number)
          = Ok (symbol +:+ ((if z <? 0 then "-" else "") +:+ amount)) /\
        read_amount amount = Some (100 * Z.abs z) /\
        read_signed_amount ((if z <? 0 then "-" else "") +:+ amount)
          = Some (z <? 0, 100 * Z.abs z)) /\
  (forall (s : bool) (m : positive) (e : Z),
      format_float_2f (S754_finite s m e)
        = (if s then "-" else "") +:+ format_cents (cents_of m e) /\
      read_amount (format_cents (cents_of m e)) = Some (cents_of m e) /\
      nearest_hundredth m e (cents_of m e)).
Proof.
  split; [|split; [|split; [|split; [|split; [|split; [|split]]]]]].
  - intros a. apply get_formatted_balance_absent.
  - intros a sym x. apply get_formatted_balance_float.
  - intros a Hholds.
    rewrite (get_formatted_balance_float _ _ _ _ _ Hholds). reflexivity.
  - intros a Hholds.
    rewrite (get_formatted_balance_value _ _ _ _ _ Hholds). reflexivity.
  - intros a sym s m e Hholds.
    exists (format_cents (cents_of m e)), (cents_of m e).
    pose proof (read_amount_format_cents _ (cents_of_nonneg m e)) as Hread.
    split; [|split; [exact Hread|split]].
    + rewrite (get_formatted_balance_value _ _ _ _ _ Hholds).
      by destruct s.
    + apply read_signed_amount_sign, Hread.
    + apply cents_of_half_even.
  - intros a sym s Hholds.
    rewrite (get_formatted_balance_value _ _ _ _ _ Hholds).
    by destruct s.
  - intros a sym z Hholds Hz.
    destruct (format_2f_int z Hz) as (amount & Htext & Hread).
    exists amount. split; [|split; [exact Hread|]].
    + rewrite (get_formatted_balance_value _ _ _ _ _ Hholds), Htext.
      reflexivity.
    + apply read_signed_amount_sign, Hread.
  - intros s m e. split; [by destruct s|]. split.
    + apply read_amount_format_cents, cents_of_nonneg.
    + apply cents_of_nearest.
Qed.

(** On the fixture data: account 67890 holds 1234.5 USD and no account
    has the number 00000; account 24680 of the second fixture is overdrawn
    by 1234.5 and account 13579 holds the integer 1234567. *)
Lemma get_formatted_balance_spec_witness :
  holds_balance fixture_data "67890" "$" (b64 2469 (-1)) /\
  accounts fixture_data !! "00000" = None /\
  get_formatted_balance fixture_data fixture_repr (PStr "67890") = Ok "$1,234.50" /\
  get_formatted_balance fixture_data fixture_repr (PStr "00000")
    = Ok "Account not found" /\
  account_balance overdrawn_data "24680" "$" (PFloat (b64 (-2469) (-1))) /\
  get_formatted_balance overdrawn_data fixture_repr (PStr "24680")
    = Ok "$-1,234.50" /\
  account_balance overdrawn_data "13579" "$" (PInt 1234567) /\
  Z.abs 1234567 < 2 ^ 53 /\
  (exists amount,
     get_formatted_balance overdrawn_data fixture_repr (PStr "13579")
       = Ok ("$" +:+ amount) /\
     read_amount amount = Some 123456700) /\
  get_formatted_balance overdrawn_data fixture_repr (PStr "13579")
    = Ok "$1,234,567.00" /\
  get_formatted_balance overdrawn_data fixture_repr (PStr "11111") = Ok "$-42.00" /\
  get_formatted_balance overdrawn_data fixture_repr (PStr "22222") = Ok "$0.00".
Proof.
  assert (Hholds : holds_balance fixture_data "67890" "$" (b64 2469 (-1))).
  { exists (fixture_account "4321" (b64 2469 (-1))), "USD",
      [("symbol", PStr "$"); ("name", PStr "US Dollar")].
    repeat split; vm_compute; reflexivity. }
  assert (Habsent : accounts fixture_data !! "00000" = None).
  { vm_compute. reflexivity. }
  assert (Hover : account_balance overdrawn_data "24680" "$"
                    (PFloat (b64 (-2469) (-1)))).
  { exists [ ("balance", PFloat (b64 (-2469) (-1))); ("currency", PStr "USD") ],
      "USD", [("symbol", PStr "$"); ("name", PStr "US Dollar")].
    repeat split; vm_compute; reflexivity. }
  assert (Hint : account_balance overdrawn_data "13579" "$" (PInt 1234567)).
  { exists [ ("balance", PInt 1234567); ("currency", PStr "USD") ],
      "USD", [("symbol", PStr "$"); ("name", PStr "US Dollar")].
    repeat split; vm_compute; reflexivity. }
  assert (Hsmall : Z.abs 1234567 < 2 ^ 53) by (vm_compute; reflexivity).
  pose proof (get_formatted_balance_spec fixture_data fixture_repr)
    as (Hnone & _ & Hfix & _).
  pose proof (get_formatted_balance_spec overdrawn_data fixture_repr)
    as (_ & _ & _ & Hneg & _ & _ & Hints & _).
  split; [exact Hholds|]. split; [exact Habsent|].
  split; [exact (Hfix "67890" Hholds)|].
  split; [exact (Hnone "00000" Habsent)|].
  split; [exact Hover|]. split; [exact (Hneg "24680" Hover)|].
  split; [exact Hint|]. split; [exact Hsmall|].
  split.
  { destruct (Hints "13579" "$" 1234567 Hint Hsmall) as (amount & Htext & Hread & _).
    exists amount. split; [exact Htext | exact Hread]. }
  repeat split; vm_compute; reflexivity.
Defined.

(** ** The engine monad *)

Section EngineFacts.
Variable data : MockData.
Variable py_repr : pyval -> string.
Variable json_loads : string -> option pyval.
Variable json_dumps : pyval -> string.
Variable World : Type.
Variable chat_completions_create : World -> request -> result completion * World.

Abbreviation engine := (engine World).
Abbreviation tool_step := (tool_step data py_repr json_loads json_dumps).
Abbreviation tool_loop := (tool_loop data py_repr json_loads json_dumps).
Abbreviation tool_trace := (tool_trace data py_repr json_loads json_dumps).
Abbreviation process_message :=
  (process_message data py_repr json_loads json_dumps chat_completions_create).
Abbreviation turn :=
  (turn data py_repr json_loads json_dumps chat_completions_create).
Abbreviation turn_result :=
  (turn_result data py_repr json_loads json_dumps chat_completions_create).
Abbreviation tool_response := (tool_response data py_repr json_loads).
Abbreviation tool_responses := (tool_responses data py_repr json_loads).
Abbreviation pairs := (pairs json_dumps).

Lemma set_history_lookup (s : engine) sid h :
  conversations (set_history s sid h) !! sid = Some h.
Proof. unfold set_history; simpl. apply lookup_insert_eq. Qed.

Lemma set_history_twice (s : engine) sid h h' :
  set_history (set_history s sid h) sid h' = set_history s sid h'.
Proof. unfold set_history; simpl. by rewrite insert_insert_eq. Qed.

Lemma set_history_id (s : engine) sid h :
  conversations s !! sid = Some h -> set_history s sid h = s.
Proof.
  intros Hs. destruct s as [c w]. unfold set_history; simpl in *.
  by rewrite insert_id.
Qed.

Lemma append_spec (s : engine) sid h m :
  conversations s !! sid = Some h ->
  append sid m s = (Ok tt, set_history s sid (h ++ [m])).
Proof. intros Hs. unfold append. by rewrite Hs. Qed.

Lemma history_spec (s : engine) sid h :
  conversations s !! sid = Some h -> history sid s = (Ok h, s).
Proof. intros Hs. unfold history. by rewrite Hs. Qed.

Lemma ensure_session_spec (s : engine) sid :
  ensure_session sid s = (Ok tt, set_history s sid (base_history s sid)).
Proof.
  unfold ensure_session, base_history.
  destruct (conversations s !! sid) as [h|] eqn:Hs; simpl.
  - by rewrite set_history_id.
  - reflexivity.
Qed.

Lemma tool_step_spec (s : engine) sid h tc fr :
  conversations s !! sid = Some h ->
  tool_step sid tc fr s =
    match json_loads (function_arguments tc) with
    | None => (Err JSONDecodeError, s)
    | Some function_args =>
        match dispatch data py_repr (function_name tc) function_args fr with
        | Err e => (Err e, s)
        | Ok None =>
            (Err (UnboundLocalError "function_response"),
             set_history s sid (h ++ [call_message tc]))
        | Ok (Some r) =>
            (Ok (Some r),
             set_history s sid
               (h ++ [call_message tc; tool_message tc (json_dumps r)]))
        end
    end.
Proof.
  intros Hs. unfold tool_step, bind, lift.
  destruct (json_loads (function_arguments tc)) as [args|]; [|reflexivity].
  destruct (dispatch data py_repr (function_name tc) args fr) as [[r|]|e];
    [| |reflexivity].
  - rewrite (append_spec s sid h _ Hs).
    rewrite (history_spec _ sid _ (set_history_lookup s sid _)).
    rewrite (append_spec _ sid _ _ (set_history_lookup s sid _)).
    rewrite set_history_twice, <- app_assoc. reflexivity.
  - rewrite (append_spec s sid h _ Hs).
    rewrite (history_spec _ sid _ (set_history_lookup s sid _)).
    reflexivity.
Qed.

(** The loop appends to the session's history exactly the messages of
    its trace, touches nothing else, and ends as the trace ends. *)
Lemma tool_loop_trace sid tcs : forall (s : engine) h fr,
  conversations s !! sid = Some h ->
  tool_loop sid tcs fr s =
    (snd (tool_trace tcs fr), set_history s sid (h ++ fst (tool_trace tcs fr))).
Proof.
  induction tcs as [|tc rest IH]; intros s h fr Hs; simpl.
  - unfold ret. rewrite app_nil_r. by rewrite set_history_id.
  - unfold bind. rewrite (tool_step_spec s sid h tc fr Hs).
    destruct (json_loads (function_arguments tc)) as [args|]; simpl;
      [| by rewrite app_nil_r, set_history_id].
    destruct (dispatch data py_repr (function_name tc) args fr) as [[r|]|e]; simpl;
      [ | reflexivity | by rewrite app_nil_r, set_history_id].
    rewrite (IH _ _ _ (set_history_lookup s sid _)).
    destruct (tool_trace rest (Some r)) as [ms out]; simpl.
    rewrite set_history_twice, <- app_assoc. reflexivity.
Qed.

Lemma set_world_history (s : engine) sid h w :
  conversations (set_world (set_history s sid h) w) !! sid = Some h.
Proof. simpl. apply lookup_insert_eq. Qed.

(** [process_message] computes [turn]. *)
Lemma process_message_turn sid text (s : engine) :
  process_message sid text s = turn sid text s.
Proof.
  unfold process_message, turn, turn_result, bind.
  rewrite ensure_session_spec.
  rewrite (append_spec _ sid _ _ (set_history_lookup s sid _)).
  rewrite set_history_twice.
  set (h1 := base_history s sid ++ [user_message text]).
  rewrite (history_spec _ sid _ (set_history_lookup s sid h1)).
  unfold create, lift, ret; simpl.
  destruct (chat_completions_create (world s) (first_request h1)) as [r1 w1].
  destruct r1 as [response|e]; simpl; [|reflexivity].
  destruct (first_choice response) as [am|e]; simpl; [|reflexivity].
  destruct (truthy_calls (reply_tool_calls am)).
  - rewrite (tool_loop_trace sid _ _ h1 None (set_world_history s sid h1 w1)).
    destruct (tool_trace (default [] (reply_tool_calls am)) None) as [ms out]; simpl.
    destruct out as [fr|e];
      [|unfold set_history, set_world; simpl; by rewrite insert_insert_eq].
    rewrite (history_spec _ sid (h1 ++ ms)) by (simpl; apply lookup_insert_eq).
    simpl.
    destruct (chat_completions_create w1 (second_request (h1 ++ ms))) as [r2 w2].
    destruct r2 as [second|e]; simpl;
      [|unfold set_history, set_world; simpl; by rewrite insert_insert_eq].
    destruct (first_choice second) as [m|e]; simpl;
      [|unfold set_history, set_world; simpl; by rewrite insert_insert_eq].
    erewrite append_spec by (simpl; apply lookup_insert_eq).
    unfold set_history, set_world; simpl. by rewrite !insert_insert_eq.
  - erewrite append_spec by (simpl; apply lookup_insert_eq).
    unfold set_history, set_world; simpl. by rewrite !insert_insert_eq.
Qed.

(** *** A request for an unknown tool *)

(** A name outside the three leaves [function_response] as it was. *)
Lemma dispatch_unknown_name (name : string) args fr :
  name <> "validate_account_number" -> name <> "validate_pin" ->
  name <> "get_account_balance" ->
  dispatch data py_repr name args fr = Ok fr.
Proof.
  intros H1 H2 H3. unfold dispatch.
  apply String.eqb_neq in H1, H2, H3. by rewrite H1, H2, H3.
Qed.

(** So the tool message of such a request carries the result of the
    request before it, and only a first request finds the variable unbound. *)
Lemma tool_response_unknown_name (tc : tool_call) args fr :
  function_name tc <> "validate_account_number" ->
  function_name tc <> "validate_pin" ->
  function_name tc <> "get_account_balance" ->
  json_loads (function_arguments tc) = Some args ->
  tool_response tc fr =
    match fr with
    | Some r => Ok r
    | None => Err (UnboundLocalError "function_response")
    end.
Proof.
  intros H1 H2 H3 Hargs. unfold tool_response.
  rewrite Hargs, (dispatch_unknown_name _ _ _ H1 H2 H3). reflexivity.
Qed.

(** *** The shape of what the loop appends *)

Lemma tool_responses_length tcs : forall fr rs,
  tool_responses tcs fr = Ok rs -> length rs = length tcs.
Proof.
  induction tcs as [|tc rest IH]; intros fr rs; simpl.
  - intros [= <-]. reflexivity.
  - destruct (tool_response tc fr) as [r|e]; simpl; [|discriminate].
    destruct (tool_responses rest (Some r)) as [rs'|e] eqn:Hrs; simpl; [|discriminate].
    intros [= <-]. simpl. f_equal. eauto.
Qed.

Lemma pairs_length tcs : forall rs,
  length rs = length tcs -> length (pairs tcs rs) = (2 * length tcs)%nat.
Proof.
  induction tcs as [|tc tcs IH]; intros [|r rs] Hlen; simpl in *;
    try discriminate; try reflexivity.
  injection Hlen as Hlen. rewrite (IH rs Hlen). lia.
Qed.

(** Request [i] and its result sit next to each other, at positions
    [2i] and [2i+1]. *)
Lemma pairs_lookup tcs : forall rs (i : nat) tc r,
  tcs !! i = Some tc -> rs !! i = Some r ->
  pairs tcs rs !! (2 * i)%nat = Some (call_message tc) /\
  pairs tcs rs !! (2 * i + 1)%nat = Some (tool_message tc (json_dumps r)).
Proof.
  induction tcs as [|tc0 tcs IH]; intros [|r0 rs] i tc r Htc Hr;
    try discriminate.
  destruct i as [|i]; simpl in *.
  - injection Htc as <-. injection Hr as <-. split; reflexivity.
  - replace (i + S (i + 0))%nat with (S (2 * i))%nat by lia.
    replace (i + S (i + 0) + 1)%nat with (S (2 * i + 1))%nat by lia.
    simpl. apply (IH rs i tc r Htc Hr).
Qed.

(** The loop either runs to its end, having appended the pair of every
    request, or stops at a request [tc], having appended the pairs of
    the requests before it and at most the assistant message of [tc]. *)
Lemma tool_trace_cases tcs : forall fr,
  (exists rs fr',
      tool_responses tcs fr = Ok rs /\
      tool_trace tcs fr = (pairs tcs rs, Ok fr')) \/
  (exists pre tc post rs e dangling,
      tcs = pre ++ tc :: post /\
      tool_responses pre fr = Ok rs /\
      tool_response tc (response_after fr rs) = Err e /\
      (dangling = [] \/ dangling = [call_message tc]) /\
      tool_trace tcs fr = (pairs pre rs ++ dangling, Err e)).
Proof.
  induction tcs as [|tc rest IH]; intros fr.
  - left. exists [], fr. split; reflexivity.
  - simpl. unfold tool_response.
    destruct (json_loads (function_arguments tc)) as [args|] eqn:Hargs.
    2:{ right. exists [], tc, rest, [], JSONDecodeError, [].
        unfold tool_response. rewrite Hargs. simpl. auto 10. }
    destruct (dispatch data py_repr (function_name tc) args fr) as [[r|]|e] eqn:Hd;
      simpl.
    + destruct (IH (Some r)) as
        [(rs & fr' & Hrs & Htr) | (pre & tc' & post & rs & e & dg & -> & Hrs & Hbad & Hdg & Htr)].
      * left. exists (r :: rs), fr'. rewrite Hrs, Htr. split; reflexivity.
      * right. exists (tc :: pre), tc', post, (r :: rs), e, dg.
        simpl. unfold tool_response at 1. rewrite Hargs, Hd. simpl.
        rewrite Hrs, Htr. simpl.
        repeat split; assumption.
    + right. exists [], tc, rest, [], (UnboundLocalError "function_response"),
        [call_message tc].
      unfold tool_response. cbn [response_after fold_left]. rewrite Hargs, Hd. simpl. auto 10.
    + right. exists [], tc, rest, [], e, [].
      unfold tool_response. cbn [response_after fold_left]. rewrite Hargs, Hd. simpl. auto 10.
Qed.

(** Iterations compose: the requests after a prefix are dispatched in the
    state the prefix leaves. *)
Lemma tool_loop_app sid pre post : forall fr (s : engine),
  tool_loop sid (pre ++ post) fr s =
    bind (tool_loop sid pre fr) (tool_loop sid post) s.
Proof.
  induction pre as [|tc pre IH]; intros fr s; simpl.
  - reflexivity.
  - unfold bind.
    destruct (tool_step sid tc fr s) as [[fr'|e] s']; [|reflexivity].
    rewrite IH. reflexivity.
Qed.
Lemma tool_trace_roles tcs : forall fr,
  Forall (fun m => role m = Assistant \/ role m = Tool) (fst (tool_trace tcs fr)).
Proof.
  induction tcs as [|tc rest IH]; intros fr; simpl; [constructor|].
  destruct (json_loads (function_arguments tc)) as [args|]; [|constructor].
  destruct (dispatch data py_repr (function_name tc) args fr) as [[r|]|e];
    simpl; [| repeat constructor | constructor].
  specialize (IH (Some r)).
  destruct (tool_trace rest (Some r)) as [ms out]; simpl in *.
  constructor; [left; reflexivity|]. constructor; [right; reflexivity|]. exact IH.
Qed.

(** Whatever the outcome, a turn only extends the history it starts
    from, first with the user message, and never with a system message. *)
Lemma turn_result_extends h0 w text :
  exists new,
    snd (fst (turn_result h0 w text)) = h0 ++ user_message text :: new /\
    Forall (fun m => role m = Assistant \/ role m = Tool) new.
Proof.
  unfold turn_result.
  destruct (chat_completions_create w _) as [r1 w1].
  destruct (rbind r1 first_choice) as [am|e]; simpl.
  2:{ exists []. split; [reflexivity | constructor]. }
  destruct (truthy_calls (reply_tool_calls am)).
  - pose proof (tool_trace_roles (default [] (reply_tool_calls am)) None) as Hroles.
    destruct (tool_trace (default [] (reply_tool_calls am)) None) as [ms out];
      simpl in Hroles.
    destruct out as [fr|e]; simpl.
    2:{ exists ms. split; [by rewrite <- app_assoc | exact Hroles]. }
    destruct (chat_completions_create w1 _) as [r2 w2].
    destruct (rbind r2 first_choice) as [m|e]; simpl.
    + exists (ms ++ [reply_message (reply_content m)]). split.
      * by rewrite <- !app_assoc.
      * apply Forall_app. split; [exact Hroles|]. repeat constructor.
    + exists ms. split; [by rewrite <- app_assoc | exact Hroles].
  - exists [reply_message (reply_content am)]. split.
    + by rewrite <- app_assoc.
    + repeat constructor.
Qed.

(** A turn that completes: either the first reply requested no tool and
    its content is the answer, or the loop ran over every request and the
    second reply, asked with every pair in the history, gives the answer. *)
Lemma turn_result_ok h0 w text ret h' w' :
  turn_result h0 w text = (Ok ret, h', w') ->
  let h1 := h0 ++ [user_message text] in
  exists resp w1 am,
    chat_completions_create w (first_request h1) = (Ok resp, w1) /\
    first_choice resp = Ok am /\
    ((truthy_calls (reply_tool_calls am) = false /\
      ret = reply_content am /\
      h' = h1 ++ [reply_message ret] /\ w' = w1) \/
     (exists tcs rs resp2 m,
         reply_tool_calls am = Some tcs /\ tcs <> [] /\
         tool_responses tcs None = Ok rs /\
         chat_completions_create w1 (second_request (h1 ++ pairs tcs rs))
           = (Ok resp2, w') /\
         first_choice resp2 = Ok m /\
         ret = reply_content m /\
         h' = h1 ++ pairs tcs rs ++ [reply_message ret])).
Proof.
  intros Hturn. cbv zeta. unfold turn_result in Hturn.
  set (h1 := h0 ++ [user_message text]) in *.
  destruct (chat_completions_create w (first_request h1)) as [r1 w1] eqn:Hc1.
  destruct r1 as [resp|e]; simpl in Hturn; [|discriminate].
  destruct (first_choice resp) as [am|e] eqn:Ham; [|discriminate].
  exists resp, w1, am. split; [reflexivity|]. split; [exact Ham|].
  destruct (truthy_calls (reply_tool_calls am)) eqn:Htruthy.
  - right.
    destruct (reply_tool_calls am) as [[|tc tcs]|] eqn:Htcs; try discriminate.
    change (default [] (Some (tc :: tcs))) with (tc :: tcs) in Hturn.
    destruct (tool_trace_cases (tc :: tcs) None) as
      [(rs & fr' & Hrs & Htr) | (pre & tc' & post & rs & e & dg & _ & _ & _ & _ & Htr)];
      rewrite Htr in Hturn; [|discriminate].
    destruct (chat_completions_create w1 _) as [r2 w2] eqn:Hc2.
    destruct r2 as [resp2|e]; simpl in Hturn; [|discriminate].
    destruct (first_choice resp2) as [m|e] eqn:Hm; [|discriminate].
    injection Hturn as <- <- <-.
    exists (tc :: tcs), rs, resp2, m.
    repeat split; try assumption; try reflexivity; try discriminate.
    by rewrite <- app_assoc.
  - left. injection Hturn as <- <- <-. repeat split.
Qed.
Lemma tool_trace_ok tcs : forall fr rs,
  tool_responses tcs fr = Ok rs ->
  tool_trace tcs fr = (pairs tcs rs, Ok (response_after fr rs)).
Proof.
  induction tcs as [|tc rest IH]; intros fr rs; simpl.
  - intros [= <-]. reflexivity.
  - unfold tool_response.
    destruct (json_loads (function_arguments tc)) as [args|]; [|discriminate].
    destruct (dispatch data py_repr (function_name tc) args fr) as [[r|]|e];
      simpl; try discriminate.
    destruct (tool_responses rest (Some r)) as [rs'|e] eqn:Hrs; simpl; [|discriminate].
    intros [= <-]. rewrite (IH _ _ Hrs). reflexivity.
Qed.

(** What [process_message] returns and leaves, through [turn_result]. *)
Lemma process_message_inv sid text (s : engine) out s' :
  process_message sid text s = (out, s') ->
  exists h',
    turn_result (base_history s sid) (world s) text = (out, h', world s') /\
    s' = set_world (set_history s sid h') (world s') /\
    conversations s' !! sid = Some h' /\
    (forall other, other <> sid ->
       conversations s' !! other = conversations s !! other).
Proof.
  rewrite process_message_turn. unfold turn.
  destruct (turn_result (base_history s sid) (world s) text) as [[o h] w].
  intros [= <- <-]. exists h. simpl. repeat split.
  - apply lookup_insert_eq.
  - intros other Hne. by apply lookup_insert_ne.
Qed.

(** *** The result a tool message carries *)

Lemma tool_response_result (tc : tool_call) fr r :
  tool_response tc fr = Ok r -> request_result data py_repr json_loads tc fr r.
Proof.
  unfold tool_response, request_result.
  destruct (json_loads (function_arguments tc)) as [args|]; [|discriminate].
  intros Hr. exists args. split; [reflexivity|].
  unfold dispatch in Hr.
  destruct (String.eqb (function_name tc) "validate_account_number") eqn:E1.
  { apply String.eqb_eq in E1. left. split; [exact E1|].
    destruct (py_subscript args "account_number") as [a|]; simpl in Hr; [|discriminate].
    destruct (validate_account_number data a) as [r'|] eqn:Hv; simpl in Hr;
      [|discriminate].
    injection Hr as <-. eauto. }
  destruct (String.eqb (function_name tc) "validate_pin") eqn:E2.
  { apply String.eqb_eq in E2. right. left. split; [exact E2|].
    destruct (py_subscript args "account_number") as [a|]; simpl in Hr; [|discriminate].
    destruct (py_subscript args "pin") as [p|]; simpl in Hr; [|discriminate].
    destruct (validate_pin data a p) as [r'|] eqn:Hv; simpl in Hr; [|discriminate].
    injection Hr as <-. eauto. }
  destruct (String.eqb (function_name tc) "get_account_balance") eqn:E3.
  { apply String.eqb_eq in E3. right. right. left. split; [exact E3|].
    destruct (py_subscript args "account_number") as [a|]; simpl in Hr; [|discriminate].
    destruct (py_subscript args "pin") as [p|]; simpl in Hr; [|discriminate].
    destruct (get_account_balance data py_repr a p) as [r'|] eqn:Hv; simpl in Hr;
      [|discriminate].
    injection Hr as <-. eauto. }
  right. right. right. split.
  - unfold known_tool. by rewrite E1, E2, E3.
  - simpl in Hr. destruct fr as [r'|]; [|discriminate]. by injection Hr as <-.
Qed.

(** Each result of the loop is the result of its request, given the result
    before it. *)
Lemma tool_responses_results tcs : forall fr rs,
  tool_responses tcs fr = Ok rs ->
  forall (i : nat) tc r,
    tcs !! i = Some tc -> rs !! i = Some r ->
    request_result data py_repr json_loads tc
      (match i with O => fr | S j => rs !! j end) r.
Proof.
  induction tcs as [|tc0 rest IH]; intros fr rs Hrs i tc r Htc Hr; [discriminate|].
  simpl in Hrs.
  destruct (tool_response tc0 fr) as [r0|] eqn:H0; simpl in Hrs; [|discriminate].
  destruct (tool_responses rest (Some r0)) as [rs'|] eqn:Hrest; simpl in Hrs;
    [|discriminate].
  injection Hrs as <-.
  destruct i as [|j]; simpl in *.
  - injection Htc as <-. injection Hr as <-. by apply tool_response_result.
  - pose proof (IH _ _ Hrest j tc r Htc Hr) as Hres.
    destruct j; exact Hres.
Qed.

(** C10: a call of [process_message] that returns [ret] leaves the session
    history equal to the history it started from (the stored one, or the
    one system message for a new session) followed, in this order, by the
    user message whose content is the input text, by nothing more when the
    first reply requested no tool and otherwise by one assistant / tool
    pair per request (the assistant message lists the request and has no
    content, the tool message carries the identifier of the request and
    the serialised result of executing it), and by one assistant message
    whose content is [ret]; the histories of the other sessions are
    untouched. *)
Theorem completed_turn_appends sid text (s : engine) ret s' :
  process_message sid text s = (Ok ret, s') ->
  exists base resp w1 am middle,
    match conversations s !! sid with
    | Some h => base = h
    | None =>
        base = [ {| role := System; content := Some SYSTEM_PROMPT;
                    tool_calls := None; tool_call_id := None |} ]
    end /\
    base = base_history s sid /\
    chat_completions_create (world s)
        (first_request (base_history s sid ++ [user_message text]))
      = (Ok resp, w1) /\
    first_choice resp = Ok am /\
    conversations s' !! sid =
      Some (base
              ++ [ {| role := User; content := Some text;
                      tool_calls := None; tool_call_id := None |} ]
              ++ middle
              ++ [ {| role := Assistant; content := ret;
                      tool_calls := None; tool_call_id := None |} ]) /\
    conversations s' !! sid =
      Some (base_history s sid ++ [user_message text] ++ middle
              ++ [reply_message ret]) /\
    content (reply_message ret) = ret /\
    (((reply_tool_calls am = None \/ reply_tool_calls am = Some []) /\
      truthy_calls (reply_tool_calls am) = false /\ middle = []) \/
     (exists tcs rs,
         reply_tool_calls am = Some tcs /\ tcs <> [] /\
         tool_responses tcs None = Ok rs /\
         length rs = length tcs /\ middle = pairs tcs rs /\
         length middle = (2 * length tcs)%nat /\
         forall (i : nat) tc,
           tcs !! i = Some tc ->
           exists r,
             rs !! i = Some r /\
             request_result data py_repr json_loads tc
               (match i with O => None | S j => rs !! j end) r /\
             middle !! (2 * i)%nat =
               Some {| role := Assistant; content := None;
                       tool_calls := Some [tc]; tool_call_id := None |} /\
             middle !! (2 * i + 1)%nat =
               Some {| role := Tool; content := Some (json_dumps r);
                       tool_calls := None; tool_call_id := Some (call_id tc) |})) /\
    (forall other, other <> sid ->
       conversations s' !! other = conversations s !! other).
Proof.
  intros Hrun.
  destruct (process_message_inv _ _ _ _ _ Hrun) as (h' & Hturn & _ & Hh' & Hother).
  assert (Hbase : match conversations s !! sid with
                  | Some h => base_history s sid = h
                  | None =>
                      base_history s sid =
                        [ {| role := System; content := Some SYSTEM_PROMPT;
                             tool_calls := None; tool_call_id := None |} ]
                  end).
  { unfold base_history. by destruct (conversations s !! sid). }
  destruct (turn_result_ok _ _ _ _ _ _ Hturn) as
    (resp & w1 & am & Hc1 & Ham &
     [(Hno & -> & -> & _) | (tcs & rs & resp2 & m & Htcs & Hne & Hrs & _ & _ & -> & ->)]).
  - exists (base_history s sid), resp, w1, am, [].
    assert (Hh : conversations s' !! sid =
                   Some (base_history s sid ++ [user_message text] ++ []
                           ++ [reply_message (reply_content am)])).
    { rewrite Hh'. by rewrite <- app_assoc. }
    split; [exact Hbase|]. split; [reflexivity|]. split; [exact Hc1|].
    split; [exact Ham|]. split; [exact Hh|]. split; [exact Hh|].
    split; [reflexivity|]. split; [|exact Hother].
    left. split; [|split; [exact Hno | reflexivity]].
    destruct (reply_tool_calls am) as [[|? ?]|]; auto; discriminate.
  - exists (base_history s sid), resp, w1, am, (pairs tcs rs).
    pose proof (tool_responses_length _ _ _ Hrs) as Hlen.
    assert (Hh : conversations s' !! sid =
                   Some (base_history s sid ++ [user_message text] ++ pairs tcs rs
                           ++ [reply_message (reply_content m)])).
    { rewrite Hh'. by rewrite <- !app_assoc. }
    split; [exact Hbase|]. split; [reflexivity|]. split; [exact Hc1|].
    split; [exact Ham|]. split; [exact Hh|]. split; [exact Hh|].
    split; [reflexivity|]. split; [|exact Hother].
    right. exists tcs, rs.
    split; [exact Htcs|]. split; [exact Hne|]. split; [exact Hrs|].
    split; [exact Hlen|]. split; [reflexivity|].
    split; [apply pairs_length, Hlen|].
    intros i tc Htc.
    destruct (rs !! i) as [r|] eqn:Hr.
    2:{ apply lookup_ge_None in Hr. apply lookup_lt_Some in Htc. lia. }
    exists r. split; [reflexivity|].
    split; [exact (tool_responses_results _ _ _ Hrs i tc r Htc Hr)|].
    exact (pairs_lookup tcs rs i tc r Htc Hr).
Qed.

(** The turn from the point where the first reply, requesting [tcs], has
    arrived. *)
Lemma turn_result_requests h0 w text resp w1 am tcs :
  chat_completions_create w (first_request (h0 ++ [user_message text]))
    = (Ok resp, w1) ->
  first_choice resp = Ok am ->
  reply_tool_calls am = Some tcs -> tcs <> [] ->
  turn_result h0 w text =
    let h1 := h0 ++ [user_message text] in
    let '(ms, out) := tool_trace tcs None in
    match out with
    | Err e => (Err e, h1 ++ ms, w1)
    | Ok _ =>
        let '(r2, w2) := chat_completions_create w1 (second_request (h1 ++ ms)) in
        match rbind r2 first_choice with
        | Err e => (Err e, h1 ++ ms, w2)
        | Ok m =>
            (Ok (reply_content m),
             (h1 ++ ms) ++ [reply_message (reply_content m)], w2)
        end
    end.
Proof.
  intros Hc1 Ham Htcs Hne. unfold turn_result.
  rewrite Hc1. simpl. rewrite Ham, Htcs.
  destruct tcs as [|tc tcs]; [congruence|]. reflexivity.
Qed.

(** C3: when the first reply requests the tool calls [tcs], the turn
    appends, after the user message, the pair of each request in request
    order: at position [2i] the assistant message that lists request [i]
    and, immediately after it, the tool message that carries the
    identifier of request [i] and, as content, the serialised result of
    executing that request (the value the tool it names returns on the
    decoded arguments).  If the loop stops at a request, the pairs of the
    requests before it are in the history (and at most the assistant
    message of that request) and no follow-up call is made; if it runs to
    the end, the follow-up call is made with a history that holds every
    pair.  Dispatch is sequential: the loop reaches each request in the
    state where the pairs of all earlier requests are already appended. *)
Theorem tool_results_follow_request_order sid text (s : engine) resp w1 am tcs :
  let h1 := base_history s sid ++ [user_message text] in
  let s1 := set_world (set_history s sid h1) w1 in
  chat_completions_create (world s) (first_request h1) = (Ok resp, w1) ->
  first_choice resp = Ok am ->
  reply_tool_calls am = Some tcs -> tcs <> [] ->
  ((exists pre tc post rs e dangling,
       tcs = pre ++ tc :: post /\
       tool_responses pre None = Ok rs /\
       tool_response tc (response_after None rs) = Err e /\
       (dangling = [] \/
        dangling = [ {| role := Assistant; content := None;
                        tool_calls := Some [tc]; tool_call_id := None |} ]) /\
       process_message sid text s =
         (Err e, set_world (set_history s sid (h1 ++ pairs pre rs ++ dangling)) w1))
   \/
   (exists rs,
       tool_responses tcs None = Ok rs /\
       length rs = length tcs /\
       process_message sid text s =
         let '(r2, w2) :=
           chat_completions_create w1 (second_request (h1 ++ pairs tcs rs)) in
         match rbind r2 first_choice with
         | Err e => (Err e, set_world (set_history s sid (h1 ++ pairs tcs rs)) w2)
         | Ok m =>
             (Ok (reply_content m),
              set_world
                (set_history s sid
                   (h1 ++ pairs tcs rs ++ [reply_message (reply_content m)])) w2)
         end)) /\
  (forall pre rs,
      tool_responses pre None = Ok rs ->
      length (pairs pre rs) = (2 * length pre)%nat /\
      forall (i : nat) tc,
        pre !! i = Some tc ->
        exists r,
          rs !! i = Some r /\
          request_result data py_repr json_loads tc
            (match i with O => None | S j => rs !! j end) r /\
          pairs pre rs !! (2 * i)%nat =
            Some {| role := Assistant; content := None;
                    tool_calls := Some [tc]; tool_call_id := None |} /\
          pairs pre rs !! (2 * i + 1)%nat =
            Some {| role := Tool; content := Some (json_dumps r);
                    tool_calls := None; tool_call_id := Some (call_id tc) |}) /\
  (forall pre tc post rs,
      tcs = pre ++ tc :: post ->
      tool_responses pre None = Ok rs ->
      let s_mid := set_history s1 sid (h1 ++ pairs pre rs) in
      tool_loop sid pre None s1 = (Ok (response_after None rs), s_mid) /\
      conversations s_mid !! sid = Some (h1 ++ pairs pre rs) /\
      tool_loop sid tcs None s1 =
        tool_loop sid (tc :: post) (response_after None rs) s_mid).
Proof.
  intros h1 s1 Hc1 Ham Htcs Hne. split; [|split].
  - rewrite process_message_turn. unfold turn.
    rewrite (turn_result_requests _ _ _ _ _ _ _ Hc1 Ham Htcs Hne).
    fold h1. simpl.
    destruct (tool_trace_cases tcs None) as
      [(rs & fr' & Hrs & Htr)
      | (pre & tc & post & rs & e & dg & Hsplit & Hrs & Hbad & Hdg & Htr)].
    + right. exists rs. split; [exact Hrs|].
      split; [eapply tool_responses_length, Hrs|].
      rewrite Htr.
      destruct (chat_completions_create w1 (second_request (h1 ++ pairs tcs rs)))
        as [r2 w2].
      destruct (rbind r2 first_choice) as [m|e]; [|reflexivity].
      by rewrite <- app_assoc.
    + left. exists pre, tc, post, rs, e, dg.
      split; [exact Hsplit|]. split; [exact Hrs|]. split; [exact Hbad|].
      split; [exact Hdg|].
      rewrite Htr. reflexivity.
  - intros pre rs Hrs.
    pose proof (tool_responses_length _ _ _ Hrs) as Hlen.
    split; [apply pairs_length, Hlen|].
    intros i tc Htc.
    destruct (rs !! i) as [r|] eqn:Hr.
    2:{ apply lookup_ge_None in Hr. apply lookup_lt_Some in Htc. lia. }
    exists r. split; [reflexivity|].
    split; [exact (tool_responses_results _ _ _ Hrs i tc r Htc Hr)|].
    exact (pairs_lookup pre rs i tc r Htc Hr).
  - intros pre tc post rs Hsplit Hrs s_mid.
    assert (Hpre : tool_loop sid pre None s1 = (Ok (response_after None rs), s_mid)).
    { rewrite (tool_loop_trace sid pre s1 h1 None (set_world_history s sid h1 w1)).
      rewrite (tool_trace_ok _ _ _ Hrs). reflexivity. }
    split; [exact Hpre|]. split; [apply set_history_lookup|].
    rewrite Hsplit, tool_loop_app. unfold bind at 1. rewrite Hpre. reflexivity.
Qed.
Lemma filter_pairs tcs : forall rs,
  length rs = length tcs ->
  List.filter has_tool_calls (pairs tcs rs) = map call_message tcs.
Proof.
  induction tcs as [|tc tcs IH]; intros [|r rs] Hlen; simpl in *;
    try discriminate; try reflexivity.
  injection Hlen as Hlen. by rewrite IH.
Qed.

(** C2, as the code has it: when the first reply requests the tool calls
    [tcs] and the turn completes, the assistant messages with a
    tool-call list that the turn appends are one per request, in request
    order; the one of request [i] has no content, lists that request
    alone, and stands immediately before the tool message of request [i].
    (For a single request this is one message listing the original
    request list.) *)
Theorem one_call_message_per_request sid text (s : engine) resp w1 am tcs ret s' :
  let h1 := base_history s sid ++ [user_message text] in
  chat_completions_create (world s) (first_request h1) = (Ok resp, w1) ->
  first_choice resp = Ok am ->
  reply_tool_calls am = Some tcs -> tcs <> [] ->
  process_message sid text s = (Ok ret, s') ->
  exists rs,
    length rs = length tcs /\
    conversations s' !! sid = Some (h1 ++ pairs tcs rs ++ [reply_message ret]) /\
    List.filter has_tool_calls (pairs tcs rs ++ [reply_message ret])
      = map call_message tcs /\
    (forall (i : nat) tc,
        tcs !! i = Some tc ->
        pairs tcs rs !! (2 * i)%nat =
          Some {| role := Assistant; content := None;
                  tool_calls := Some [tc]; tool_call_id := None |} /\
        exists r,
          pairs tcs rs !! (2 * i + 1)%nat = Some (tool_message tc (json_dumps r))).
Proof.
  intros h1 Hc1 Ham Htcs Hne Hrun.
  destruct (process_message_inv _ _ _ _ _ Hrun) as (h' & Hturn & _ & Hh' & _).
  rewrite (turn_result_requests _ _ _ _ _ _ _ Hc1 Ham Htcs Hne) in Hturn.
  fold h1 in Hturn. cbv zeta in Hturn.
  destruct (tool_trace_cases tcs None) as
    [(rs & fr' & Hrs & Htr) | (pre & tc & post & rs & e & dg & _ & _ & _ & _ & Htr)];
    rewrite Htr in Hturn; [|discriminate].
  destruct (chat_completions_create w1 _) as [r2 w2].
  destruct (rbind r2 first_choice) as [m|e]; [|discriminate].
  injection Hturn as <- <- _.
  pose proof (tool_responses_length _ _ _ Hrs) as Hlen.
  exists rs. split; [exact Hlen|]. split; [by rewrite Hh', <- app_assoc|]. split.
  - rewrite List.filter_app, (filter_pairs _ _ Hlen). simpl. apply app_nil_r.
  - intros i tc Htc.
    destruct (rs !! i) as [r|] eqn:Hr.
    + destruct (pairs_lookup tcs rs i tc r Htc Hr) as [H1 H2].
      split; [exact H1 | exists r; exact H2].
    + apply lookup_ge_None in Hr. apply lookup_lt_Some in Htc. lia.
Qed.

(** C4, as the code has it: the reply to the follow-up call is read for
    its content only.  Whatever tool calls that reply requests, the turn
    ends normally: it returns the content of the reply (Python's [None]
    when there is none) and appends one assistant message with that
    content; the history and the world are otherwise as the loop and the
    follow-up call left them. *)
Theorem second_round_requests_ignored sid text (s : engine)
    resp w1 am tcs rs resp2 w2 m2 :
  let h1 := base_history s sid ++ [user_message text] in
  chat_completions_create (world s) (first_request h1) = (Ok resp, w1) ->
  first_choice resp = Ok am ->
  reply_tool_calls am = Some tcs -> tcs <> [] ->
  tool_responses tcs None = Ok rs ->
  chat_completions_create w1 (second_request (h1 ++ pairs tcs rs)) = (Ok resp2, w2) ->
  first_choice resp2 = Ok m2 ->
  process_message sid text s =
    (Ok (reply_content m2),
     set_world
       (set_history s sid
          (h1 ++ pairs tcs rs ++ [reply_message (reply_content m2)])) w2).
Proof.
  intros h1 Hc1 Ham Htcs Hne Hrs Hc2 Hm2.
  rewrite process_message_turn. unfold turn.
  rewrite (turn_result_requests _ _ _ _ _ _ _ Hc1 Ham Htcs Hne).
  fold h1. cbv zeta. rewrite (tool_trace_ok _ _ _ Hrs), Hc2. simpl.
  rewrite Hm2. by rewrite <- app_assoc.
Qed.

(** ** Sessions *)

Lemma end_session_lookup sid (s : engine) :
  conversations (snd (end_session sid s)) !! sid = None.
Proof.
  unfold end_session; simpl.
  destruct (conversations s !! sid) eqn:Hs; simpl; [apply lookup_delete_eq | exact Hs].
Qed.

Lemma end_session_other sid other (s : engine) :
  other <> sid ->
  conversations (snd (end_session sid s)) !! other = conversations s !! other.
Proof.
  intros Hne. unfold end_session; simpl.
  destruct (conversations s !! sid); simpl; [by apply lookup_delete_ne | reflexivity].
Qed.

Lemma end_session_absent sid (s : engine) :
  conversations s !! sid = None -> snd (end_session sid s) = s.
Proof. intros Hs. unfold end_session; simpl. by rewrite Hs. Qed.

Lemma not_system (m : message) :
  role m = Assistant \/ role m = Tool -> role m <> System.
Proof. intros [H|H]; rewrite H; discriminate. Qed.

Lemma process_message_history sid text (s : engine) :
  exists new,
    conversations (snd (process_message sid text s)) !! sid =
      Some (base_history s sid ++ user_message text :: new) /\
    Forall (fun m => role m <> System) new.
Proof.
  rewrite process_message_turn. unfold turn.
  destruct (turn_result_extends (base_history s sid) (world s) text)
    as (new & Hnew & Hroles).
  destruct (turn_result (base_history s sid) (world s) text) as [[o h] w].
  simpl in *. exists new. split.
  - rewrite lookup_insert_eq. by rewrite Hnew.
  - eapply Forall_impl; [exact Hroles | apply not_system].
Qed.

(** The outcome and the session history of a turn depend on the engine
    only through the history the turn starts from and the world. *)
Lemma process_message_depends sid text (s t : engine) :
  base_history s sid = base_history t sid -> world s = world t ->
  fst (process_message sid text s) = fst (process_message sid text t) /\
  conversations (snd (process_message sid text s)) !! sid =
    conversations (snd (process_message sid text t)) !! sid.
Proof.
  intros Hbase Hworld. rewrite !process_message_turn. unfold turn.
  rewrite Hbase, Hworld.
  destruct (turn_result (base_history t sid) (world t) text) as [[o h] w].
  simpl. by rewrite !lookup_insert_eq.
Qed.

(** C7: a turn on a session that does not exist yet leaves a history that
    begins with the system message, then the user message, and holds no
    other system message; a turn on an existing session keeps its history
    and appends no system message.  After a deletion the session is
    absent, so the next message under the same identifier starts from the
    seed again, and the outcome and history of that turn are the same
    whatever the session held before the deletion. *)
Theorem system_message_seeded_once sid text (s : engine) :
  (conversations s !! sid = None ->
     exists rest,
       conversations (snd (process_message sid text s)) !! sid =
         Some (system_message :: user_message text :: rest) /\
       Forall (fun m => role m <> System) rest) /\
  (forall h, conversations s !! sid = Some h ->
     exists new,
       conversations (snd (process_message sid text s)) !! sid = Some (h ++ new) /\
       Forall (fun m => role m <> System) new) /\
  (let deleted := snd (end_session sid s) in
   conversations deleted !! sid = None /\
   (exists rest,
       conversations (snd (process_message sid text deleted)) !! sid =
         Some (system_message :: user_message text :: rest) /\
       Forall (fun m => role m <> System) rest) /\
   (forall t : engine,
       world t = world s ->
       let deleted' := snd (end_session sid t) in
       fst (process_message sid text deleted') =
         fst (process_message sid text deleted) /\
       conversations (snd (process_message sid text deleted')) !! sid =
         conversations (snd (process_message sid text deleted)) !! sid)).
Proof.
  assert (Hfresh : forall u : engine, conversations u !! sid = None ->
     exists rest,
       conversations (snd (process_message sid text u)) !! sid =
         Some (system_message :: user_message text :: rest) /\
       Forall (fun m => role m <> System) rest).
  { intros u Hu.
    destruct (process_message_history sid text u) as (new & Hnew & Hroles).
    exists new. split; [|exact Hroles].
    rewrite Hnew. unfold base_history. rewrite Hu. reflexivity. }
  split; [apply Hfresh|]. split.
  - intros h Hs.
    destruct (process_message_history sid text s) as (new & Hnew & Hroles).
    exists (user_message text :: new). split.
    + rewrite Hnew. unfold base_history. rewrite Hs. reflexivity.
    + constructor; [discriminate | exact Hroles].
  - cbv zeta. split; [apply end_session_lookup|].
    split; [apply Hfresh, end_session_lookup|].
    intros t Hworld.
    apply process_message_depends.
    + unfold base_history. by rewrite !end_session_lookup.
    + unfold end_session; simpl.
      destruct (conversations t !! sid), (conversations s !! sid); simpl; exact Hworld.
Qed.

(** C9: a deletion request always answers with the same confirmation and
    never fails, whether the session exists or not; after it the session
    is absent and the other sessions are as before; repeating the request
    any number of times changes nothing more. *)
Theorem end_session_idempotent sid (s : engine) (n : nat) :
  let delete_once := fun st : engine => snd (end_session sid st) in
  fst (end_session sid (Nat.iter n delete_once s)) =
    Http200 [("message", Some "Session ended successfully")] /\
  conversations (delete_once s) !! sid = None /\
  Nat.iter (S n) delete_once s = delete_once s /\
  (forall other, other <> sid ->
     conversations (delete_once s) !! other = conversations s !! other).
Proof.
  cbv zeta. split; [reflexivity|]. split; [apply end_session_lookup|]. split.
  - induction n as [|n IH]; [reflexivity|].
    change (Nat.iter (S (S n)) (fun st : engine => snd (end_session sid st)) s)
      with (snd (end_session sid
                   (Nat.iter (S n) (fun st : engine => snd (end_session sid st)) s))).
    rewrite IH. apply end_session_absent, end_session_lookup.
  - intros other Hne. by apply end_session_other.
Qed.
End EngineFacts.

(** ** The claims on the examples *)

(** The first reply and the outcome of the two-request example. *)
Lemma two_calls_first_reply :
  scripted_create (world example_two_calls)
      (first_request (base_history example_two_calls "s1" ++ [user_message "hi"]))
    = (Ok two_calls_reply, [text_reply "done"]).
Proof. reflexivity. Qed.

Lemma two_calls_run :
  fixture_process_message "s1" "hi" example_two_calls =
    (Ok (Some "done"), snd (fixture_process_message "s1" "hi" example_two_calls)).
Proof. vm_compute. reflexivity. Qed.

(** The hypothesis of the theorem on completed turns, met by the
    two-request example: the history is the system message, the user
    message with the text, four messages for the two requests and the
    assistant message with the answer. *)
Lemma completed_turn_appends_witness :
  fixture_process_message "s1" "hi" example_two_calls =
    (Ok (Some "done"), snd (fixture_process_message "s1" "hi" example_two_calls)) /\
  exists base middle,
    base = [ {| role := System; content := Some SYSTEM_PROMPT;
                tool_calls := None; tool_call_id := None |} ] /\
    length middle = 4%nat /\
    conversations (snd (fixture_process_message "s1" "hi" example_two_calls)) !! "s1" =
      Some (base
              ++ [ {| role := User; content := Some "hi";
                      tool_calls := None; tool_call_id := None |} ]
              ++ middle
              ++ [ {| role := Assistant; content := Some "done";
                      tool_calls := None; tool_call_id := None |} ]).
Proof.
  assert (Hrun : fixture_process_message "s1" "hi" example_two_calls =
    (Ok (Some "done"), snd (fixture_process_message "s1" "hi" example_two_calls))).
  { vm_compute. reflexivity. }
  split; [exact Hrun|].
  destruct (completed_turn_appends fixture_data fixture_repr fixture_loads fixture_dumps
              _ scripted_create "s1" "hi" example_two_calls (Some "done") _ Hrun)
    as (base & resp & w1 & am & middle & Hbase & _ & Hc1 & Ham & Hh & _ & _ & Hmid & _).
  exists base, middle.
  split; [exact Hbase|]. split; [|exact Hh].
  rewrite two_calls_first_reply in Hc1. injection Hc1 as <- _.
  injection Ham as <-.
  destruct Hmid as [([Hn|Hn] & _) | (tcs & rs & Htcs & _ & _ & _ & _ & Hlen & _)];
    [discriminate Hn | discriminate Hn |].
  simpl in Htcs. injection Htcs as <-. exact Hlen.
Defined.

(** The hypotheses of the ordering theorem, met by the two-request
    example, and what it gives there: the two results are those of the two
    validators, and the history holds the two pairs, each tool message with
    the result of its own request. *)
Lemma tool_results_follow_request_order_witness :
  first_choice two_calls_reply =
    Ok {| reply_content := None;
          reply_tool_calls := Some [call_validate_account; call_validate_pin] |} /\
  [call_validate_account; call_validate_pin] <> [] /\
  validate_account_number fixture_data (PStr "12345") = Ok validate_account_result /\
  validate_pin fixture_data (PStr "12345") (PStr "0000") = Ok validate_pin_result /\
  fixture_process_message "s1" "hi" example_two_calls =
    (Ok (Some "done"),
     set_world
       (set_history example_two_calls "s1"
          [ {| role := System; content := Some SYSTEM_PROMPT;
               tool_calls := None; tool_call_id := None |};
            {| role := User; content := Some "hi";
               tool_calls := None; tool_call_id := None |};
            {| role := Assistant; content := None;
               tool_calls := Some [call_validate_account]; tool_call_id := None |};
            {| role := Tool; content := Some (fixture_dumps validate_account_result);
               tool_calls := None; tool_call_id := Some "call_1" |};
            {| role := Assistant; content := None;
               tool_calls := Some [call_validate_pin]; tool_call_id := None |};
            {| role := Tool; content := Some (fixture_dumps validate_pin_result);
               tool_calls := None; tool_call_id := Some "call_2" |};
            {| role := Assistant; content := Some "done";
               tool_calls := None; tool_call_id := None |} ]) []) /\
  forall (i : nat) tc,
    [call_validate_account; call_validate_pin] !! i = Some tc ->
    exists r,
      [validate_account_result; validate_pin_result] !! i = Some r /\
      request_result fixture_data fixture_repr fixture_loads tc
        (match i with
         | O => None
         | S j => [validate_account_result; validate_pin_result] !! j
         end) r /\
      pairs fixture_dumps [call_validate_account; call_validate_pin]
          [validate_account_result; validate_pin_result] !! (2 * i + 1)%nat =
        Some {| role := Tool; content := Some (fixture_dumps r);
                tool_calls := None; tool_call_id := Some (call_id tc) |}.
Proof.
  split; [reflexivity|]. split; [discriminate|].
  split; [vm_compute; reflexivity|]. split; [vm_compute; reflexivity|].
  assert (Hrs : tool_responses fixture_data fixture_repr fixture_loads
                  [call_validate_account; call_validate_pin] None
                = Ok [validate_account_result; validate_pin_result])
    by (vm_compute; reflexivity).
  destruct (tool_results_follow_request_order fixture_data fixture_repr fixture_loads
              fixture_dumps _ scripted_create "s1" "hi" example_two_calls
              two_calls_reply [text_reply "done"] _ _
              two_calls_first_reply eq_refl eq_refl ltac:(discriminate))
    as (Hcases & Hpairs & _).
  split.
  - destruct Hcases as
      [(pre & tc & post & rs & e & dg & _ & _ & _ & _ & Hrun) | (rs & Hrs' & _ & Hrun)].
    + pose proof two_calls_run as Hok. unfold fixture_process_message in Hok.
      rewrite Hrun in Hok. discriminate Hok.
    + rewrite Hrs in Hrs'. injection Hrs' as <-.
      unfold fixture_process_message. rewrite Hrun. reflexivity.
  - intros i tc Htc.
    destruct (proj2 (Hpairs _ _ Hrs) i tc Htc) as (r & Hr & Hres & _ & Htool).
    exists r. split; [exact Hr|]. split; [exact Hres|exact Htool].
Defined.

(** The hypotheses of the theorem on assistant messages, met by the
    two-request example. *)
Lemma one_call_message_per_request_witness :
  exists rs,
    length rs = 2%nat /\
    conversations (snd (fixture_process_message "s1" "hi" example_two_calls)) !! "s1" =
      Some ((base_history example_two_calls "s1" ++ [user_message "hi"])
              ++ pairs fixture_dumps [call_validate_account; call_validate_pin] rs
              ++ [reply_message (Some "done")]) /\
    List.filter has_tool_calls
        (pairs fixture_dumps [call_validate_account; call_validate_pin] rs
           ++ [reply_message (Some "done")])
      = map call_message [call_validate_account; call_validate_pin] /\
    (forall (i : nat) tc,
        [call_validate_account; call_validate_pin] !! i = Some tc ->
        pairs fixture_dumps [call_validate_account; call_validate_pin] rs !! (2 * i)%nat =
          Some {| role := Assistant; content := None;
                  tool_calls := Some [tc]; tool_call_id := None |} /\
        exists r,
          pairs fixture_dumps [call_validate_account; call_validate_pin] rs
            !! (2 * i + 1)%nat = Some (tool_message tc (fixture_dumps r))).
Proof.
  exact (one_call_message_per_request fixture_data fixture_repr fixture_loads
           fixture_dumps _ scripted_create "s1" "hi" example_two_calls
           two_calls_reply [text_reply "done"] _ _ (Some "done") _
           two_calls_first_reply eq_refl eq_refl ltac:(discriminate) two_calls_run).
Defined.

(** C2 as worded fails on the two-request example: the turn completes and
    the messages it appends hold two assistant messages with a tool-call
    list, each listing one request, and none listing both. *)
Lemma single_request_message_counterexample :
  exists appended,
    fst (fixture_process_message "s1" "hi" example_two_calls) = Ok (Some "done") /\
    conversations (snd (fixture_process_message "s1" "hi" example_two_calls)) !! "s1" =
      Some (get_initial_conversation ++ appended) /\
    List.filter has_tool_calls appended =
      [call_message call_validate_account; call_message call_validate_pin] /\
    ~ single_request_message [call_validate_account; call_validate_pin] appended.
Proof.
  exists [ user_message "hi";
           call_message call_validate_account;
           tool_message call_validate_account (fixture_dumps validate_account_result);
           call_message call_validate_pin;
           tool_message call_validate_pin (fixture_dumps validate_pin_result);
           reply_message (Some "done") ].
  split; [vm_compute; reflexivity|]. split; [vm_compute; reflexivity|].
  split; [reflexivity|].
  unfold single_request_message. simpl. discriminate.
Qed.

(** The hypotheses of the theorem on the follow-up reply, met by the
    example whose follow-up reply requests the balance tool. *)
Lemma second_round_requests_ignored_witness :
  tool_responses fixture_data fixture_repr fixture_loads [call_validate_account] None
    = Ok [validate_account_result] /\
  first_choice balance_request_reply =
    Ok {| reply_content := None; reply_tool_calls := Some [call_balance] |} /\
  fixture_process_message "s1" "hi" example_second_round =
    (Ok None,
     set_world
       (set_history example_second_round "s1"
          ((base_history example_second_round "s1" ++ [user_message "hi"])
             ++ pairs fixture_dumps [call_validate_account] [validate_account_result]
             ++ [reply_message None])) []).
Proof.
  split; [vm_compute; reflexivity|]. split; [reflexivity|].
  exact (second_round_requests_ignored fixture_data fixture_repr fixture_loads
           fixture_dumps _ scripted_create "s1" "hi" example_second_round
           one_call_reply [requests_reply [call_balance]] _ [call_validate_account]
           [validate_account_result] balance_request_reply [] _
           eq_refl eq_refl eq_refl ltac:(discriminate)
           ltac:(vm_compute; reflexivity) eq_refl eq_refl).
Defined.

(** C4 as worded fails on that example: the follow-up reply requests the
    balance tool, the turn ends without an error, returns [None], and the
    history holds no tool message for that request. *)
Lemma second_round_handled_counterexample :
  exists h,
    fst (fixture_process_message "s1" "hi" example_second_round) = Ok None /\
    conversations (snd (fixture_process_message "s1" "hi" example_second_round)) !! "s1"
      = Some h /\
    h = [ system_message; user_message "hi";
          call_message call_validate_account;
          tool_message call_validate_account (fixture_dumps validate_account_result);
          reply_message None ] /\
    ~ second_round_handled
        (fst (fixture_process_message "s1" "hi" example_second_round)) h [call_balance].
Proof.
  eexists. split; [vm_compute; reflexivity|]. split; [vm_compute; reflexivity|].
  split; [vm_compute; reflexivity|].
  intros [[e He] | Hall].
  - vm_compute in He. discriminate.
  - destruct (Hall call_balance (or_introl eq_refl)) as [text Hin].
    simpl in Hin.
    repeat (destruct Hin as [Hin | Hin]; [discriminate Hin|]).
    exact Hin.
Qed.

(** C1 on the code: an unknown tool name is not rejected.  Requested after
    a known tool, it makes the turn succeed (status 200) with a tool
    message, under the identifier of the unknown request, whose content is
    the result of the previous request.  Requested first, the turn fails
    only because the local variable [function_response] is still unbound,
    after the assistant message of the request has been appended. *)
Theorem unknown_tool_not_rejected :
  fst (chat_endpoint fixture_data fixture_repr fixture_loads fixture_dumps
         scripted_create "s1" "hi" example_unknown_second)
    = Http200 [("response", Some "done")] /\
  conversations (snd (fixture_process_message "s1" "hi" example_unknown_second)) !! "s1"
    = Some [ system_message; user_message "hi";
             call_message call_validate_account;
             tool_message call_validate_account (fixture_dumps validate_account_result);
             call_message call_transfer;
             tool_message call_transfer (fixture_dumps validate_account_result);
             reply_message (Some "done") ] /\
  fst (chat_endpoint fixture_data fixture_repr fixture_loads fixture_dumps
         scripted_create "s1" "hi" example_unknown_first)
    = Http500 (UnboundLocalError "function_response") /\
  conversations (snd (fixture_process_message "s1" "hi" example_unknown_first)) !! "s1"
    = Some [ system_message; user_message "hi"; call_message call_transfer ].
Proof. repeat split; vm_compute; reflexivity. Qed.

(** On the two-request example the session is new, and the turn leaves a
    history that begins with the system message and the user message. *)
Lemma system_message_seeded_once_witness :
  conversations example_two_calls !! "s1" = None /\
  exists rest,
    conversations (snd (fixture_process_message "s1" "hi" example_two_calls)) !! "s1" =
      Some (system_message :: user_message "hi" :: rest) /\
    Forall (fun m => role m <> System) rest.
Proof.
  split; [reflexivity|].
  exact (proj1 (system_message_seeded_once fixture_data fixture_repr fixture_loads
                  fixture_dumps _ scripted_create "s1" "hi" example_two_calls)
           eq_refl).
Defined.

(** Deleting session s1 after a turn on it leaves session s2 as it was. *)
Lemma end_session_idempotent_witness :
  "s2" <> "s1" /\
  conversations
      (snd (end_session "s1" (snd (fixture_process_message "s1" "hi" example_two_calls))))
      !! "s2"
    = conversations (snd (fixture_process_message "s1" "hi" example_two_calls)) !! "s2".
Proof.
  split; [discriminate|].
  exact (proj2 (proj2 (proj2
    (end_session_idempotent _ "s1"
       (snd (fixture_process_message "s1" "hi" example_two_calls)) 0)))
    "s2" ltac:(discriminate)).
Defined.

(** * Further properties of the sources *)

(** ** The loader and the tools *)

(** X1: when the data file is missing, [load_data] leaves three empty
    collections and nothing fails afterwards: every account number is
    reported as not found, every PIN as invalid, every balance request is
    answered with the error for invalid credentials, and the status of
    every account is unknown. *)
Theorem missing_data_file_degrades (py_repr : pyval -> string)
    (account_number pin : string) :
  exists data,
    load_data FileNotFound = Ok data /\
    mock_accounts data = ∅ /\
    validate_account_number data (PStr account_number) =
      Ok (PDict [ ("valid", PBool false); ("message", PStr "Account not found");
                  ("account_status", PNone) ]) /\
    validate_pin data (PStr account_number) (PStr pin) =
      Ok (PDict [ ("valid", PBool false); ("message", PStr "Invalid PIN") ]) /\
    get_account_balance data py_repr (PStr account_number) (PStr pin) =
      Ok (error_result "Invalid credentials") /\
    get_formatted_balance data py_repr (PStr account_number) = Ok "Account not found" /\
    get_account_status data (PStr account_number) = Ok (PStr "unknown").
Proof.
  exists empty_data. split; [reflexivity|]. split; [reflexivity|].
  unfold validate_account_number, validate_pin, get_account_balance,
    get_formatted_balance, get_account_status, validate_account_and_pin,
    get_account, coll_get, empty_data; simpl.
  rewrite lookup_empty. simpl. repeat split; reflexivity.
Qed.

(** X2: [validate_account_number] raises [TypeError] for a list or a dict
    and fails for no other value.  It answers "Account found" exactly for
    a string under which a non-empty record is stored: a number, [None],
    an unknown string and a stored empty object are all reported as not
    found, with no account status. *)
Theorem validate_account_number_answers (data : MockData) (key : pyval) :
  match key with
  | PList _ | PDict _ => validate_account_number data key = Err TypeError
  | _ =>
      exists (valid : bool) (status : pyval),
        validate_account_number data key =
          Ok (PDict [ ("valid", PBool valid);
                      ("message",
                        PStr (if valid then "Account found" else "Account not found"));
                      ("account_status", status) ]) /\
        (valid = true <->
           exists a record,
             key = PStr a /\ accounts data !! a = Some record /\ record <> []) /\
        (valid = false -> status = PNone)
  end.
Proof.
  assert (Hother : forall k, get_account data k = Ok [] ->
    (forall a, k <> PStr a) ->
    exists (valid : bool) (status : pyval),
      validate_account_number data k =
        Ok (PDict [ ("valid", PBool valid);
                    ("message",
                      PStr (if valid then "Account found" else "Account not found"));
                    ("account_status", status) ]) /\
      (valid = true <->
         exists a record,
           k = PStr a /\ accounts data !! a = Some record /\ record <> []) /\
      (valid = false -> status = PNone)).
  { intros k Hk Hne. exists false, PNone. unfold validate_account_number.
    rewrite Hk. simpl. split; [reflexivity|]. split; [|reflexivity].
    split; [discriminate|]. intros (a & record & -> & _). by destruct (Hne a). }
  destruct key as [| b | z | f | a | l | d]; try reflexivity;
    try (apply Hother; [reflexivity | discriminate]).
  unfold validate_account_number, get_account, coll_get; simpl.
  destruct (accounts data !! a) as [[|kv record]|] eqn:Hrec; simpl.
  - exists false, PNone. split; [reflexivity|]. split; [|reflexivity].
    split; [discriminate|]. intros (a' & record & [= <-] & Hr & Hne). congruence.
  - eexists true, _. split; [reflexivity|]. split; [|discriminate].
    split; [|reflexivity]. intros _. exists a, (kv :: record). auto.
  - exists false, PNone. split; [reflexivity|]. split; [|reflexivity].
    split; [discriminate|]. intros (a' & record & [= <-] & Hr & Hne). congruence.
Qed.

(** With matching credentials and a non-empty record, [get_account_balance]
    either raises or answers with status success. *)
Lemma get_account_balance_matched (data : MockData) py_repr (key pin : pyval)
    (account : pydict) :
  get_account data key = Ok account ->
  py_eq (dget_none account "pin") pin = true ->
  dict_truthy account = true ->
  (exists e, get_account_balance data py_repr key pin = Err e) \/
  (exists balance currency account_type text holder status last features,
      dget account "balance" = Some balance /\
      dget account "currency" = Some currency /\
      dget account "account_type" = Some account_type /\
      get_formatted_balance data py_repr key = Ok text /\
      dget account "account_holder" = Some holder /\
      dget account "account_status" = Some status /\
      dget account "last_transaction" = Some last /\
      get_account_balance data py_repr key pin =
        Ok (PDict
              [ ("status", PStr "success");
                ("data", PDict
                   [ ("balance", balance);
                     ("currency", currency);
                     ("account_type", account_type);
                     ("formatted_balance", PStr text);
                     ("account_holder", holder);
                     ("account_status", status);
                     ("last_transaction", last);
                     ("account_features", PDict features) ]) ])).
Proof.
  intros Hacc Heq Htruthy. unfold get_account_balance, validate_account_and_pin.
  rewrite Hacc. simpl. rewrite Heq. simpl. rewrite Htruthy. simpl.
  unfold dsubscript.
  destruct (dget account "account_type") as [ty|]; simpl; [|left; eauto].
  destruct (get_account_type_details data ty) as [details|e]; simpl; [|left; eauto].
  destruct (dget account "balance") as [bal|]; simpl; [|left; eauto].
  destruct (dget account "currency") as [cur|]; simpl; [|left; eauto].
  destruct (get_formatted_balance data py_repr key) as [text|e]; simpl; [|left; eauto].
  destruct (dget account "account_holder") as [holder|]; simpl; [|left; eauto].
  destruct (dget account "account_status") as [status|]; simpl; [|left; eauto].
  destruct (dget account "last_transaction") as [last|]; simpl; [|left; eauto].
  right. eexists _, _, _, _, _, _, _, _. repeat split.
Qed.

(** X3: the branch "Account not found" of [get_account_balance] is taken
    exactly when no record (or an empty one) is stored under the key and
    the PIN is [None], the value that equals the absent stored PIN; so for
    a PIN that is a string the function never answers "Account not found":
    a missing account is reported as invalid credentials. *)
Theorem account_not_found_only_for_null_pin (data : MockData) py_repr
    (key pin : pyval) :
  (get_account_balance data py_repr key pin = Ok (error_result "Account not found")
   <-> get_account data key = Ok [] /\ pin = PNone) /\
  (forall p : string,
      get_account_balance data py_repr key (PStr p)
        <> Ok (error_result "Account not found")).
Proof.
  assert (Hiff : forall pin',
     get_account_balance data py_repr key pin' = Ok (error_result "Account not found")
     <-> get_account data key = Ok [] /\ pin' = PNone).
  { intros pin'. split.
    - intros Hres.
      destruct (get_account data key) as [account|e] eqn:Hacc.
      2:{ unfold get_account_balance, validate_account_and_pin in Hres.
          rewrite Hacc in Hres. discriminate. }
      destruct (py_eq (dget_none account "pin") pin') eqn:Heq.
      2:{ unfold get_account_balance, validate_account_and_pin in Hres.
          rewrite Hacc in Hres. simpl in Hres. rewrite Heq in Hres. discriminate. }
      destruct account as [|kv account].
      + split; [reflexivity|]. by apply py_eq_none_l.
      + destruct (get_account_balance_matched data py_repr key pin' _ Hacc Heq eq_refl)
          as [[e He] | (b & c & t & x & h & st & l & f & _ & _ & _ & _ & _ & _ & _ & Hok)];
          rewrite Hres in *; discriminate.
    - intros [Hacc ->]. unfold get_account_balance, validate_account_and_pin.
      rewrite Hacc. reflexivity. }
  split; [apply Hiff|].
  intros p Hres. apply Hiff in Hres. destruct Hres as [_ Hp]. discriminate.
Qed.

(** X4: for an account number and a PIN that are strings the three tools
    agree.  [validate_pin] answers valid exactly when the credentials
    match; then [validate_account_number] answers valid too; and
    [get_account_balance] answers with the error for invalid credentials
    exactly when [validate_pin] does not answer valid. *)
Theorem tools_agree_on_credentials (data : MockData) py_repr
    (account_number pin : string) :
  (validate_pin data (PStr account_number) (PStr pin) =
     Ok (PDict [ ("valid", PBool true); ("message", PStr "PIN validated") ])
   <-> credentials_match data account_number pin) /\
  (validate_pin data (PStr account_number) (PStr pin) =
     Ok (PDict [ ("valid", PBool false); ("message", PStr "Invalid PIN") ])
   <-> ~ credentials_match data account_number pin) /\
  (credentials_match data account_number pin ->
   exists status,
     validate_account_number data (PStr account_number) =
       Ok (PDict [ ("valid", PBool true); ("message", PStr "Account found");
                   ("account_status", status) ])) /\
  (get_account_balance data py_repr (PStr account_number) (PStr pin) =
     Ok (error_result "Invalid credentials")
   <-> ~ credentials_match data account_number pin).
Proof.
  pose proof (credentials_match_py_eq data account_number pin) as Hiff.
  unfold validate_pin. rewrite validate_account_and_pin_str. simpl.
  destruct (py_eq (dget_none (default [] (accounts data !! account_number)) "pin")
              (PStr pin)) eqn:Heq.
  - assert (Hm : credentials_match data account_number pin) by (by apply Hiff).
    split; [split; auto|]. split; [split; [discriminate | tauto]|]. split.
    + intros (record & Hrec & Hpin).
      unfold validate_account_number, get_account; simpl. rewrite Hrec. simpl.
      rewrite (dget_some_truthy _ _ _ Hpin). eauto.
    + split; [|tauto]. intros Hres. exfalso.
      destruct Hm as (record & Hrec & Hpin).
      assert (Hacc : get_account data (PStr account_number) = Ok record)
        by (unfold get_account; simpl; by rewrite Hrec).
      rewrite Hrec in Heq. simpl in Heq.
      destruct (get_account_balance_matched data py_repr _ _ _ Hacc Heq
                  (dget_some_truthy _ _ _ Hpin))
        as [[e He] | (b & c & t & x & h & st & l & f & _ & _ & _ & _ & _ & _ & _ & Hok)];
        rewrite Hres in *; discriminate.
  - assert (Hm : ~ credentials_match data account_number pin).
    { intros Hm. apply Hiff in Hm. discriminate. }
    split; [split; [discriminate | tauto]|]. split; [split; auto|].
    split; [tauto|]. split; [auto|]. intros _.
    apply invalid_credentials_short_circuit.
    rewrite validate_account_and_pin_str. by rewrite Heq.
Qed.

(** The fixture has matching credentials for 12345 / 0000 and none for
    12345 / 9999. *)
Lemma tools_agree_on_credentials_witness :
  credentials_match fixture_data "12345" "0000" /\
  (exists status,
     validate_account_number fixture_data (PStr "12345") =
       Ok (PDict [ ("valid", PBool true); ("message", PStr "Account found");
                   ("account_status", status) ])) /\
  validate_pin fixture_data (PStr "12345") (PStr "0000") =
    Ok (PDict [ ("valid", PBool true); ("message", PStr "PIN validated") ]).
Proof.
  assert (Hm : credentials_match fixture_data "12345" "0000").
  { exists (fixture_account "0000" (b64 500 0)). split; vm_compute; reflexivity. }
  split; [exact Hm|]. split.
  - exact (proj1 (proj2 (proj2
      (tools_agree_on_credentials fixture_data fixture_repr "12345" "0000"))) Hm).
  - exact (proj2 (proj1
      (tools_agree_on_credentials fixture_data fixture_repr "12345" "0000")) Hm).
Defined.

(** X5: when [get_account_balance] answers with status success, a record
    is stored under the account number, the PIN given equals its stored
    PIN, and the data of the answer are the fields of that record: the six
    fields copied are present in the record and unchanged, the formatted
    balance is what [get_formatted_balance] returns, and the stored PIN is
    not among the data. *)
Theorem success_echoes_record (data : MockData) py_repr (account_number : string)
    (pin : pyval) (d : pydict) :
  get_account_balance data py_repr (PStr account_number) pin = Ok (PDict d) ->
  dget d "status" = Some (PStr "success") ->
  exists record view text,
    accounts data !! account_number = Some record /\
    py_eq (dget_none record "pin") pin = true /\
    dget d "data" = Some (PDict view) /\
    get_formatted_balance data py_repr (PStr account_number) = Ok text /\
    dget view "formatted_balance" = Some (PStr text) /\
    Forall (fun k => is_Some (dget record k) /\ dget view k = dget record k)
      [ "balance"; "currency"; "account_type"; "account_holder";
        "account_status"; "last_transaction" ] /\
    map fst view =
      [ "balance"; "currency"; "account_type"; "formatted_balance";
        "account_holder"; "account_status"; "last_transaction";
        "account_features" ] /\
    dget view "pin" = None.
Proof.
  intros Hres Hstatus.
  assert (Hacc : get_account data (PStr account_number)
                 = Ok (default [] (accounts data !! account_number))) by reflexivity.
  set (account := default [] (accounts data !! account_number)) in *.
  destruct (py_eq (dget_none account "pin") pin) eqn:Heq.
  2:{ unfold get_account_balance, validate_account_and_pin in Hres.
      rewrite Hacc in Hres. simpl in Hres. rewrite Heq in Hres.
      injection Hres as <-. discriminate. }
  destruct (dict_truthy account) eqn:Htruthy.
  2:{ unfold get_account_balance, validate_account_and_pin in Hres.
      rewrite Hacc in Hres. simpl in Hres. rewrite Heq in Hres. simpl in Hres.
      rewrite Htruthy in Hres. injection Hres as <-. discriminate. }
  destruct (get_account_balance_matched data py_repr _ _ _ Hacc Heq Htruthy)
    as [[e He] | (b & c & t & x & h & st & l & f & Hb & Hc & Ht & Hx & Hh & Hst & Hl & Hok)];
    rewrite Hres in *; [discriminate|].
  injection Hok as ->.
  assert (Hrec : accounts data !! account_number = Some account).
  { unfold account in *. destruct (accounts data !! account_number); [reflexivity|].
    discriminate. }
  eexists account, _, x. split; [exact Hrec|]. split; [exact Heq|].
  split; [reflexivity|]. split; [exact Hx|]. split; [reflexivity|].
  split; [|split; reflexivity].
  repeat constructor; simpl; eauto; congruence.
Qed.

(** On the fixture the call for 12345 with PIN 0000 answers success. *)
Lemma success_echoes_record_witness :
  exists d,
    get_account_balance fixture_data fixture_repr (PStr "12345") (PStr "0000")
      = Ok (PDict d) /\
    dget d "status" = Some (PStr "success") /\
    exists record view text,
      accounts fixture_data !! "12345" = Some record /\
      py_eq (dget_none record "pin") (PStr "0000") = true /\
      dget d "data" = Some (PDict view) /\
      get_formatted_balance fixture_data fixture_repr (PStr "12345") = Ok text /\
      dget view "formatted_balance" = Some (PStr text) /\
      Forall (fun k => is_Some (dget record k) /\ dget view k = dget record k)
        [ "balance"; "currency"; "account_type"; "account_holder";
          "account_status"; "last_transaction" ] /\
      map fst view =
        [ "balance"; "currency"; "account_type"; "formatted_balance";
          "account_holder"; "account_status"; "last_transaction";
          "account_features" ] /\
      dget view "pin" = None.
Proof.
  eexists. split; [vm_compute; reflexivity|]. split; [reflexivity|].
  eapply (success_echoes_record fixture_data fixture_repr "12345" (PStr "0000"));
    [vm_compute; reflexivity | reflexivity].
Defined.

(** X6: what [get_formatted_balance] does with a record that lacks fields
    or holds values of another type.  A record without a balance is
    formatted as zero, and a currency that is missing from the record and
    from the table gives the dollar sign; a currency code that is not in
    the table gives the dollar sign too.  A balance that is a string
    raises [ValueError]; a balance that is [null] raises [TypeError]. *)
Theorem formatted_balance_defaults (data : MockData) py_repr
    (account_number : string) (record : pydict) :
  accounts data !! account_number = Some record ->
  record <> [] ->
  (dget record "currency" = None -> currencies data !! "USD" = None ->
   dget record "balance" = None ->
   get_formatted_balance data py_repr (PStr account_number) = Ok "$0.00") /\
  (forall code x,
      dget record "currency" = Some (PStr code) ->
      currencies data !! code = None ->
      dget record "balance" = Some (PFloat x) ->
      get_formatted_balance data py_repr (PStr account_number)
        = Ok ("$" +:+ format_float_2f x)) /\
  (forall code text,
      dget record "currency" = Some (PStr code) ->
      dget record "balance" = Some (PStr text) ->
      get_formatted_balance data py_repr (PStr account_number) = Err ValueError) /\
  (dget record "currency" = None ->
   dget record "balance" = Some PNone ->
   get_formatted_balance data py_repr (PStr account_number) = Err TypeError).
Proof.
  intros Hrec Hne.
  assert (Htruthy : dict_truthy record = true)
    by (destruct record; [congruence | reflexivity]).
  unfold get_formatted_balance, get_account, get_currency_details, dget_default; simpl.
  rewrite Hrec; simpl. rewrite Htruthy; simpl.
  (repeat split); intros.
  - rewrite H, H1; simpl. rewrite H0; simpl. reflexivity.
  - rewrite H, H1; simpl. rewrite H0; simpl. reflexivity.
  - rewrite H, H0; simpl. reflexivity.
  - rewrite H, H0; simpl. reflexivity.
Qed.

(** The four cases on the sparse data set. *)
Lemma formatted_balance_defaults_witness :
  get_formatted_balance sparse_data fixture_repr (PStr "1") = Ok "$0.00" /\
  get_formatted_balance sparse_data fixture_repr (PStr "3") = Ok "$5.00" /\
  get_formatted_balance sparse_data fixture_repr (PStr "2") = Err ValueError /\
  get_formatted_balance sparse_data fixture_repr (PStr "4") = Err TypeError.
Proof.
  split; [|split; [|split]].
  - apply (proj1 (formatted_balance_defaults sparse_data fixture_repr "1"
                    [ ("account_holder", PStr "A") ]
                    ltac:(vm_compute; reflexivity) ltac:(discriminate)));
      vm_compute; reflexivity.
  - apply (proj1 (proj2 (formatted_balance_defaults sparse_data fixture_repr "3"
                    [ ("balance", PFloat (b64 5 0)); ("currency", PStr "EUR") ]
                    ltac:(vm_compute; reflexivity) ltac:(discriminate)))
             "EUR" (b64 5 0));
      vm_compute; reflexivity.
  - apply (proj1 (proj2 (proj2 (formatted_balance_defaults sparse_data fixture_repr "2"
                    [ ("balance", PStr "12"); ("currency", PStr "EUR") ]
                    ltac:(vm_compute; reflexivity) ltac:(discriminate))))
             "EUR" "12");
      vm_compute; reflexivity.
  - apply (proj2 (proj2 (proj2 (formatted_balance_defaults sparse_data fixture_repr "4"
                    [ ("balance", PNone) ]
                    ltac:(vm_compute; reflexivity) ltac:(discriminate)))));
      vm_compute; reflexivity.
Defined.

(** ** The dispatch of a request *)

(** One step in the analysis of a chain of binds that ends in an
    exception: split on the first computation of the chain. *)
Ltac err_step :=
  match goal with
  | H : Ok _ = Err _ |- _ => discriminate H
  | H : Err _ = Err _ |- _ => injection H as <-
  | H : rbind ?c _ = Err _ |- _ =>
      let E := fresh "E" in destruct c eqn:E; simpl in H
  | H : (if ?b then _ else _) = Err _ |- _ => destruct b; simpl in H
  | H : match ?x with Some _ => _ | None => _ end = Err _ |- _ =>
      destruct x; simpl in H
  end.

Lemma coll_get_raises coll key e : coll_get coll key = Err e -> e = TypeError.
Proof. destruct key; simpl; intros H; try discriminate; by injection H. Qed.

Lemma py_subscript_raises v k e :
  py_subscript v k = Err e -> raised_by_tools e = true.
Proof.
  destruct v; simpl; try (intros [= <-]; reflexivity).
  unfold dsubscript. destruct (dget d k); [discriminate|]. intros [= <-]. reflexivity.
Qed.

Lemma dsubscript_raises d k e : dsubscript d k = Err e -> raised_by_tools e = true.
Proof.
  unfold dsubscript. destruct (dget d k); [discriminate|]. intros [= <-]. reflexivity.
Qed.

Lemma format_2f_raises v e : format_2f v = Err e -> raised_by_tools e = true.
Proof.
  assert (Hint : forall z r, float_of_int z = Err r -> r = OverflowError).
  { intros z r. unfold float_of_int.
    destruct (binary_normalize 53 1024 z 0 false); try discriminate.
    by intros [= <-]. }
  destruct v; simpl; try (intros [= <-]; reflexivity); try discriminate.
  - destruct (float_of_int (int_of_bool b)) eqn:E; simpl; [discriminate|].
    intros [= <-]. by rewrite (Hint _ _ E).
  - destruct (float_of_int z) eqn:E; simpl; [discriminate|].
    intros [= <-]. by rewrite (Hint _ _ E).
Qed.

Lemma get_formatted_balance_raises data py_repr key e :
  get_formatted_balance data py_repr key = Err e -> raised_by_tools e = true.
Proof.
  unfold get_formatted_balance, get_account, get_currency_details. intros H.
  repeat err_step;
    repeat match goal with
           | E : coll_get _ _ = Err _ |- _ => apply coll_get_raises in E; subst
           | E : format_2f _ = Err _ |- _ => apply format_2f_raises in E
           end; auto.
Qed.

Lemma get_account_balance_raises data py_repr key pin e :
  get_account_balance data py_repr key pin = Err e -> raised_by_tools e = true.
Proof.
  unfold get_account_balance, validate_account_and_pin, get_account,
    get_account_type_details.
  intros H.
  repeat err_step;
    repeat match goal with
           | E : coll_get _ _ = Err _ |- _ => apply coll_get_raises in E; subst
           | E : dsubscript _ _ = Err _ |- _ => apply dsubscript_raises in E
           | E : get_formatted_balance _ _ _ = Err _ |- _ =>
               apply get_formatted_balance_raises in E
           end; auto.
Qed.

Lemma known_tool_cases (name : string) :
  known_tool name = true ->
  name = "validate_account_number" \/ name = "validate_pin"
  \/ name = "get_account_balance".
Proof.
  unfold known_tool. intros H.
  apply Bool.orb_true_iff in H. destruct H as [H | H].
  - apply Bool.orb_true_iff in H. destruct H as [H | H];
      apply String.eqb_eq in H; auto.
  - apply String.eqb_eq in H. auto.
Qed.

Lemma dispatch_unknown_tool data py_repr (name : string) args fr :
  known_tool name = false -> dispatch data py_repr name args fr = Ok fr.
Proof.
  unfold known_tool, dispatch. intros H.
  apply Bool.orb_false_iff in H. destruct H as [H H3].
  apply Bool.orb_false_iff in H. destruct H as [H1 H2].
  by rewrite H1, H2, H3.
Qed.

(** A known tool binds [function_response] or raises one of the four
    exceptions of the tools. *)
Lemma dispatch_known_outcome data py_repr (name : string) args fr :
  known_tool name = true ->
  (exists r, dispatch data py_repr name args fr = Ok (Some r)) \/
  (exists e, dispatch data py_repr name args fr = Err e /\ raised_by_tools e = true).
Proof.
  intros Hknown.
  destruct (known_tool_cases name Hknown) as [-> | [-> | ->]];
    unfold dispatch; simpl.
  - destruct (py_subscript args "account_number") as [a|e] eqn:Ea; simpl;
      [|right; eauto using py_subscript_raises].
    destruct (validate_account_number data a) as [r|e] eqn:Er; simpl; [left; eauto|].
    right. exists e. split; [reflexivity|].
    unfold validate_account_number, get_account in Er.
    repeat err_step.
    match goal with E : coll_get _ _ = Err _ |- _ => apply coll_get_raises in E; by subst end.
  - destruct (py_subscript args "account_number") as [a|e] eqn:Ea; simpl;
      [|right; eauto using py_subscript_raises].
    destruct (py_subscript args "pin") as [p|e] eqn:Ep; simpl;
      [|right; eauto using py_subscript_raises].
    destruct (validate_pin data a p) as [r|e] eqn:Er; simpl; [left; eauto|].
    right. exists e. split; [reflexivity|].
    unfold validate_pin, validate_account_and_pin, get_account in Er.
    repeat err_step.
    match goal with E : coll_get _ _ = Err _ |- _ => apply coll_get_raises in E; by subst end.
  - destruct (py_subscript args "account_number") as [a|e] eqn:Ea; simpl;
      [|right; eauto using py_subscript_raises].
    destruct (py_subscript args "pin") as [p|e] eqn:Ep; simpl;
      [|right; eauto using py_subscript_raises].
    destruct (get_account_balance data py_repr a p) as [r|e] eqn:Er; simpl;
      [left; eauto|].
    right. eauto using get_account_balance_raises.
Qed.

(** X7: how the dispatch of one of the three tools can fail.  It never
    leaves [function_response] unbound and does not depend on the value
    the variable held before; the only exceptions are [KeyError],
    [TypeError], [ValueError] and [OverflowError]; arguments that are not
    a JSON object raise [TypeError], and an object without the key
    account_number raises [KeyError] for that key. *)
Theorem dispatch_known_tool_failures (data : MockData) py_repr (name : string)
    (function_args : pyval) (fr : option pyval) :
  known_tool name = true ->
  dispatch data py_repr name function_args fr <> Ok None /\
  (forall fr', dispatch data py_repr name function_args fr'
               = dispatch data py_repr name function_args fr) /\
  (forall e, dispatch data py_repr name function_args fr = Err e ->
             raised_by_tools e = true) /\
  ((forall d, function_args <> PDict d) ->
   dispatch data py_repr name function_args fr = Err TypeError) /\
  (forall d, function_args = PDict d -> dget d "account_number" = None ->
   dispatch data py_repr name function_args fr = Err (KeyError "account_number")).
Proof.
  intros Hknown.
  destruct (known_tool_cases name Hknown) as [-> | [-> | ->]];
    unfold dispatch; simpl.
  - split; [|split; [reflexivity|split; [|split]]].
    + destruct (py_subscript function_args "account_number"); simpl; [|discriminate].
      destruct (validate_account_number data a); discriminate.
    + intros e H. unfold validate_account_number, get_account in H.
      repeat err_step;
        repeat match goal with
               | E : coll_get _ _ = Err _ |- _ => apply coll_get_raises in E; subst
               | E : py_subscript _ _ = Err _ |- _ => apply py_subscript_raises in E
               end; auto.
    + intros Hnd. destruct function_args; try reflexivity. by destruct (Hnd d).
    + intros d -> Hd. simpl. unfold dsubscript. by rewrite Hd.
  - split; [|split; [reflexivity|split; [|split]]].
    + destruct (py_subscript function_args "account_number"); simpl; [|discriminate].
      destruct (py_subscript function_args "pin"); simpl; [|discriminate].
      destruct (validate_pin data a a0); discriminate.
    + intros e H. unfold validate_pin, validate_account_and_pin, get_account in H.
      repeat err_step;
        repeat match goal with
               | E : coll_get _ _ = Err _ |- _ => apply coll_get_raises in E; subst
               | E : py_subscript _ _ = Err _ |- _ => apply py_subscript_raises in E
               end; auto.
    + intros Hnd. destruct function_args; try reflexivity. by destruct (Hnd d).
    + intros d -> Hd. simpl. unfold dsubscript. by rewrite Hd.
  - split; [|split; [reflexivity|split; [|split]]].
    + destruct (py_subscript function_args "account_number"); simpl; [|discriminate].
      destruct (py_subscript function_args "pin"); simpl; [|discriminate].
      destruct (get_account_balance data py_repr a a0); discriminate.
    + intros e H.
      repeat err_step;
        repeat match goal with
               | E : get_account_balance _ _ _ _ = Err _ |- _ =>
                   apply get_account_balance_raises in E
               | E : py_subscript _ _ = Err _ |- _ => apply py_subscript_raises in E
               end; auto.
    + intros Hnd. destruct function_args; try reflexivity. by destruct (Hnd d).
    + intros d -> Hd. simpl. unfold dsubscript. by rewrite Hd.
Qed.

(** A request for the balance whose arguments are a JSON array. *)
Lemma dispatch_known_tool_failures_witness :
  known_tool "get_account_balance" = true /\
  dispatch fixture_data fixture_repr "get_account_balance" (PList []) None
    = Err TypeError.
Proof.
  split; [reflexivity|].
  apply (proj1 (proj2 (proj2 (proj2
    (dispatch_known_tool_failures fixture_data fixture_repr "get_account_balance"
       (PList []) None eq_refl))))).
  intros d. discriminate.
Defined.

(** X8: a request for one of the two validators whose arguments satisfy
    the declared schema (the required keys hold strings) never fails,
    whatever else the arguments hold and whatever the data are:
    [validate_account_number] answers with the three fields of its result,
    and [validate_pin] answers valid exactly when the credentials match. *)
Theorem validators_accept_schema_arguments (data : MockData) py_repr
    (d : pydict) (account_number : string) (fr : option pyval) :
  dget d "account_number" = Some (PStr account_number) ->
  (exists (valid : bool) status,
      dispatch data py_repr "validate_account_number" (PDict d) fr =
        Ok (Some (PDict
          [ ("valid", PBool valid);
            ("message", PStr (if valid then "Account found" else "Account not found"));
            ("account_status", status) ]))) /\
  (forall pin : string,
      dget d "pin" = Some (PStr pin) ->
      exists valid : bool,
        dispatch data py_repr "validate_pin" (PDict d) fr =
          Ok (Some (PDict
            [ ("valid", PBool valid);
              ("message", PStr (if valid then "PIN validated" else "Invalid PIN")) ])) /\
        (valid = true <-> credentials_match data account_number pin)).
Proof.
  intros Hacc. split.
  - unfold dispatch; simpl. unfold dsubscript. rewrite Hacc; simpl.
    unfold validate_account_number, get_account; simpl. eauto.
  - intros pin Hpin. unfold dispatch; simpl. unfold dsubscript.
    rewrite Hacc, Hpin; simpl.
    unfold validate_pin, validate_account_and_pin, get_account; simpl.
    eexists. split; [reflexivity|]. apply credentials_match_py_eq.
Qed.

(** Arguments with an extra key, on the fixture. *)
Lemma validators_accept_schema_arguments_witness :
  dget [ ("note", PInt 1); ("account_number", PStr "12345"); ("pin", PStr "0000") ]
    "account_number" = Some (PStr "12345") /\
  exists (valid : bool) status,
    dispatch fixture_data fixture_repr "validate_account_number"
      (PDict [ ("note", PInt 1); ("account_number", PStr "12345");
               ("pin", PStr "0000") ]) None =
      Ok (Some (PDict
        [ ("valid", PBool valid);
          ("message", PStr (if valid then "Account found" else "Account not found"));
          ("account_status", status) ])).
Proof.
  split; [reflexivity|].
  exact (proj1 (validators_accept_schema_arguments fixture_data fixture_repr
                  [ ("note", PInt 1); ("account_number", PStr "12345");
                    ("pin", PStr "0000") ] "12345" None eq_refl)).
Defined.

(** ** Turns that fail, and sequences of requests *)

Section EngineSequences.
Variable data : MockData.
Variable py_repr : pyval -> string.
Variable json_loads : string -> option pyval.
Variable json_dumps : pyval -> string.
Variable World : Type.
Variable chat_completions_create : World -> request -> result completion * World.

Abbreviation logged_process_message :=
  (process_message data py_repr json_loads json_dumps
     (logged_create chat_completions_create)).
Abbreviation logged_turn_result :=
  (turn_result data py_repr json_loads json_dumps
     (logged_create chat_completions_create)).
Abbreviation engine := (engine World).
Abbreviation tool_trace := (tool_trace data py_repr json_loads json_dumps).
Abbreviation tool_response := (tool_response data py_repr json_loads).
Abbreviation tool_responses := (tool_responses data py_repr json_loads).
Abbreviation pairs := (pairs json_dumps).
Abbreviation process_message :=
  (process_message data py_repr json_loads json_dumps chat_completions_create).
Abbreviation chat_endpoint :=
  (chat_endpoint data py_repr json_loads json_dumps chat_completions_create).
Abbreviation turn_result :=
  (turn_result data py_repr json_loads json_dumps chat_completions_create).
Abbreviation serve :=
  (serve data py_repr json_loads json_dumps chat_completions_create).
Abbreviation serve_all :=
  (serve_all data py_repr json_loads json_dumps chat_completions_create).


Lemma tool_trace_step (tc : tool_call) rest fr :
  tool_trace (tc :: rest) fr =
    match tool_response tc fr with
    | Ok r =>
        (call_message tc :: tool_message tc (json_dumps r)
           :: fst (tool_trace rest (Some r)),
         snd (tool_trace rest (Some r)))
    | Err e =>
        (match e with
         | UnboundLocalError _ => [call_message tc]
         | _ => []
         end, Err e)
    end.
Proof.
  simpl. unfold tool_response.
  destruct (json_loads (function_arguments tc)) as [args|]; [|reflexivity].
  destruct (dispatch data py_repr (function_name tc) args fr) as [[r|]|e] eqn:Hd;
    simpl.
  - by destruct (tool_trace rest (Some r)).
  - reflexivity.
  - destruct (known_tool (function_name tc)) eqn:Hknown.
    + destruct (dispatch_known_outcome data py_repr _ args fr Hknown)
        as [[r Hr] | (e' & He & Hraised)]; [congruence|].
      rewrite Hd in He. injection He as <-. by destruct e.
    + rewrite (dispatch_unknown_tool data py_repr _ args fr Hknown) in Hd.
      discriminate.
Qed.


(** The history a turn leaves, whatever its outcome: the pairs of the
    requests the loop got through, and then the final assistant message
    if the turn completed, or at most the assistant message of the
    request at which it failed. *)
Lemma turn_result_shape h0 w text :
  exists pre rs tail,
    snd (fst (turn_result h0 w text))
      = h0 ++ user_message text :: pairs pre rs ++ tail /\
    length rs = length pre /\
    match fst (fst (turn_result h0 w text)) with
    | Ok ret => tail = [reply_message ret]
    | Err _ => tail = [] \/ exists tc, tail = [call_message tc]
    end.
Proof.
  unfold turn_result.
  destruct (chat_completions_create w _) as [r1 w1].
  destruct (rbind r1 first_choice) as [am|e]; simpl.
  2:{ exists [], [], []. split; [reflexivity|]. split; [reflexivity|]. by left. }
  destruct (truthy_calls (reply_tool_calls am)).
  - destruct (tool_trace_cases data py_repr json_loads json_dumps
                (default [] (reply_tool_calls am)) None) as
      [(rs & fr' & Hrs & Htr)
      | (pre & tc & post & rs & e & dg & Hsplit & Hrs & Hbad & Hdg & Htr)];
      rewrite Htr.
    + pose proof (tool_responses_length _ _ _ _ _ _ Hrs) as Hlen.
      destruct (chat_completions_create w1 _) as [r2 w2].
      destruct (rbind r2 first_choice) as [m|e]; simpl.
      * eexists _, rs, _. split; [by rewrite <- !app_assoc|]. split; [exact Hlen|].
        reflexivity.
      * eexists _, rs, []. rewrite app_nil_r.
        split; [by rewrite <- !app_assoc|]. split; [exact Hlen|]. by left.
    + pose proof (tool_responses_length _ _ _ _ _ _ Hrs) as Hlen. simpl.
      exists pre, rs, dg. split; [by rewrite <- !app_assoc|]. split; [exact Hlen|].
      destruct Hdg as [-> | ->]; [by left | right; eauto].
  - exists [], [], [reply_message (reply_content am)].
    split; [by rewrite <- app_assoc|]. split; reflexivity.
Qed.

Lemma process_message_shape sid text (s : engine) :
  exists pre rs tail,
    conversations (snd (process_message sid text s)) !! sid
      = Some (base_history s sid ++ user_message text :: pairs pre rs ++ tail) /\
    length rs = length pre /\
    match fst (process_message sid text s) with
    | Ok ret => tail = [reply_message ret]
    | Err _ => tail = [] \/ exists tc, tail = [call_message tc]
    end.
Proof.
  rewrite process_message_turn. unfold turn.
  destruct (turn_result_shape (base_history s sid) (world s) text)
    as (pre & rs & tail & Hh & Hlen & Htail).
  destruct (turn_result (base_history s sid) (world s) text) as [[out h] w].
  simpl in *. exists pre, rs, tail. rewrite lookup_insert_eq, Hh. auto.
Qed.

Lemma pairs_calls_or_tools tcs : forall rs,
  Forall (fun m => has_tool_calls m = true \/ role m = Tool) (pairs tcs rs).
Proof.
  induction tcs as [|tc tcs IH]; intros [|r rs]; simpl; try constructor.
  - by left.
  - constructor; [by right | apply IH].
Qed.

Lemma executed_pairs_intro tcs rs :
  tool_responses tcs None = Ok rs ->
  executed_pairs data py_repr json_loads json_dumps tcs rs (pairs tcs rs).
Proof.
  intros Hrs.
  pose proof (tool_responses_length data py_repr json_loads _ _ _ Hrs) as Hlen.
  split; [exact Hlen|]. split; [apply pairs_length, Hlen|].
  intros i tc Htc.
  destruct (rs !! i) as [r|] eqn:Hr.
  2:{ apply lookup_ge_None in Hr. apply lookup_lt_Some in Htc. lia. }
  exists r. split; [reflexivity|].
  split; [exact (tool_responses_results data py_repr json_loads _ _ _ Hrs i tc r Htc Hr)|].
  exact (pairs_lookup json_dumps tcs rs i tc r Htc Hr).
Qed.

(** The loop either gets through every request, or stops at the first one
    whose result fails; the assistant message of that request is in the
    history exactly when the failure is the unbound local. *)
Lemma tool_trace_outcome tcs : forall fr,
  (exists rs,
      tool_responses tcs fr = Ok rs /\
      tool_trace tcs fr = (pairs tcs rs, Ok (response_after fr rs))) \/
  (exists pre tc post rs e,
      tcs = pre ++ tc :: post /\
      tool_responses pre fr = Ok rs /\
      tool_response tc (response_after fr rs) = Err e /\
      tool_responses tcs fr = Err e /\
      tool_trace tcs fr =
        (pairs pre rs ++ match e with
                         | UnboundLocalError _ => [call_message tc]
                         | _ => []
                         end, Err e)).
Proof.
  induction tcs as [|tc rest IH]; intros fr.
  - left. exists []. split; reflexivity.
  - rewrite tool_trace_step.
    change (tool_responses (tc :: rest) fr)
      with (rbind (tool_response tc fr)
              (fun r => rbind (tool_responses rest (Some r))
                          (fun rs => Ok (r :: rs)))).
    destruct (tool_response tc fr) as [r|e] eqn:Hr.
    + destruct (IH (Some r)) as
        [(rs & Hrs & Htr) | (pre & tc' & post & rs & e & -> & Hrs & Hbad & Hall & Htr)].
      * left. exists (r :: rs). cbn [rbind]. rewrite Hrs, Htr. split; reflexivity.
      * right. exists (tc :: pre), tc', post, (r :: rs), e.
        split; [reflexivity|]. split.
        { change (tool_responses (tc :: pre) fr)
            with (rbind (tool_response tc fr)
                    (fun r => rbind (tool_responses pre (Some r))
                                (fun rs => Ok (r :: rs)))).
          rewrite Hr. simpl. rewrite Hrs. reflexivity. }
        split; [exact Hbad|]. split; [cbn [rbind]; rewrite Hall; reflexivity|].
        rewrite Htr. reflexivity.
    + right. exists [], tc, rest, [], e.
      split; [reflexivity|]. split; [reflexivity|]. split; [exact Hr|].
      split; reflexivity.
Qed.

(** X10: a turn that fails is not rolled back.  The endpoint answers with
    status 500 and the exception, the other sessions are untouched, and
    the session keeps the user message and whatever the turn appended up
    to the failure: nothing more when the first call of the completion
    service (or reading its first choice) failed; when the loop failed at a
    request of the first reply, the pair of every request before it, each
    tool message with the result of executing its request, and the
    assistant message of the failing request exactly when the failure is
    the unbound local; when the follow-up call failed, the pair of every
    request.  No final assistant message is appended, so the history ends
    with a user message, a tool message or an assistant message that lists
    a request. *)
Theorem failed_turn_keeps_messages sid text (s : engine) e s' :
  process_message sid text s = (Err e, s') ->
  let h1 :=
    base_history s sid
      ++ [ {| role := User; content := Some text;
              tool_calls := None; tool_call_id := None |} ] in
  chat_endpoint sid text s = (Http500 e, s') /\
  (exists pre rs tail,
    conversations s' !! sid
      = Some (base_history s sid ++ user_message text :: pairs pre rs ++ tail) /\
    length rs = length pre /\
    (tail = [] \/ exists tc, tail = [call_message tc]) /\
    Forall (fun m => has_tool_calls m = true \/ role m = Tool) (pairs pre rs ++ tail) /\
    (length (base_history s sid) < length (base_history s sid ++ user_message text
                                              :: pairs pre rs ++ tail))%nat) /\
  (forall other, other <> sid ->
     conversations s' !! other = conversations s !! other) /\
  exists r1 w1,
    chat_completions_create (world s)
        {| model := "gpt-4o"; messages := h1;
           tools := Some TOOLS; tool_choice := Some "auto" |}
      = (r1, w1) /\
    ((rbind r1 first_choice = Err e /\
      world s' = w1 /\
      conversations s' !! sid = Some h1) \/
     (exists am tcs,
         rbind r1 first_choice = Ok am /\
         reply_tool_calls am = Some tcs /\ tcs <> [] /\
         ((exists pre tc post rs,
              tcs = pre ++ tc :: post /\
              tool_responses pre None = Ok rs /\
              executed_pairs data py_repr json_loads json_dumps pre rs (pairs pre rs) /\
              tool_response tc (response_after None rs) = Err e /\
              world s' = w1 /\
              conversations s' !! sid =
                Some (h1 ++ pairs pre rs
                         ++ match e with
                            | UnboundLocalError _ =>
                                [ {| role := Assistant; content := None;
                                     tool_calls := Some [tc];
                                     tool_call_id := None |} ]
                            | _ => []
                            end))
          \/
          (exists rs r2,
              tool_responses tcs None = Ok rs /\
              executed_pairs data py_repr json_loads json_dumps tcs rs (pairs tcs rs) /\
              chat_completions_create w1
                  {| model := "gpt-4"; messages := h1 ++ pairs tcs rs;
                     tools := None; tool_choice := None |}
                = (r2, world s') /\
              rbind r2 first_choice = Err e /\
              conversations s' !! sid = Some (h1 ++ pairs tcs rs))))).
Proof.
  intros Hrun. cbv zeta.
  change {| role := User; content := Some text;
            tool_calls := None; tool_call_id := None |}
    with (user_message text).
  split; [unfold chat_endpoint; by rewrite Hrun|]. split.
  { destruct (process_message_shape sid text s) as (pre & rs & tail & Hh & Hlen & Htail).
    rewrite Hrun in Hh, Htail. simpl in Hh, Htail.
    exists pre, rs, tail. split; [exact Hh|]. split; [exact Hlen|].
    split; [exact Htail|]. split.
    + apply Forall_app. split; [apply pairs_calls_or_tools|].
      destruct Htail as [-> | [tc ->]]; repeat constructor.
    + rewrite length_app. simpl. lia. }
  destruct (process_message_inv data py_repr json_loads json_dumps World
              chat_completions_create _ _ _ _ _ Hrun)
    as (h' & Hturn & _ & Hh' & Hother).
  split; [exact Hother|].
  rewrite Hh'. clear Hh' Hother Hrun.
  unfold turn_result in Hturn.
  set (h1 := base_history s sid ++ [user_message text]) in *.
  change {| model := "gpt-4o"; messages := h1;
            tools := Some TOOLS; tool_choice := Some "auto" |}
    with (first_request h1).
  destruct (chat_completions_create (world s) (first_request h1)) as [r1 w1].
  exists r1, w1. split; [reflexivity|].
  destruct (rbind r1 first_choice) as [am|e1].
  2:{ injection Hturn as -> <- <-. left. auto. }
  right.
  destruct (reply_tool_calls am) as [[|tc0 rest]|] eqn:Htcs;
    cbn [truthy_calls] in Hturn; try discriminate Hturn.
  exists am, (tc0 :: rest).
  split; [reflexivity|]. split; [exact Htcs|]. split; [discriminate|].
  change (default [] (Some (tc0 :: rest))) with (tc0 :: rest) in Hturn.
  destruct (tool_trace_outcome (tc0 :: rest) None) as
    [(rs & Hrs & Htr) | (pre & tc & post & rs & e' & Hsplit & Hrs & Hbad & _ & Htr)];
    rewrite Htr in Hturn.
  - right.
    destruct (chat_completions_create w1 (second_request (h1 ++ pairs (tc0 :: rest) rs)))
      as [r2 w2] eqn:Hc2.
    destruct (rbind r2 first_choice) as [m|e2] eqn:Hm; [discriminate Hturn|].
    injection Hturn as -> <- <-.
    exists rs, r2. split; [exact Hrs|]. split; [by apply executed_pairs_intro|].
    split; [exact Hc2|]. split; [exact Hm | reflexivity].
  - left. injection Hturn as -> <- <-.
    exists pre, tc, post, rs. split; [exact Hsplit|]. split; [exact Hrs|].
    split; [by apply executed_pairs_intro|]. split; [exact Hbad|].
    split; [reflexivity|]. reflexivity.
Qed.
(** *** The requests sent to the completion service *)

Lemma logged_turn_result_eq h0 w log text :
  let h1 := h0 ++ [user_message text] in
  logged_turn_result h0 (w, log) text =
    (fst (fst (turn_result h0 w text)), snd (fst (turn_result h0 w text)),
     (snd (turn_result h0 w text),
      log ++ first_request h1 ::
        match rbind (fst (chat_completions_create w (first_request h1)))
                first_choice with
        | Ok am =>
            match reply_tool_calls am with
            | Some (tc :: tcs) =>
                match tool_responses (tc :: tcs) None with
                | Ok rs => [second_request (h1 ++ pairs (tc :: tcs) rs)]
                | Err _ => []
                end
            | _ => []
            end
        | Err _ => []
        end)).
Proof.
  cbv zeta. unfold turn_result, logged_create. cbn [fst snd].
  set (h1 := h0 ++ [user_message text]).
  destruct (chat_completions_create w (first_request h1)) as [r1 w1]. cbn [fst snd].
  destruct (rbind r1 first_choice) as [am|e]; [|reflexivity].
  destruct (reply_tool_calls am) as [[|tc tcs]|]; cbn [truthy_calls];
    try reflexivity.
  change (default [] (Some (tc :: tcs))) with (tc :: tcs).
  destruct (tool_trace_outcome (tc :: tcs) None) as
    [(rs & Hrs & Htr) | (pre & tc' & post & rs & e & _ & _ & _ & Hall & Htr)];
    rewrite Htr.
  - rewrite Hrs. cbn [fst snd].
    destruct (chat_completions_create w1 (second_request (h1 ++ pairs (tc :: tcs) rs)))
      as [r2 w2]. cbn [fst snd].
    rewrite <- (app_assoc log).
    destruct (rbind r2 first_choice); reflexivity.
  - rewrite Hall. reflexivity.
Qed.

(** X11: a turn sends the completion service one request or two.  The
    first is for the model gpt-4o and carries the history up to and
    including the new user message, the three tool schemas and the tool
    choice auto.  A second is sent exactly when the first reply requested
    tools and every one of them was executed; it is for the model gpt-4
    and carries that history extended by the pair of every request, each
    tool message with the result of its request, and neither tool schemas
    nor a tool choice.  Keeping the log changes nothing else. *)
Theorem service_called_at_most_twice sid text
    (convs : gmap string (list message)) (w : World) (log : list request) :
  let plain := process_message sid text {| conversations := convs; world := w |} in
  let logged :=
    logged_process_message sid text {| conversations := convs; world := (w, log) |} in
  let h1 :=
    default get_initial_conversation (convs !! sid)
      ++ [ {| role := User; content := Some text;
              tool_calls := None; tool_call_id := None |} ] in
  let first :=
    {| model := "gpt-4o"; messages := h1;
       tools := Some TOOLS; tool_choice := Some "auto" |} in
  fst logged = fst plain /\
  conversations (snd logged) = conversations (snd plain) /\
  fst (world (snd logged)) = world (snd plain) /\
  map schema_name TOOLS
    = ["validate_account_number"; "validate_pin"; "get_account_balance"] /\
  (exists r1 w1,
      chat_completions_create w first = (r1, w1) /\
      snd (world (snd logged)) =
        log ++ first ::
          match rbind r1 first_choice with
          | Ok am =>
              match reply_tool_calls am with
              | Some (tc :: tcs) =>
                  match tool_responses (tc :: tcs) None with
                  | Ok rs =>
                      [ {| model := "gpt-4";
                           messages := h1 ++ pairs (tc :: tcs) rs;
                           tools := None; tool_choice := None |} ]
                  | Err _ => []
                  end
              | _ => []
              end
          | Err _ => []
          end) /\
  (forall tcs rs,
      tool_responses tcs None = Ok rs ->
      executed_pairs data py_repr json_loads json_dumps tcs rs (pairs tcs rs)) /\
  (length log + 1 <= length (snd (world (snd logged))) <= length log + 2)%nat.
Proof.
  cbv zeta. rewrite !process_message_turn. unfold turn, base_history.
  cbn [conversations world].
  pose proof (logged_turn_result_eq (default get_initial_conversation (convs !! sid))
                w log text) as Heq.
  cbv zeta in Heq. rewrite Heq. clear Heq.
  change {| role := User; content := Some text;
            tool_calls := None; tool_call_id := None |}
    with (user_message text).
  set (h1 := default get_initial_conversation (convs !! sid) ++ [user_message text]).
  change {| model := "gpt-4o"; messages := h1;
            tools := Some TOOLS; tool_choice := Some "auto" |}
    with (first_request h1).
  destruct (turn_result (default get_initial_conversation (convs !! sid)) w text)
    as [[out h] w'].
  cbn [fst snd conversations world].
  split; [reflexivity|]. split; [reflexivity|]. split; [reflexivity|].
  split; [reflexivity|].
  split.
  { destruct (chat_completions_create w (first_request h1)) as [r1 w1].
    exists r1, w1. split; reflexivity. }
  split; [intros tcs rs; apply executed_pairs_intro|].
  cbn [world set_world snd]. rewrite length_app. cbn [length].
  destruct (rbind (chat_completions_create w (first_request h1)).1 first_choice)
    as [am|e]; [|simpl; lia].
  destruct (reply_tool_calls am) as [[|tc tcs]|]; try (simpl; lia).
  destruct (tool_responses (tc :: tcs) None); simpl; lia.
Qed.

(** *** Requests served one after the other *)

Lemma serve_all_cons c cs (s : engine) :
  serve_all (c :: cs) s = serve_all cs (snd (serve c s)).
Proof. reflexivity. Qed.

Lemma serve_post_lookup sid text (s : engine) :
  exists pre rs tail,
    conversations (snd (serve (PostChat sid text) s)) !! sid
      = Some (base_history s sid ++ user_message text :: pairs pre rs ++ tail) /\
    length rs = length pre /\
    (tail = [] \/ (exists tc, tail = [call_message tc])
     \/ exists ret, tail = [reply_message ret]).
Proof.
  destruct (process_message_shape sid text s) as (pre & rs & tail & Hh & Hlen & Htail).
  exists pre, rs, tail. split; [|split; [exact Hlen|]].
  - simpl. unfold chat_endpoint.
    destruct (process_message sid text s) as [[ret|e] s']; exact Hh.
  - destruct (fst (process_message sid text s)); [eauto | tauto].
Qed.

Lemma serve_other c other (s : engine) :
  call_session c <> other ->
  conversations (snd (serve c s)) !! other = conversations s !! other.
Proof.
  intros Hne. destruct c as [sid text | sid]; simpl in *.
  - unfold chat_endpoint.
    destruct (process_message sid text s) as [out s'] eqn:Hrun.
    destruct (process_message_inv _ _ _ _ _ _ _ _ _ _ _ Hrun) as (h' & _ & _ & _ & Hother).
    destruct out; simpl; apply Hother; congruence.
  - apply end_session_other. congruence.
Qed.

(** X12: a session that a sequence of requests does not address is left
    exactly as it was, whether the requests succeed or fail. *)
Theorem unaddressed_session_untouched (cs : list api_call) (s : engine)
    (sid : string) :
  Forall (fun c => call_session c <> sid) cs ->
  conversations (serve_all cs s) !! sid = conversations s !! sid.
Proof.
  intros Hall. revert s. induction Hall as [|c cs Hc Hall IH]; intros s.
  - reflexivity.
  - rewrite serve_all_cons, IH. by apply serve_other.
Qed.

Lemma tools_answer_pairs tcs : forall rs prev tail,
  (forall p, tools_answer_calls p tail = true) ->
  tools_answer_calls prev (pairs tcs rs ++ tail) = true.
Proof.
  induction tcs as [|tc tcs IH]; intros [|r rs] prev tail Htail; simpl;
    try apply Htail.
  unfold answers. simpl. rewrite String.eqb_refl. simpl. by apply IH.
Qed.

Lemma tools_answer_app l1 : forall prev l2,
  tools_answer_calls prev l1 = true ->
  (forall p, tools_answer_calls p l2 = true) ->
  tools_answer_calls prev (l1 ++ l2) = true.
Proof.
  induction l1 as [|m l1 IH]; intros prev l2 H1 H2; simpl in *; [apply H2|].
  apply andb_prop in H1. destruct H1 as [Hm H1].
  rewrite Hm. simpl. by apply IH.
Qed.

Lemma tools_answer_turn text pre rs tail :
  (tail = [] \/ (exists tc, tail = [call_message tc])
   \/ exists ret, tail = [reply_message ret]) ->
  forall p, tools_answer_calls p (user_message text :: pairs pre rs ++ tail) = true.
Proof.
  intros Htail p. simpl. apply tools_answer_pairs.
  intros q. destruct Htail as [-> | [[tc ->] | [ret ->]]]; reflexivity.
Qed.

Lemma pairs_no_system tcs : forall rs,
  Forall (fun m => role m <> System) (pairs tcs rs).
Proof.
  induction tcs as [|tc tcs IH]; intros [|r rs]; simpl; try constructor;
    try discriminate.
  constructor; [discriminate | apply IH].
Qed.

Lemma turn_no_system text pre rs tail :
  (tail = [] \/ (exists tc, tail = [call_message tc])
   \/ exists ret, tail = [reply_message ret]) ->
  Forall (fun m => role m <> System) (user_message text :: pairs pre rs ++ tail).
Proof.
  intros Htail. constructor; [discriminate|].
  apply Forall_app. split; [apply pairs_no_system|].
  destruct Htail as [-> | [[tc ->] | [ret ->]]]; repeat constructor; discriminate.
Qed.

Lemma serve_well_formed c (s : engine) :
  well_formed s -> well_formed (snd (serve c s)).
Proof.
  intros Hwf sid h Hh.
  destruct (decide (call_session c = sid)) as [Heq | Hne].
  2:{ rewrite (serve_other c sid s Hne) in Hh. exact (Hwf sid h Hh). }
  destruct c as [sid' text | sid']; simpl in Heq; subst sid'.
  - destruct (serve_post_lookup sid text s) as (pre & rs & tail & Hnew & Hlen & Htail).
    rewrite Hnew in Hh. injection Hh as <-.
    unfold base_history.
    destruct (conversations s !! sid) as [h0|] eqn:Hs; simpl.
    + destruct (Hwf sid h0 Hs) as [(t0 & rest0 & -> & Hrest0) Hans]. split.
      * exists t0, (rest0 ++ user_message text :: pairs pre rs ++ tail).
        split; [reflexivity|]. apply Forall_app. split; [exact Hrest0|].
        by apply turn_no_system.
      * apply tools_answer_app; [exact Hans|]. by apply tools_answer_turn.
    + split.
      * exists text, (pairs pre rs ++ tail). split; [reflexivity|].
        pose proof (turn_no_system text pre rs tail Htail) as Hall.
        by inversion Hall.
      * change (tools_answer_calls (Some system_message)
                  (user_message text :: pairs pre rs ++ tail) = true).
        by apply tools_answer_turn.
  - change (conversations (snd (end_session sid s)) !! sid = Some h) in Hh.
    by rewrite end_session_lookup in Hh.
Qed.

(** X13: every history the application ever stores, after any sequence of
    requests from its start, begins with the system message followed by a
    user message, holds no other system message, and has each of its tool
    messages immediately after an assistant message that lists exactly
    the request the tool message answers. *)
Theorem stored_histories_well_formed (cs : list api_call) (w : World)
    (sid : string) (h : list message) :
  conversations (serve_all cs (new_engine w)) !! sid = Some h ->
  seeded h /\ tools_answer_calls None h = true.
Proof.
  assert (Hall : forall (s : engine), well_formed s -> well_formed (serve_all cs s)).
  { induction cs as [|c cs IH]; intros s Hwf; [exact Hwf|].
    rewrite serve_all_cons. apply IH. by apply serve_well_formed. }
  apply (Hall (new_engine w)).
  intros sid' h' Hh'. simpl in Hh'. by rewrite lookup_empty in Hh'.
Qed.
Lemma user_texts_app l1 l2 : user_texts (l1 ++ l2) = user_texts l1 ++ user_texts l2.
Proof. unfold user_texts. by rewrite List.filter_app, map_app. Qed.

Lemma user_texts_pairs tcs : forall rs, user_texts (pairs tcs rs) = [].
Proof.
  induction tcs as [|tc tcs IH]; intros [|r rs]; try reflexivity.
  apply (IH rs).
Qed.

Lemma user_texts_turn text pre rs tail :
  (tail = [] \/ (exists tc, tail = [call_message tc])
   \/ exists ret, tail = [reply_message ret]) ->
  user_texts (user_message text :: pairs pre rs ++ tail) = [Some text].
Proof.
  intros Htail.
  change (user_message text :: pairs pre rs ++ tail)
    with ([user_message text] ++ pairs pre rs ++ tail).
  rewrite !user_texts_app, user_texts_pairs.
  destruct Htail as [-> | [[tc ->] | [ret ->]]]; reflexivity.
Qed.

Lemma serve_records sid c (s : engine) acc :
  records sid s acc ->
  records sid (snd (serve c s))
    (match c with
     | PostChat sid' message =>
         if String.eqb sid' sid then acc ++ [message] else acc
     | DeleteChat sid' => if String.eqb sid' sid then [] else acc
     end).
Proof.
  unfold records. intros Hrec.
  destruct c as [sid' text | sid']; destruct (String.eqb_spec sid' sid) as [-> | Hne].
  - destruct (serve_post_lookup sid text s) as (pre & rs & tail & Hnew & _ & Htail).
    rewrite Hnew. split; [|by destruct acc].
    rewrite user_texts_app, (user_texts_turn _ _ _ _ Htail), map_app. simpl.
    f_equal. unfold base_history.
    destruct (conversations s !! sid); simpl; [tauto | by subst].
  - by rewrite (serve_other (PostChat sid' text) sid s Hne).
  - change (snd (serve (DeleteChat sid) s)) with (snd (end_session sid s)).
    by rewrite end_session_lookup.
  - by rewrite (serve_other (DeleteChat sid') sid s Hne).
Qed.

(** X14: after any sequence of requests from the start of the
    application, a session exists exactly when a message was posted to it
    since its last deletion, and the user messages of its history are
    then exactly the messages posted since that deletion, in the order
    they were posted and including those of turns that failed. *)
Theorem history_records_posted_messages (cs : list api_call) (w : World)
    (sid : string) :
  match conversations (serve_all cs (new_engine w)) !! sid with
  | Some h => user_texts h = map Some (posted sid cs) /\ posted sid cs <> []
  | None => posted sid cs = []
  end.
Proof.
  assert (Hall : forall (s : engine) acc,
    records sid s acc ->
    records sid (serve_all cs s)
      (fold_left
         (fun acc c =>
            match c with
            | PostChat sid' message =>
                if String.eqb sid' sid then acc ++ [message] else acc
            | DeleteChat sid' => if String.eqb sid' sid then [] else acc
            end) cs acc)).
  { induction cs as [|c cs IH]; intros s acc Hrec; [exact Hrec|].
    rewrite serve_all_cons. simpl. apply IH. by apply serve_records. }
  apply (Hall (new_engine w) []).
  unfold records. simpl. by rewrite lookup_empty.
Qed.
End EngineSequences.

(** *** The properties above on the examples *)


(** The turn of the example whose second request raises: the endpoint
    answers 500 with the exception, and the session keeps the user message
    and the pair of the first request, with its result. *)
Lemma failed_turn_keeps_messages_witness :
  fixture_process_message "s1" "hi" example_failed_second =
    (Err (KeyError "account_number"),
     snd (fixture_process_message "s1" "hi" example_failed_second)) /\
  chat_endpoint fixture_data fixture_repr fixture_loads fixture_dumps scripted_create
      "s1" "hi" example_failed_second =
    (Http500 (KeyError "account_number"),
     snd (fixture_process_message "s1" "hi" example_failed_second)) /\
  (exists pre tc post rs,
     [call_validate_account; call_pin_without_arguments] = pre ++ tc :: post /\
     tool_responses fixture_data fixture_repr fixture_loads pre None = Ok rs /\
     tool_response fixture_data fixture_repr fixture_loads tc (response_after None rs)
       = Err (KeyError "account_number") /\
     conversations (snd (fixture_process_message "s1" "hi" example_failed_second))
         !! "s1" =
       Some ((base_history example_failed_second "s1"
                ++ [ {| role := User; content := Some "hi";
                        tool_calls := None; tool_call_id := None |} ])
               ++ pairs fixture_dumps pre rs ++ [])) /\
  conversations (snd (fixture_process_message "s1" "hi" example_failed_second))
      !! "s1" =
    Some [ {| role := System; content := Some SYSTEM_PROMPT;
              tool_calls := None; tool_call_id := None |};
           {| role := User; content := Some "hi";
              tool_calls := None; tool_call_id := None |};
           {| role := Assistant; content := None;
              tool_calls := Some [call_validate_account]; tool_call_id := None |};
           {| role := Tool; content := Some (fixture_dumps validate_account_result);
              tool_calls := None; tool_call_id := Some "call_1" |} ].
Proof.
  assert (Hrun : fixture_process_message "s1" "hi" example_failed_second =
    (Err (KeyError "account_number"),
     snd (fixture_process_message "s1" "hi" example_failed_second)))
    by (vm_compute; reflexivity).
  split; [exact Hrun|].
  destruct (failed_turn_keeps_messages fixture_data fixture_repr fixture_loads
              fixture_dumps _ scripted_create "s1" "hi" example_failed_second
              _ _ Hrun)
    as (Hendpoint & _ & _ & r1 & w1 & Hc1 & Hcases).
  split; [exact Hendpoint|]. split; [|vm_compute; reflexivity].
  injection Hc1 as <- <-.
  destruct Hcases as
    [(Hbad & _) | (am & tcs & Ham & Htcs & _ &
       [(pre & tc & post & rs & Hsplit & Hrs & _ & Htc & _ & Hh)
       | (rs & r2 & Hrs & _)])].
  - discriminate Hbad.
  - injection Ham as <-. injection Htcs as <-.
    exists pre, tc, post, rs. auto.
  - injection Ham as <-. injection Htcs as <-.
    vm_compute in Hrs. discriminate Hrs.
Defined.

(** The two requests of the example with two tool calls: the first with
    the schemas, the second with the two pairs and without schemas. *)
Lemma service_called_at_most_twice_witness :
  snd (world (snd (process_message fixture_data fixture_repr fixture_loads
                     fixture_dumps (logged_create scripted_create) "s1" "hi"
                     {| conversations := ∅;
                        world := (world example_two_calls, []) |}))) =
    [ {| model := "gpt-4o";
         messages :=
           [ {| role := System; content := Some SYSTEM_PROMPT;
                tool_calls := None; tool_call_id := None |};
             {| role := User; content := Some "hi";
                tool_calls := None; tool_call_id := None |} ];
         tools := Some TOOLS; tool_choice := Some "auto" |};
      {| model := "gpt-4";
         messages :=
           [ {| role := System; content := Some SYSTEM_PROMPT;
                tool_calls := None; tool_call_id := None |};
             {| role := User; content := Some "hi";
                tool_calls := None; tool_call_id := None |};
             {| role := Assistant; content := None;
                tool_calls := Some [call_validate_account]; tool_call_id := None |};
             {| role := Tool; content := Some (fixture_dumps validate_account_result);
                tool_calls := None; tool_call_id := Some "call_1" |};
             {| role := Assistant; content := None;
                tool_calls := Some [call_validate_pin]; tool_call_id := None |};
             {| role := Tool; content := Some (fixture_dumps validate_pin_result);
                tool_calls := None; tool_call_id := Some "call_2" |} ];
         tools := None; tool_choice := None |} ].
Proof.
  destruct (service_called_at_most_twice fixture_data fixture_repr fixture_loads
              fixture_dumps _ scripted_create "s1" "hi" ∅
              (world example_two_calls) [])
    as (_ & _ & _ & _ & (r1 & w1 & Hc1 & Hlog) & _).
  injection Hc1 as <- <-.
  rewrite Hlog. reflexivity.
Defined.

(** Requests addressed to s1 leave session s2 as the first request made it. *)
Lemma unaddressed_session_untouched_witness :
  Forall (fun c => call_session c <> "s2") [PostChat "s1" "hi"; DeleteChat "s1"] /\
  conversations
      (serve_all fixture_data fixture_repr fixture_loads fixture_dumps scripted_create
         [PostChat "s1" "hi"; DeleteChat "s1"]
         (serve_all fixture_data fixture_repr fixture_loads fixture_dumps
            scripted_create [PostChat "s2" "hello"]
            (new_engine [text_reply "a"; text_reply "b"]))) !! "s2"
    = conversations
        (serve_all fixture_data fixture_repr fixture_loads fixture_dumps
           scripted_create [PostChat "s2" "hello"]
           (new_engine [text_reply "a"; text_reply "b"])) !! "s2".
Proof.
  assert (Hall : Forall (fun c => call_session c <> "s2")
                   [PostChat "s1" "hi"; DeleteChat "s1"])
    by (repeat constructor; discriminate).
  split; [exact Hall|].
  exact (unaddressed_session_untouched fixture_data fixture_repr fixture_loads
           fixture_dumps _ scripted_create _ _ "s2" Hall).
Defined.

(** The history of the two-request example is stored and well formed. *)
Lemma stored_histories_well_formed_witness :
  conversations
      (serve_all fixture_data fixture_repr fixture_loads fixture_dumps scripted_create
         [PostChat "s1" "hi"]
         (new_engine [ requests_reply [call_validate_account; call_validate_pin];
                       text_reply "done" ])) !! "s1"
    = Some two_calls_history /\
  seeded two_calls_history /\
  tools_answer_calls None two_calls_history = true.
Proof.
  assert (Hh : conversations
      (serve_all fixture_data fixture_repr fixture_loads fixture_dumps scripted_create
         [PostChat "s1" "hi"]
         (new_engine [ requests_reply [call_validate_account; call_validate_pin];
                       text_reply "done" ])) !! "s1"
    = Some two_calls_history) by (vm_compute; reflexivity).
  split; [exact Hh|].
  exact (stored_histories_well_formed fixture_data fixture_repr fixture_loads
           fixture_dumps _ scripted_create _ _ "s1" two_calls_history Hh).
Defined.

(** ** The client *)

(** X15: once [end_session] of the client has returned [True] the client
    holds no session: the server had answered 200 to its delete request,
    and from then on [send_message] raises [ValueError] and [end_session]
    returns [False], both without sending anything. *)
Theorem client_cannot_send_after_quit (Net : Type)
    (http_delete : Net -> string -> result Z * Net)
    (http_post : Net -> string -> pyval -> result (Z * result pyval) * Net)
    (c c' : BankingBotClient.client) (n n' : Net) :
  BankingBotClient.end_session Net http_delete c n = (Ok true, c', n') ->
  (exists sid,
      BankingBotClient.active c = Some sid /\
      http_delete n (BankingBotClient.chat_url c sid) = (Ok 200, n')) /\
  BankingBotClient.session_id c' = None /\
  BankingBotClient.server_url c' = BankingBotClient.server_url c /\
  (forall message n2,
      BankingBotClient.send_message Net http_post c' message n2
        = (Err ValueError, n2)) /\
  (forall n2,
      BankingBotClient.end_session Net http_delete c' n2 = (Ok false, c', n2)).
Proof.
  unfold BankingBotClient.end_session at 1.
  destruct (BankingBotClient.active c) as [sid|] eqn:Hactive; [|discriminate].
  destruct (http_delete n (BankingBotClient.chat_url c sid)) as [[status|e] n1] eqn:Hd;
    [|discriminate].
  destruct (status =? 200) eqn:Hst; [|discriminate].
  intros [= <- <-]. apply Z.eqb_eq in Hst. subst status.
  split; [eauto|]. repeat split.
Qed.

(** The example client quits against a server that answers 200. *)
Lemma client_cannot_send_after_quit_witness :
  BankingBotClient.end_session (list Z) scripted_delete example_client [200; 200]
    = (Ok true,
       {| BankingBotClient.server_url := "http://localhost:8000";
          BankingBotClient.session_id := None |}, [200]) /\
  BankingBotClient.send_message (list Z) scripted_post
      {| BankingBotClient.server_url := "http://localhost:8000";
         BankingBotClient.session_id := None |} "hi" [200]
    = (Err ValueError, [200]).
Proof.
  split; [reflexivity|].
  exact (proj1 (proj2 (proj2 (proj2
    (client_cannot_send_after_quit (list Z) scripted_delete scripted_post
       example_client _ [200; 200] [200] eq_refl)))) "hi" [200]).
Defined.

(** X16: [end_session] of the client changes the client only when it
    returns [True]: when the server answers with another status, or the
    request raises, the client keeps its session (and may try again); and
    a client without a session, or with an empty identifier, sends
    nothing and gets [False]. *)
Theorem client_keeps_session_unless_deleted (Net : Type)
    (http_delete : Net -> string -> result Z * Net)
    (c c' : BankingBotClient.client) (n n' : Net) (r : result bool) :
  BankingBotClient.end_session Net http_delete c n = (r, c', n') ->
  (r <> Ok true -> c' = c) /\
  (BankingBotClient.active c = None -> r = Ok false /\ n' = n) /\
  (forall sid status,
      BankingBotClient.active c = Some sid ->
      http_delete n (BankingBotClient.chat_url c sid) = (Ok status, n') ->
      status <> 200 -> r = Ok false /\ BankingBotClient.active c' = Some sid).
Proof.
  unfold BankingBotClient.end_session.
  destruct (BankingBotClient.active c) as [sid|] eqn:Hactive.
  - destruct (http_delete n (BankingBotClient.chat_url c sid)) as [[status|e] n1] eqn:Hd.
    + destruct (status =? 200) eqn:Hst; intros [= <- <- <-].
      * split; [congruence|]. split; [discriminate|].
        intros sid' status' Hs Hd' Hne. injection Hs as <-.
        rewrite Hd in Hd'. apply Z.eqb_eq in Hst. congruence.
      * split; [reflexivity|]. split; [discriminate|].
        intros sid' status' Hs _ _. injection Hs as <-. auto.
    + intros [= <- <- <-]. split; [reflexivity|]. split; [discriminate|].
      intros sid' status' Hs Hd' _. injection Hs as <-.
      rewrite Hd in Hd'. discriminate.
  - intros [= <- <- <-]. split; [reflexivity|]. split; [auto|]. discriminate.
Qed.

(** The example client against a server that answers 503 to the delete. *)
Lemma client_keeps_session_unless_deleted_witness :
  BankingBotClient.end_session (list Z) scripted_delete example_client [503]
    = (Ok false, example_client, []) /\
  (Ok false <> Ok true -> example_client = example_client).
Proof.
  split; [reflexivity|].
  exact (proj1 (client_keeps_session_unless_deleted (list Z) scripted_delete
                  example_client example_client [503] [] (Ok false) eq_refl)).
Defined.

(** On the fixture no record is stored under 00000, and a balance request
    for it with a null PIN is answered "Account not found". *)
Lemma account_not_found_only_for_null_pin_witness :
  get_account fixture_data (PStr "00000") = Ok [] /\
  get_account_balance fixture_data fixture_repr (PStr "00000") PNone
    = Ok (error_result "Account not found").
Proof.
  assert (Hacc : get_account fixture_data (PStr "00000") = Ok [])
    by (vm_compute; reflexivity).
  split; [exact Hacc|].
  exact (proj2 (proj1 (account_not_found_only_for_null_pin fixture_data fixture_repr
                         (PStr "00000") PNone)) (conj Hacc eq_refl)).
Defined.
